(** * Azure resource listing of kops (package [azure], [pkg/resources/azure])

    A shallow embedding of the adapter that lists every cloud resource of a
    cluster and hands the engine a map of resource descriptors keyed by
    [Type:ID], together with the properties of that listing.

    Conventions of the embedding:
    - a Go pointer [*T] is an [option T]; dereferencing [nil] is the outcome
      [Panic];
    - a Go function returning [(T, error)] returns a [result T]; every
      [return nil, err] of the source is [Err err], so the value component
      is nil exactly when the error is not ([value_of], [error_of]);
    - a Go [map[string]V] is a [gmap string V], a [map[string]struct{}] used
      as a set is a [gset string]; Go leaves the iteration order of a map
      unspecified, the embedding iterates in the order of [map_to_list] and
      [elements], and the theorems never depend on that order;
    - an [error] is modelled by its message. *)

From stdpp Require Import base option list gmap strings.

Open Scope string_scope.
Open Scope list_scope.

(** ** Outcomes of a Go call *)

Inductive result (A : Type) : Type :=
| Ok (a : A)
| Err (e : string)
| Panic.
Arguments Ok {A} a.
Arguments Err {A} e.
Arguments Panic {A}.

#[export] Instance result_ret : MRet result := λ A a, Ok a.
#[export] Instance result_bind : MBind result := λ A B f m,
  match m with
  | Ok a => f a
  | Err e => Err e
  | Panic => Panic
  end.

(** [*p] *)
Definition deref {A} (p : option A) : result A :=
  match p with
  | Some a => Ok a
  | None => Panic
  end.

(** The two components of a Go [(value, error)] return; the zero value of a
    slice or of a map stands for [nil]. *)
Definition error_of {A} (r : result A) : option string :=
  match r with
  | Err e => Some e
  | _ => None
  end.

Definition value_of {A} (zero : A) (r : result A) : A :=
  match r with
  | Ok a => a
  | _ => zero
  end.

(** [err == nil] *)
Definition is_Ok {A} (r : result A) : bool :=
  match r with
  | Ok _ => true
  | _ => false
  end.

(** [for _, x := range xs { s = body(s, x) }], where the body may return
    early from the enclosing function with an error, or panic. *)
Fixpoint for_range {A S : Type} (body : S → A → result S) (xs : list A) (s : S)
  : result S :=
  match xs with
  | [] => Ok s
  | x :: xs' => s' ← body s x; for_range body xs' s'
  end.

(** ** The objects of the Azure SDK that the listing reads

    Fields promoted from an embedded properties struct are written as
    direct fields. *)

Record Group := {
  Group_Name : option string;
  Group_Tags : gmap string (option string);
}.

Record SecurityGroup := {
  SecurityGroup_ID : option string;
  SecurityGroup_Name : option string;
  SecurityGroup_Tags : gmap string (option string);
}.

Record Subnet := {
  Subnet_Name : option string;
  Subnet_NetworkSecurityGroup : option SecurityGroup;
}.

Record VirtualNetwork := {
  VirtualNetwork_Name : option string;
  VirtualNetwork_Tags : gmap string (option string);
  VirtualNetwork_Subnets : option (list Subnet);
}.

Record RouteTable := {
  RouteTable_Name : option string;
  RouteTable_Tags : gmap string (option string);
}.

Record SubResource := {
  SubResource_ID : option string;
}.

Record IPConfiguration := {
  IPConfiguration_Subnet : option SubResource;
  IPConfiguration_LoadBalancerBackendAddressPools : option (list SubResource);
}.

Record NetworkInterfaceConfiguration := {
  IPConfigurations : option (list IPConfiguration);
}.

Record NetworkProfile := {
  NetworkInterfaceConfigurations : option (list NetworkInterfaceConfiguration);
}.

Record VirtualMachineProfile := {
  VMProfile_NetworkProfile : option NetworkProfile;
}.

Record VirtualMachineScaleSetIdentity := {
  Identity_PrincipalID : option string;
}.

Record VirtualMachineScaleSet := {
  VMSS_Name : option string;
  VMSS_Tags : gmap string (option string);
  VMSS_Identity : option VirtualMachineScaleSetIdentity;
  VMSS_VirtualMachineProfile : option VirtualMachineProfile;
}.

Record DataDisk := {
  DataDisk_Name : option string;
}.

Record StorageProfile := {
  DataDisks : option (list DataDisk);
}.

Record VirtualMachineScaleSetVM := {
  VM_StorageProfile : option StorageProfile;
}.

Record Disk := {
  Disk_Name : option string;
  Disk_Tags : gmap string (option string);
}.

Record RoleAssignment := {
  RoleAssignment_Name : option string;
  RoleAssignment_Scope : option string;
  RoleAssignment_PrincipalID : option string;
}.

Record PublicIPAddress := {
  PublicIPAddress_ID : option string;
  PublicIPAddress_Name : option string;
  PublicIPAddress_Tags : gmap string (option string);
}.

Record FrontendIPConfiguration := {
  Frontend_PublicIPAddress : option PublicIPAddress;
}.

Record LoadBalancer := {
  LoadBalancer_Name : option string;
  LoadBalancer_Tags : gmap string (option string);
  LoadBalancer_FrontendIPConfigurations : option (list FrontendIPConfiguration);
}.

(** The parsed forms of Azure resource IDs ([azure.Parse...ID]). *)

Record NetworkSecurityGroupID := { NetworkSecurityGroupName : string }.
Record SubnetID := { VirtualNetworkName : string; SubnetName : string }.
Record LoadBalancerID := { LoadBalancerName : string }.
Record PublicIPAddressID := { PublicIPAddressName : string }.

(** ** Resource descriptors ([resources.Resource]) *)

(** [Obj interface{}]: the SDK object the descriptor was made from. *)
Inductive Object :=
| ObjGroup (rg : Group)
| ObjVirtualNetwork (vnet : VirtualNetwork)
| ObjSubnet (subnet : Subnet)
| ObjSecurityGroup (nsg : SecurityGroup)
| ObjRouteTable (rt : RouteTable)
| ObjVMScaleSet (vmss : VirtualMachineScaleSet)
| ObjDisk (disk : Disk)
| ObjRoleAssignment (ra : RoleAssignment)
| ObjLoadBalancer (lb : LoadBalancer)
| ObjPublicIPAddress (pip : PublicIPAddress).

(** [Deleter]: which method of the getter the descriptor carries; the
    closure made for a subnet captures the name of its virtual network. *)
Inductive DeleterFn :=
| deleteResourceGroup
| deleteVirtualNetwork
| deleteSubnet (vnetName : string)
| deleteNetworkSecurityGroup
| deleteRouteTable
| deleteVMScaleSet
| deleteDisk
| deleteRoleAssignment
| deleteLoadBalancer
| deletePublicIPAddress.

(** The fields the listing writes or reads; a field a composite literal
    leaves out has its zero value ([false], [nil]). *)
Record Resource := {
  Obj : Object;
  Type_ : string;
  ID : string;
  Name : string;
  Deleter : DeleterFn;
  Blocks : list string;
  Shared : bool;
  Done : bool;
}.

(** [resources.ClusterInfo] *)
Record ClusterInfo := {
  ClusterName : string;
  AzureResourceGroupName : string;
  AzureResourceGroupShared : bool;
  AzureNetworkShared : bool;
  AzureRouteTableShared : bool;
}.

(** [azure.AzureCloud]: the [List] method of each client. *)
Record AzureCloud := {
  ResourceGroup_List : string → result (list Group);
  VirtualNetwork_List : string → result (list VirtualNetwork);
  Subnet_List : string → string → result (list Subnet);
  NetworkSecurityGroup_List : string → result (list SecurityGroup);
  RouteTable_List : string → result (list RouteTable);
  VMScaleSet_List : string → result (list VirtualMachineScaleSet);
  VMScaleSetVM_List : string → string → result (list VirtualMachineScaleSetVM);
  Disk_List : string → result (list Disk);
  RoleAssignment_List : string → result (list RoleAssignment);
  LoadBalancer_List : string → result (list LoadBalancer);
  PublicIPAddress_List : string → result (list PublicIPAddress);
}.

Record resourceGetter := {
  cloud : AzureCloud;
  clusterInfo : ClusterInfo;
}.

Definition typeResourceGroup := "ResourceGroup".
Definition typeVirtualNetwork := "VirtualNetwork".
Definition typeNetworkSecurityGroup := "NetworkSecurityGroup".
Definition typeSubnet := "Subnet".
Definition typeRouteTable := "RouteTable".
Definition typeVMScaleSet := "VMScaleSet".
Definition typeDisk := "Disk".
Definition typeRoleAssignment := "RoleAssignment".
Definition typeLoadBalancer := "LoadBalancer".
Definition typePublicIPAddress := "PublicIPAddress".

Definition toKey (rtype id : string) : string := rtype +:+ ":" +:+ id.

Definition resourceGroupName (g : resourceGetter) : string :=
  AzureResourceGroupName (clusterInfo g).

(** [vmss.Identity.PrincipalID], when neither pointer is nil. *)
Definition principalID (vmss : VirtualMachineScaleSet) : option string :=
  identity ← VMSS_Identity vmss; Identity_PrincipalID identity.

(** ** What the listing uses of package [cloudup/azure]

    The tag key that names the owning cluster and the parsers of resource
    IDs are declared outside of the listing; it is parametric in them. *)
Class AzurePackage := {
  TagClusterName : string;
  ParseNetworkSecurityGroupID : string → result NetworkSecurityGroupID;
  ParseSubnetID : string → result SubnetID;
  ParseLoadBalancerID : string → result LoadBalancerID;
  ParsePublicIPAddressID : string → result PublicIPAddressID;
}.

(** [fmt.Errorf(prefix + "%s", err)] on the error path of a call. *)
Definition wrap_err {A} (prefix : string) (r : result A) : result A :=
  match r with
  | Err e => Err (prefix +:+ e)
  | _ => r
  end.

Section Listing.
Context `{AzurePackage}.

(** *** The ownership filter *)

(** The loop of [isOwnedByCluster] over the entries of the tag map. The
    right operand of [&&] is evaluated, and [v] dereferenced, only when the
    left operand is true. *)
Fixpoint isOwnedByCluster_range (name : string)
    (kvs : list (string * option string)) : result bool :=
  match kvs with
  | [] => Ok false
  | (k, v) :: kvs' =>
      if bool_decide (k = TagClusterName) then
        s ← deref v;
        if bool_decide (s = name) then Ok true
        else isOwnedByCluster_range name kvs'
      else isOwnedByCluster_range name kvs'
  end.

Definition isOwnedByCluster (g : resourceGetter)
    (tags : gmap string (option string)) : result bool :=
  isOwnedByCluster_range (ClusterName (clusterInfo g)) (map_to_list tags).

(** *** Resource groups *)

Definition toResourceGroupResource (g : resourceGetter) (rg : Group)
  : result Resource :=
  name ← deref (Group_Name rg);
  Ok {| Obj := ObjGroup rg;
        Type_ := typeResourceGroup;
        ID := name;
        Name := name;
        Deleter := deleteResourceGroup;
        Blocks := [];
        Shared := AzureResourceGroupShared (clusterInfo g);
        Done := false |}.

Definition listResourceGroups (g : resourceGetter) : result (list Resource) :=
  rgs ← ResourceGroup_List (cloud g) "";
  for_range (λ rs rg,
    owned ← isOwnedByCluster g (Group_Tags rg);
    if negb owned then Ok rs
    else r ← toResourceGroupResource g rg; Ok (rs ++ [r])) rgs [].

(** *** Virtual networks and subnets *)

Definition toVirtualNetworkResource (g : resourceGetter) (vnet : VirtualNetwork)
  : result Resource :=
  let blocks := [toKey typeResourceGroup (resourceGroupName g)] in
  nsgs ← match VirtualNetwork_Subnets vnet with
         | None => Ok (∅ : gset string)
         | Some sns =>
             for_range (λ (nsgs : gset string) sn,
               match Subnet_NetworkSecurityGroup sn with
               | None => Ok nsgs
               | Some nsg =>
                   id ← deref (SecurityGroup_ID nsg);
                   nsgID ← wrap_err "parsing network security group ID: "
                             (ParseNetworkSecurityGroupID id);
                   Ok ({[NetworkSecurityGroupName nsgID]} ∪ nsgs)
               end) sns ∅
         end;
  let blocks := blocks ++ (toKey typeNetworkSecurityGroup <$> elements nsgs) in
  name ← deref (VirtualNetwork_Name vnet);
  Ok {| Obj := ObjVirtualNetwork vnet;
        Type_ := typeVirtualNetwork;
        ID := name;
        Name := name;
        Deleter := deleteVirtualNetwork;
        Blocks := blocks;
        Shared := AzureNetworkShared (clusterInfo g);
        Done := false |}.

Definition toSubnetResource (g : resourceGetter) (subnet : Subnet)
    (vnetName : string) : result Resource :=
  name ← deref (Subnet_Name subnet);
  Ok {| Obj := ObjSubnet subnet;
        Type_ := typeSubnet;
        ID := name;
        Name := name;
        Deleter := deleteSubnet vnetName;
        Blocks := [toKey typeVirtualNetwork vnetName;
                   toKey typeResourceGroup (resourceGroupName g)];
        Shared := AzureNetworkShared (clusterInfo g);
        Done := false |}.

Definition listSubnets (g : resourceGetter) (vnetName : string)
  : result (list Resource) :=
  subnets ← Subnet_List (cloud g) (resourceGroupName g) vnetName;
  for_range (λ rs subnet,
    r ← toSubnetResource g subnet vnetName; Ok (rs ++ [r])) subnets [].

Definition listVirtualNetworksAndSubnets (g : resourceGetter)
  : result (list Resource) :=
  vnets ← VirtualNetwork_List (cloud g) (resourceGroupName g);
  for_range (λ rs vnet,
    owned ← isOwnedByCluster g (VirtualNetwork_Tags vnet);
    if negb owned then Ok rs
    else
      r ← toVirtualNetworkResource g vnet;
      let rs := rs ++ [r] in
      vnetName ← deref (VirtualNetwork_Name vnet);
      subnets ← listSubnets g vnetName;
      Ok (rs ++ subnets)) vnets [].

(** *** Network security groups: listed without the ownership filter *)

Definition toNetworkSecurityGroupResource (g : resourceGetter)
    (nsg : SecurityGroup) : result Resource :=
  name ← deref (SecurityGroup_Name nsg);
  Ok {| Obj := ObjSecurityGroup nsg;
        Type_ := typeNetworkSecurityGroup;
        ID := name;
        Name := name;
        Deleter := deleteNetworkSecurityGroup;
        Blocks := [toKey typeResourceGroup (resourceGroupName g)];
        Shared := AzureNetworkShared (clusterInfo g);
        Done := false |}.

Definition listNetworkSecurityGroups (g : resourceGetter)
  : result (list Resource) :=
  nsgs ← NetworkSecurityGroup_List (cloud g) (resourceGroupName g);
  for_range (λ rs nsg,
    r ← toNetworkSecurityGroupResource g nsg; Ok (rs ++ [r])) nsgs [].

(** *** Route tables *)

Definition toRouteTableResource (g : resourceGetter) (rt : RouteTable)
  : result Resource :=
  name ← deref (RouteTable_Name rt);
  Ok {| Obj := ObjRouteTable rt;
        Type_ := typeRouteTable;
        ID := name;
        Name := name;
        Deleter := deleteRouteTable;
        Blocks := [toKey typeResourceGroup (resourceGroupName g)];
        Shared := AzureRouteTableShared (clusterInfo g);
        Done := false |}.

Definition listRouteTables (g : resourceGetter) : result (list Resource) :=
  rts ← RouteTable_List (cloud g) (resourceGroupName g);
  for_range (λ rs rt,
    owned ← isOwnedByCluster g (RouteTable_Tags rt);
    if negb owned then Ok rs
    else r ← toRouteTableResource g rt; Ok (rs ++ [r])) rts [].

(** *** VM scale sets and their role assignments *)

(** The first loop of [toVMScaleSetResource]: the names of the virtual
    networks, subnets and load balancers the interfaces of the scale set
    refer to. *)
Definition vmssNetworkNames_ip
    (st : gset string * gset string * gset string) (ip : IPConfiguration)
  : result (gset string * gset string * gset string) :=
  let '(vnets, subnets, lbs) := st in
  subnet ← deref (IPConfiguration_Subnet ip);
  id ← deref (SubResource_ID subnet);
  subnetID ← wrap_err "error on parsing subnet ID: " (ParseSubnetID id);
  let vnets := {[VirtualNetworkName subnetID]} ∪ vnets in
  let subnets := {[SubnetName subnetID]} ∪ subnets in
  lbs ← match IPConfiguration_LoadBalancerBackendAddressPools ip with
        | None => Ok lbs
        | Some pools =>
            for_range (λ (lbs : gset string) (lb : SubResource),
              id ← deref (SubResource_ID lb);
              lbID ← wrap_err "parsing load balancer ID: "
                       (ParseLoadBalancerID id);
              Ok ({[LoadBalancerName lbID]} ∪ lbs)) pools lbs
        end;
  Ok (vnets, subnets, lbs).

Definition vmssNetworkNames (ifaces : list NetworkInterfaceConfiguration)
  : result (gset string * gset string * gset string) :=
  for_range (λ st (iface : NetworkInterfaceConfiguration),
    ips ← deref (IPConfigurations iface);
    for_range vmssNetworkNames_ip ips st) ifaces (∅, ∅, ∅).

(** The last loop of [toVMScaleSetResource]: a key for every data disk of
    every VM of the scale set. *)
Definition vmssDiskBlocks (vms : list VirtualMachineScaleSetVM)
    (blocks : list string) : result (list string) :=
  for_range (λ (blocks : list string) (vm : VirtualMachineScaleSetVM),
    storageProfile ← deref (VM_StorageProfile vm);
    match DataDisks storageProfile with
    | None => Ok blocks
    | Some disks =>
        for_range (λ (blocks : list string) (d : DataDisk),
          name ← deref (DataDisk_Name d);
          Ok (blocks ++ [toKey typeDisk name])) disks blocks
    end) vms blocks.

Definition toVMScaleSetResource (g : resourceGetter)
    (vmss : VirtualMachineScaleSet) (vms : list VirtualMachineScaleSetVM)
  : result Resource :=
  let blocks := [toKey typeResourceGroup (resourceGroupName g)] in
  profile ← deref (VMSS_VirtualMachineProfile vmss);
  networkProfile ← deref (VMProfile_NetworkProfile profile);
  ifaces ← deref (NetworkInterfaceConfigurations networkProfile);
  '(vnets, subnets, lbs) ← vmssNetworkNames ifaces;
  let blocks := blocks ++ (toKey typeVirtualNetwork <$> elements vnets) in
  let blocks := blocks ++ (toKey typeSubnet <$> elements subnets) in
  let blocks := blocks ++ (toKey typeLoadBalancer <$> elements lbs) in
  blocks ← vmssDiskBlocks vms blocks;
  name ← deref (VMSS_Name vmss);
  Ok {| Obj := ObjVMScaleSet vmss;
        Type_ := typeVMScaleSet;
        ID := name;
        Name := name;
        Deleter := deleteVMScaleSet;
        Blocks := blocks;
        Shared := false;
        Done := false |}.

Definition toRoleAssignmentResource (g : resourceGetter) (ra : RoleAssignment)
    (vmss : VirtualMachineScaleSet) : result Resource :=
  name ← deref (RoleAssignment_Name ra);
  vmssName ← deref (VMSS_Name vmss);
  Ok {| Obj := ObjRoleAssignment ra;
        Type_ := typeRoleAssignment;
        ID := name;
        Name := name;
        Deleter := deleteRoleAssignment;
        Blocks := [toKey typeResourceGroup (resourceGroupName g);
                   toKey typeVMScaleSet vmssName];
        Shared := false;
        Done := false |}.

Definition listRoleAssignments (g : resourceGetter)
    (principalIDs : gmap string VirtualMachineScaleSet)
  : result (list Resource) :=
  ras ← RoleAssignment_List (cloud g) (resourceGroupName g);
  for_range (λ rs ra,
    match RoleAssignment_PrincipalID ra with
    | None => Ok rs
    | Some principalID =>
        match principalIDs !! principalID with
        | None => Ok rs
        | Some vmss => r ← toRoleAssignmentResource g ra vmss; Ok (rs ++ [r])
        end
    end) ras [].

(** The loop of [listVMScaleSetsAndRoleAssignments] over the scale sets:
    the descriptors so far and the map from principal ID to scale set. *)
Definition listVMScaleSets_body (g : resourceGetter)
    (st : list Resource * gmap string VirtualMachineScaleSet)
    (vmss : VirtualMachineScaleSet)
  : result (list Resource * gmap string VirtualMachineScaleSet) :=
  let '(rs, principalIDs) := st in
  owned ← isOwnedByCluster g (VMSS_Tags vmss);
  if negb owned then Ok (rs, principalIDs)
  else
    vmssName ← deref (VMSS_Name vmss);
    vms ← VMScaleSetVM_List (cloud g) (resourceGroupName g) vmssName;
    r ← toVMScaleSetResource g vmss vms;
    identity ← deref (VMSS_Identity vmss);
    principalID ← deref (Identity_PrincipalID identity);
    Ok (rs ++ [r], <[principalID := vmss]> principalIDs).

Definition listVMScaleSetsAndRoleAssignments (g : resourceGetter)
  : result (list Resource) :=
  vmsses ← VMScaleSet_List (cloud g) (resourceGroupName g);
  '(rs, principalIDs) ← for_range (listVMScaleSets_body g) vmsses ([], ∅);
  ras ← listRoleAssignments g principalIDs;
  Ok (rs ++ ras).

(** *** Disks *)

Definition toDiskResource (g : resourceGetter) (disk : Disk) : result Resource :=
  name ← deref (Disk_Name disk);
  Ok {| Obj := ObjDisk disk;
        Type_ := typeDisk;
        ID := name;
        Name := name;
        Deleter := deleteDisk;
        Blocks := [toKey typeResourceGroup (resourceGroupName g)];
        Shared := false;
        Done := false |}.

Definition listDisks (g : resourceGetter) : result (list Resource) :=
  disks ← Disk_List (cloud g) (resourceGroupName g);
  for_range (λ rs disk,
    owned ← isOwnedByCluster g (Disk_Tags disk);
    if negb owned then Ok rs
    else r ← toDiskResource g disk; Ok (rs ++ [r])) disks [].

(** *** Load balancers *)

Definition toLoadBalancerResource (g : resourceGetter)
    (loadBalancer : LoadBalancer) : result Resource :=
  let blocks := [toKey typeResourceGroup (resourceGroupName g)] in
  pips ← match LoadBalancer_FrontendIPConfigurations loadBalancer with
         | None => Ok (∅ : gset string)
         | Some fips =>
             for_range (λ (pips : gset string) fip,
               match Frontend_PublicIPAddress fip with
               | None => Ok pips
               | Some pip =>
                   id ← deref (PublicIPAddress_ID pip);
                   pipID ← wrap_err "parsing public IP address ID: "
                             (ParsePublicIPAddressID id);
                   Ok ({[PublicIPAddressName pipID]} ∪ pips)
               end) fips ∅
         end;
  let blocks := blocks ++ (toKey typePublicIPAddress <$> elements pips) in
  name ← deref (LoadBalancer_Name loadBalancer);
  Ok {| Obj := ObjLoadBalancer loadBalancer;
        Type_ := typeLoadBalancer;
        ID := name;
        Name := name;
        Deleter := deleteLoadBalancer;
        Blocks := blocks;
        Shared := false;
        Done := false |}.

Definition listLoadBalancers (g : resourceGetter) : result (list Resource) :=
  loadBalancers ← LoadBalancer_List (cloud g) (resourceGroupName g);
  for_range (λ rs lb,
    owned ← isOwnedByCluster g (LoadBalancer_Tags lb);
    if negb owned then Ok rs
    else r ← toLoadBalancerResource g lb; Ok (rs ++ [r])) loadBalancers [].

(** *** Public IP addresses *)

Definition toPublicIPAddressResource (g : resourceGetter)
    (publicIPAddress : PublicIPAddress) : result Resource :=
  name ← deref (PublicIPAddress_Name publicIPAddress);
  Ok {| Obj := ObjPublicIPAddress publicIPAddress;
        Type_ := typePublicIPAddress;
        ID := name;
        Name := name;
        Deleter := deletePublicIPAddress;
        Blocks := [toKey typeResourceGroup (resourceGroupName g)];
        Shared := false;
        Done := false |}.

Definition listPublicIPAddresses (g : resourceGetter) : result (list Resource) :=
  publicIPAddresses ← PublicIPAddress_List (cloud g) (resourceGroupName g);
  for_range (λ rs p,
    owned ← isOwnedByCluster g (PublicIPAddress_Tags p);
    if negb owned then Ok rs
    else r ← toPublicIPAddressResource g p; Ok (rs ++ [r])) publicIPAddresses [].

(** *** The whole listing *)

(** The adapters, in the order [listAll] calls them. *)
Definition fns : list (resourceGetter → result (list Resource)) :=
  [ listResourceGroups;
    listVirtualNetworksAndSubnets;
    listNetworkSecurityGroups;
    listRouteTables;
    listVMScaleSetsAndRoleAssignments;
    listDisks;
    listLoadBalancers;
    listPublicIPAddresses ].

Definition listAll (g : resourceGetter) : result (list Resource) :=
  for_range (λ resources fn,
    rs ← fn g; Ok (resources ++ rs)) fns [].

(** The loop of [listResourcesAzure] that turns the slice of descriptors
    into the map keyed by type and ID. *)
Definition toResourceMap (rs : list Resource) : gmap string Resource :=
  foldl (λ resources r,
    if Done r then resources
    else <[toKey (Type_ r) (ID r) := r]> resources) ∅ rs.

Definition listResourcesAzure (g : resourceGetter)
  : result (gmap string Resource) :=
  rs ← listAll g;
  Ok (toResourceMap rs).

Definition ListResourcesAzure (cloud : AzureCloud) (clusterInfo : ClusterInfo)
  : result (gmap string Resource) :=
  listResourcesAzure {| cloud := cloud; clusterInfo := clusterInfo |}.

(** The descriptors the adapters can make: whatever one of the ten
    constructor functions returns. *)
Inductive emitted (g : resourceGetter) : Resource → Prop :=
| emitted_ResourceGroup rg r :
    toResourceGroupResource g rg = Ok r → emitted g r
| emitted_VirtualNetwork vnet r :
    toVirtualNetworkResource g vnet = Ok r → emitted g r
| emitted_Subnet subnet vnetName r :
    toSubnetResource g subnet vnetName = Ok r → emitted g r
| emitted_NetworkSecurityGroup nsg r :
    toNetworkSecurityGroupResource g nsg = Ok r → emitted g r
| emitted_RouteTable rt r :
    toRouteTableResource g rt = Ok r → emitted g r
| emitted_VMScaleSet vmss vms r :
    toVMScaleSetResource g vmss vms = Ok r → emitted g r
| emitted_RoleAssignment ra vmss r :
    toRoleAssignmentResource g ra vmss = Ok r → emitted g r
| emitted_Disk disk r :
    toDiskResource g disk = Ok r → emitted g r
| emitted_LoadBalancer lb r :
    toLoadBalancerResource g lb = Ok r → emitted g r
| emitted_PublicIPAddress pip r :
    toPublicIPAddressResource g pip = Ok r → emitted g r.

End Listing.

(** ** Deleting a resource

    Every [Deleter] evaluates its arguments and makes one [Delete] call on
    a client of the cloud, whose error it returns. *)

(** The [Delete] calls of the clients, with their arguments after the
    context. *)
Inductive DeleteCall :=
| ResourceGroup_Delete (name : string)
| VirtualNetwork_Delete (resourceGroupName vnetName : string)
| Subnet_Delete (resourceGroupName vnetName subnetName : string)
| NetworkSecurityGroup_Delete (resourceGroupName nsgName : string)
| RouteTable_Delete (resourceGroupName routeTableName : string)
| VMScaleSet_Delete (resourceGroupName vmssName : string)
| Disk_Delete (resourceGroupName diskName : string)
| RoleAssignment_Delete (scope raName : string)
| LoadBalancer_Delete (resourceGroupName loadBalancerName : string)
| PublicIPAddress_Delete (resourceGroupName publicIPAddressName : string).

(** The call that the deleter [d] makes on the descriptor [r]; the branch
    of [deleteRoleAssignment] asserts the type of [r.Obj] first and formats
    the type of [r], a [*resources.Resource], in its error. *)
Definition deleterCall (g : resourceGetter) (d : DeleterFn) (r : Resource)
  : result DeleteCall :=
  match d with
  | deleteResourceGroup =>
      Ok (ResourceGroup_Delete (Name r))
  | deleteVirtualNetwork =>
      Ok (VirtualNetwork_Delete (resourceGroupName g) (Name r))
  | deleteSubnet vnetName =>
      Ok (Subnet_Delete (resourceGroupName g) vnetName (Name r))
  | deleteNetworkSecurityGroup =>
      Ok (NetworkSecurityGroup_Delete (resourceGroupName g) (Name r))
  | deleteRouteTable =>
      Ok (RouteTable_Delete (resourceGroupName g) (Name r))
  | deleteVMScaleSet =>
      Ok (VMScaleSet_Delete (resourceGroupName g) (Name r))
  | deleteDisk =>
      Ok (Disk_Delete (resourceGroupName g) (Name r))
  | deleteRoleAssignment =>
      match Obj r with
      | ObjRoleAssignment ra =>
          scope ← deref (RoleAssignment_Scope ra);
          name ← deref (RoleAssignment_Name ra);
          Ok (RoleAssignment_Delete scope name)
      | _ => Err "expected RoleAssignment, but got *resources.Resource"
      end
  | deleteLoadBalancer =>
      Ok (LoadBalancer_Delete (resourceGroupName g) (Name r))
  | deletePublicIPAddress =>
      Ok (PublicIPAddress_Delete (resourceGroupName g) (Name r))
  end.

(** [r.Deleter(cloud, r)], where [azureDelete] is the answer of the cloud to
    a [Delete] call: [nil] or an error. *)
Definition invokeDeleter (azureDelete : DeleteCall → option string)
    (g : resourceGetter) (r : Resource) : result unit :=
  call ← deleterCall g (Deleter r) r;
  match azureDelete call with
  | None => Ok tt
  | Some e => Err e
  end.

(** ** Notions used to state properties of the listing *)

(** The resource type of the client a call goes to, and the name of the
    object it deletes. *)
Definition callType (call : DeleteCall) : string :=
  match call with
  | ResourceGroup_Delete _ => typeResourceGroup
  | VirtualNetwork_Delete _ _ => typeVirtualNetwork
  | Subnet_Delete _ _ _ => typeSubnet
  | NetworkSecurityGroup_Delete _ _ => typeNetworkSecurityGroup
  | RouteTable_Delete _ _ => typeRouteTable
  | VMScaleSet_Delete _ _ => typeVMScaleSet
  | Disk_Delete _ _ => typeDisk
  | RoleAssignment_Delete _ _ => typeRoleAssignment
  | LoadBalancer_Delete _ _ => typeLoadBalancer
  | PublicIPAddress_Delete _ _ => typePublicIPAddress
  end.

Definition callName (call : DeleteCall) : string :=
  match call with
  | ResourceGroup_Delete n
  | VirtualNetwork_Delete _ n
  | Subnet_Delete _ _ n
  | NetworkSecurityGroup_Delete _ n
  | RouteTable_Delete _ n
  | VMScaleSet_Delete _ n
  | Disk_Delete _ n
  | RoleAssignment_Delete _ n
  | LoadBalancer_Delete _ n
  | PublicIPAddress_Delete _ n => n
  end.

(** The resource group a call names; a resource group is deleted by its
    own name and a role assignment by its scope. *)
Definition callResourceGroup (call : DeleteCall) : option string :=
  match call with
  | ResourceGroup_Delete _ | RoleAssignment_Delete _ _ => None
  | VirtualNetwork_Delete rg _
  | Subnet_Delete rg _ _
  | NetworkSecurityGroup_Delete rg _
  | RouteTable_Delete rg _
  | VMScaleSet_Delete rg _
  | Disk_Delete rg _
  | LoadBalancer_Delete rg _
  | PublicIPAddress_Delete rg _ => Some rg
  end.

(** The key of a descriptor. *)
Definition keyOf (r : Resource) : string := toKey (Type_ r) (ID r).

(** The name and the tags of the SDK object a descriptor holds; subnets and
    role assignments have no tags. *)
Definition objName (o : Object) : option string :=
  match o with
  | ObjGroup rg => Group_Name rg
  | ObjVirtualNetwork vnet => VirtualNetwork_Name vnet
  | ObjSubnet subnet => Subnet_Name subnet
  | ObjSecurityGroup nsg => SecurityGroup_Name nsg
  | ObjRouteTable rt => RouteTable_Name rt
  | ObjVMScaleSet vmss => VMSS_Name vmss
  | ObjDisk disk => Disk_Name disk
  | ObjRoleAssignment ra => RoleAssignment_Name ra
  | ObjLoadBalancer lb => LoadBalancer_Name lb
  | ObjPublicIPAddress pip => PublicIPAddress_Name pip
  end.

Definition objTags (o : Object) : option (gmap string (option string)) :=
  match o with
  | ObjGroup rg => Some (Group_Tags rg)
  | ObjVirtualNetwork vnet => Some (VirtualNetwork_Tags vnet)
  | ObjSubnet _ => None
  | ObjSecurityGroup nsg => Some (SecurityGroup_Tags nsg)
  | ObjRouteTable rt => Some (RouteTable_Tags rt)
  | ObjVMScaleSet vmss => Some (VMSS_Tags vmss)
  | ObjDisk disk => Some (Disk_Tags disk)
  | ObjRoleAssignment _ => None
  | ObjLoadBalancer lb => Some (LoadBalancer_Tags lb)
  | ObjPublicIPAddress pip => Some (PublicIPAddress_Tags pip)
  end.

(** The type and the deleter that go with each kind of SDK object. *)
Definition objType (o : Object) : string :=
  match o with
  | ObjGroup _ => typeResourceGroup
  | ObjVirtualNetwork _ => typeVirtualNetwork
  | ObjSubnet _ => typeSubnet
  | ObjSecurityGroup _ => typeNetworkSecurityGroup
  | ObjRouteTable _ => typeRouteTable
  | ObjVMScaleSet _ => typeVMScaleSet
  | ObjDisk _ => typeDisk
  | ObjRoleAssignment _ => typeRoleAssignment
  | ObjLoadBalancer _ => typeLoadBalancer
  | ObjPublicIPAddress _ => typePublicIPAddress
  end.

(** Whether a string holds a colon, the character of the string [":"]. *)
Definition colon : Ascii.ascii :=
  match ":" with
  | String c _ => c
  | EmptyString => Ascii.zero
  end.

Fixpoint hasColon (s : string) : bool :=
  match s with
  | EmptyString => false
  | String c s' => bool_decide (c = colon) || hasColon s'
  end.

(** The IP configurations of all the network interfaces of a scale set, and
    all the data disks of a list of VMs. *)
Definition vmssInterfaces (vmss : VirtualMachineScaleSet)
  : list NetworkInterfaceConfiguration :=
  match VMSS_VirtualMachineProfile vmss with
  | Some profile =>
      match VMProfile_NetworkProfile profile with
      | Some networkProfile =>
          default [] (NetworkInterfaceConfigurations networkProfile)
      | None => []
      end
  | None => []
  end.

Definition vmssIPConfigurations (vmss : VirtualMachineScaleSet)
  : list IPConfiguration :=
  concat ((λ iface, default [] (IPConfigurations iface))
            <$> vmssInterfaces vmss).

Definition vmDataDisks (vms : list VirtualMachineScaleSetVM) : list DataDisk :=
  concat ((λ vm, match VM_StorageProfile vm with
                 | Some storageProfile => default [] (DataDisks storageProfile)
                 | None => []
                 end) <$> vms).

Section Provenance.
Context `{AzurePackage}.

(** Where a descriptor comes from: the object the cloud listed, the
    ownership test it passed, if its listing function has one, and the
    constructor function that made the descriptor. *)
Inductive listed (g : resourceGetter) : Resource → Prop :=
| listed_ResourceGroup rgs rg r :
    ResourceGroup_List (cloud g) "" = Ok rgs →
    rg ∈ rgs →
    isOwnedByCluster g (Group_Tags rg) = Ok true →
    toResourceGroupResource g rg = Ok r →
    listed g r
| listed_VirtualNetwork vnets vnet r :
    VirtualNetwork_List (cloud g) (resourceGroupName g) = Ok vnets →
    vnet ∈ vnets →
    isOwnedByCluster g (VirtualNetwork_Tags vnet) = Ok true →
    toVirtualNetworkResource g vnet = Ok r →
    listed g r
| listed_Subnet vnets vnet vnetName subnets subnet r :
    VirtualNetwork_List (cloud g) (resourceGroupName g) = Ok vnets →
    vnet ∈ vnets →
    isOwnedByCluster g (VirtualNetwork_Tags vnet) = Ok true →
    VirtualNetwork_Name vnet = Some vnetName →
    Subnet_List (cloud g) (resourceGroupName g) vnetName = Ok subnets →
    subnet ∈ subnets →
    toSubnetResource g subnet vnetName = Ok r →
    listed g r
| listed_NetworkSecurityGroup nsgs nsg r :
    NetworkSecurityGroup_List (cloud g) (resourceGroupName g) = Ok nsgs →
    nsg ∈ nsgs →
    toNetworkSecurityGroupResource g nsg = Ok r →
    listed g r
| listed_RouteTable rts rt r :
    RouteTable_List (cloud g) (resourceGroupName g) = Ok rts →
    rt ∈ rts →
    isOwnedByCluster g (RouteTable_Tags rt) = Ok true →
    toRouteTableResource g rt = Ok r →
    listed g r
| listed_VMScaleSet vmsses vmss vmssName vms r :
    VMScaleSet_List (cloud g) (resourceGroupName g) = Ok vmsses →
    vmss ∈ vmsses →
    isOwnedByCluster g (VMSS_Tags vmss) = Ok true →
    VMSS_Name vmss = Some vmssName →
    VMScaleSetVM_List (cloud g) (resourceGroupName g) vmssName = Ok vms →
    toVMScaleSetResource g vmss vms = Ok r →
    listed g r
| listed_RoleAssignment vmsses vmss ras ra principal r :
    VMScaleSet_List (cloud g) (resourceGroupName g) = Ok vmsses →
    vmss ∈ vmsses →
    isOwnedByCluster g (VMSS_Tags vmss) = Ok true →
    principalID vmss = Some principal →
    RoleAssignment_List (cloud g) (resourceGroupName g) = Ok ras →
    ra ∈ ras →
    RoleAssignment_PrincipalID ra = Some principal →
    toRoleAssignmentResource g ra vmss = Ok r →
    listed g r
| listed_Disk disks disk r :
    Disk_List (cloud g) (resourceGroupName g) = Ok disks →
    disk ∈ disks →
    isOwnedByCluster g (Disk_Tags disk) = Ok true →
    toDiskResource g disk = Ok r →
    listed g r
| listed_LoadBalancer lbs lb r :
    LoadBalancer_List (cloud g) (resourceGroupName g) = Ok lbs →
    lb ∈ lbs →
    isOwnedByCluster g (LoadBalancer_Tags lb) = Ok true →
    toLoadBalancerResource g lb = Ok r →
    listed g r
| listed_PublicIPAddress pips pip r :
    PublicIPAddress_List (cloud g) (resourceGroupName g) = Ok pips →
    pip ∈ pips →
    isOwnedByCluster g (PublicIPAddress_Tags pip) = Ok true →
    toPublicIPAddressResource g pip = Ok r →
    listed g r.

(** The names that [toVirtualNetworkResource], [toVMScaleSetResource] and
    [toLoadBalancerResource] get from the IDs an object refers to. *)
Definition subnetNetworkSecurityGroup (subnet : Subnet) (name : string) : Prop :=
  ∃ nsg id nsgID,
    Subnet_NetworkSecurityGroup subnet = Some nsg
    ∧ SecurityGroup_ID nsg = Some id
    ∧ ParseNetworkSecurityGroupID id = Ok nsgID
    ∧ name = NetworkSecurityGroupName nsgID.

Definition frontendPublicIPAddress (fip : FrontendIPConfiguration)
    (name : string) : Prop :=
  ∃ pip id pipID,
    Frontend_PublicIPAddress fip = Some pip
    ∧ PublicIPAddress_ID pip = Some id
    ∧ ParsePublicIPAddressID id = Ok pipID
    ∧ name = PublicIPAddressName pipID.

Definition ipSubnetID (ip : IPConfiguration) (subnetID : SubnetID) : Prop :=
  ∃ subnet id,
    IPConfiguration_Subnet ip = Some subnet
    ∧ SubResource_ID subnet = Some id
    ∧ ParseSubnetID id = Ok subnetID.

Definition ipLoadBalancer (ip : IPConfiguration) (name : string) : Prop :=
  ∃ pools lb id lbID,
    IPConfiguration_LoadBalancerBackendAddressPools ip = Some pools
    ∧ lb ∈ pools
    ∧ SubResource_ID lb = Some id
    ∧ ParseLoadBalancerID id = Ok lbID
    ∧ name = LoadBalancerName lbID.

(** A tag map that names the cluster under the cluster-name tag key. *)
Definition taggedForCluster (g : resourceGetter)
    (tags : gmap string (option string)) : Prop :=
  tags !! TagClusterName = Some (Some (ClusterName (clusterInfo g))).

(** An error that a [List] call of the cloud returns, and an error that a
    parser of IDs returns, behind the prefix that the listing puts before
    it. *)
Definition cloudError (g : resourceGetter) (e : string) : Prop :=
  ResourceGroup_List (cloud g) "" = Err e
  ∨ VirtualNetwork_List (cloud g) (resourceGroupName g) = Err e
  ∨ (∃ vnetName, Subnet_List (cloud g) (resourceGroupName g) vnetName = Err e)
  ∨ NetworkSecurityGroup_List (cloud g) (resourceGroupName g) = Err e
  ∨ RouteTable_List (cloud g) (resourceGroupName g) = Err e
  ∨ VMScaleSet_List (cloud g) (resourceGroupName g) = Err e
  ∨ (∃ vmssName,
       VMScaleSetVM_List (cloud g) (resourceGroupName g) vmssName = Err e)
  ∨ RoleAssignment_List (cloud g) (resourceGroupName g) = Err e
  ∨ Disk_List (cloud g) (resourceGroupName g) = Err e
  ∨ LoadBalancer_List (cloud g) (resourceGroupName g) = Err e
  ∨ PublicIPAddress_List (cloud g) (resourceGroupName g) = Err e.

Definition parseError (e : string) : Prop :=
  ∃ id e',
    (ParseNetworkSecurityGroupID id = Err e'
     ∧ e = "parsing network security group ID: " +:+ e')
    ∨ (ParseSubnetID id = Err e'
       ∧ e = "error on parsing subnet ID: " +:+ e')
    ∨ (ParseLoadBalancerID id = Err e'
       ∧ e = "parsing load balancer ID: " +:+ e')
    ∨ (ParsePublicIPAddressID id = Err e'
       ∧ e = "parsing public IP address ID: " +:+ e').

End Provenance.

(** ** A concrete cloud

    One cluster [c1] in resource group [rg1], next to objects of a second
    cluster [c2] that live in the same resource group. *)
Module Example.

Definition parseName (id : string) : result string :=
  match id with
  | "/nsg/nsg1" => Ok "nsg1"
  | "/lb/lb1" => Ok "lb1"
  | "/pip/pip1" => Ok "pip1"
  | _ => Err "invalid ID"
  end.

Definition parseSubnet (id : string) : result SubnetID :=
  match id with
  | "/vnet/vnet1/subnet/sn1" =>
      Ok {| VirtualNetworkName := "vnet1"; SubnetName := "sn1" |}
  | _ => Err "invalid ID"
  end.

Definition package : AzurePackage := {|
  TagClusterName := "KubernetesCluster";
  ParseNetworkSecurityGroupID id :=
    name ← parseName id; Ok {| NetworkSecurityGroupName := name |};
  ParseSubnetID := parseSubnet;
  ParseLoadBalancerID id :=
    name ← parseName id; Ok {| LoadBalancerName := name |};
  ParsePublicIPAddressID id :=
    name ← parseName id; Ok {| PublicIPAddressName := name |};
|}.

Definition tagged (cluster : string) : gmap string (option string) :=
  {[ "KubernetesCluster" := Some cluster; "k8s.io_role_node" := None ]}.

Definition rg1 : Group :=
  {| Group_Name := Some "rg1"; Group_Tags := tagged "c1" |}.

Definition nsg1 : SecurityGroup :=
  {| SecurityGroup_ID := Some "/nsg/nsg1";
     SecurityGroup_Name := Some "nsg1";
     SecurityGroup_Tags := tagged "c1" |}.

Definition nsg2 : SecurityGroup :=
  {| SecurityGroup_ID := Some "/nsg/nsg2";
     SecurityGroup_Name := Some "nsg2";
     SecurityGroup_Tags := tagged "c2" |}.

Definition sn1 : Subnet :=
  {| Subnet_Name := Some "sn1"; Subnet_NetworkSecurityGroup := Some nsg1 |}.
Definition sn2 : Subnet :=
  {| Subnet_Name := Some "sn2"; Subnet_NetworkSecurityGroup := None |}.
Definition sn3 : Subnet :=
  {| Subnet_Name := Some "sn1"; Subnet_NetworkSecurityGroup := None |}.

Definition vnet1 : VirtualNetwork :=
  {| VirtualNetwork_Name := Some "vnet1";
     VirtualNetwork_Tags := tagged "c1";
     VirtualNetwork_Subnets := Some [sn1; sn2] |}.
Definition vnet2 : VirtualNetwork :=
  {| VirtualNetwork_Name := Some "vnet2";
     VirtualNetwork_Tags := tagged "c1";
     VirtualNetwork_Subnets := None |}.
Definition vnet3 : VirtualNetwork :=
  {| VirtualNetwork_Name := Some "vnet3";
     VirtualNetwork_Tags := tagged "c2";
     VirtualNetwork_Subnets := None |}.

Definition rt1 : RouteTable :=
  {| RouteTable_Name := Some "rt1"; RouteTable_Tags := tagged "c1" |}.

Definition scaleSet (name cluster principal : string)
  : VirtualMachineScaleSet :=
  {| VMSS_Name := Some name;
     VMSS_Tags := tagged cluster;
     VMSS_Identity := Some {| Identity_PrincipalID := Some principal |};
     VMSS_VirtualMachineProfile := Some {|
       VMProfile_NetworkProfile := Some {|
         NetworkInterfaceConfigurations := Some [ {|
           IPConfigurations := Some [ {|
             IPConfiguration_Subnet :=
               Some {| SubResource_ID := Some "/vnet/vnet1/subnet/sn1" |};
             IPConfiguration_LoadBalancerBackendAddressPools :=
               Some [ {| SubResource_ID := Some "/lb/lb1" |} ] |} ] |} ] |} |}
  |}.

Definition nodes : VirtualMachineScaleSet := scaleSet "nodes" "c1" "p1".
Definition others : VirtualMachineScaleSet := scaleSet "others" "c2" "p2".

Definition vm1 : VirtualMachineScaleSetVM :=
  {| VM_StorageProfile :=
       Some {| DataDisks := Some [ {| DataDisk_Name := Some "d1" |} ] |} |}.

Definition d1 : Disk :=
  {| Disk_Name := Some "d1"; Disk_Tags := tagged "c1" |}.

Definition ra1 : RoleAssignment :=
  {| RoleAssignment_Name := Some "ra1";
     RoleAssignment_Scope := Some "/rg/rg1";
     RoleAssignment_PrincipalID := Some "p1" |}.
Definition ra2 : RoleAssignment :=
  {| RoleAssignment_Name := Some "ra2";
     RoleAssignment_Scope := Some "/rg/rg1";
     RoleAssignment_PrincipalID := Some "p2" |}.
Definition ra3 : RoleAssignment :=
  {| RoleAssignment_Name := Some "ra3";
     RoleAssignment_Scope := Some "/rg/rg1";
     RoleAssignment_PrincipalID := None |}.

Definition pip1 : PublicIPAddress :=
  {| PublicIPAddress_ID := Some "/pip/pip1";
     PublicIPAddress_Name := Some "pip1";
     PublicIPAddress_Tags := tagged "c1" |}.

Definition lb1 : LoadBalancer :=
  {| LoadBalancer_Name := Some "lb1";
     LoadBalancer_Tags := tagged "c1";
     LoadBalancer_FrontendIPConfigurations :=
       Some [ {| Frontend_PublicIPAddress := Some pip1 |} ] |}.

(** Every listing call succeeds. The subnet [sn1] of [vnet1] and the only
    subnet of [vnet2] have the same name, hence the same key. *)
Definition azure : AzureCloud := {|
  ResourceGroup_List _ := Ok [rg1];
  VirtualNetwork_List _ := Ok [vnet1; vnet2; vnet3];
  Subnet_List _ vnetName :=
    if bool_decide (vnetName = "vnet1") then Ok [sn1; sn2] else Ok [sn3];
  NetworkSecurityGroup_List _ := Ok [nsg1; nsg2];
  RouteTable_List _ := Ok [rt1];
  VMScaleSet_List _ := Ok [nodes; others];
  VMScaleSetVM_List _ _ := Ok [vm1];
  Disk_List _ := Ok [d1];
  RoleAssignment_List _ := Ok [ra1; ra2; ra3];
  LoadBalancer_List _ := Ok [lb1];
  PublicIPAddress_List _ := Ok [pip1];
|}.

(** The same cloud, where listing the disks fails. *)
Definition azure_disks_failing : AzureCloud := {|
  ResourceGroup_List := ResourceGroup_List azure;
  VirtualNetwork_List := VirtualNetwork_List azure;
  Subnet_List := Subnet_List azure;
  NetworkSecurityGroup_List := NetworkSecurityGroup_List azure;
  RouteTable_List := RouteTable_List azure;
  VMScaleSet_List := VMScaleSet_List azure;
  VMScaleSetVM_List := VMScaleSetVM_List azure;
  Disk_List _ := Err "TooManyRequests";
  RoleAssignment_List := RoleAssignment_List azure;
  LoadBalancer_List := LoadBalancer_List azure;
  PublicIPAddress_List := PublicIPAddress_List azure;
|}.

(** Cluster [c1] was created into a resource group, a network and a route
    table that existed before it. *)
Definition c1_shared : ClusterInfo := {|
  ClusterName := "c1";
  AzureResourceGroupName := "rg1";
  AzureResourceGroupShared := true;
  AzureNetworkShared := true;
  AzureRouteTableShared := true;
|}.

(** Cluster [c1] owns all its resources. *)
Definition c1 : ClusterInfo := {|
  ClusterName := "c1";
  AzureResourceGroupName := "rg1";
  AzureResourceGroupShared := false;
  AzureNetworkShared := false;
  AzureRouteTableShared := false;
|}.

Definition g : resourceGetter := {| cloud := azure; clusterInfo := c1 |}.

Definition g_shared : resourceGetter :=
  {| cloud := azure; clusterInfo := c1_shared |}.

Definition g_disks_failing : resourceGetter :=
  {| cloud := azure_disks_failing; clusterInfo := c1 |}.

(** The descriptor of the resource group. *)
Definition resource_group_rg1 : Resource := {|
  Obj := ObjGroup rg1;
  Type_ := "ResourceGroup";
  ID := "rg1";
  Name := "rg1";
  Deleter := deleteResourceGroup;
  Blocks := [];
  Shared := false;
  Done := false |}.

(** The descriptors of the two subnets named [sn1], of [vnet1] and of
    [vnet2]. *)
Definition subnet_sn1_vnet1 : Resource := {|
  Obj := ObjSubnet sn1;
  Type_ := "Subnet";
  ID := "sn1";
  Name := "sn1";
  Deleter := deleteSubnet "vnet1";
  Blocks := ["VirtualNetwork:vnet1"; "ResourceGroup:rg1"];
  Shared := false;
  Done := false |}.

Definition subnet_sn1_vnet2 : Resource := {|
  Obj := ObjSubnet sn3;
  Type_ := "Subnet";
  ID := "sn1";
  Name := "sn1";
  Deleter := deleteSubnet "vnet2";
  Blocks := ["VirtualNetwork:vnet2"; "ResourceGroup:rg1"];
  Shared := false;
  Done := false |}.

(** More objects of cluster [c2] in the resource group, a virtual network
    whose subnet refers to a security group with an ID that does not parse,
    and a resource group whose cluster-name tag has a nil value. *)
Definition rg2 : Group :=
  {| Group_Name := Some "rg2"; Group_Tags := tagged "c2" |}.
Definition rt2 : RouteTable :=
  {| RouteTable_Name := Some "rt2"; RouteTable_Tags := tagged "c2" |}.
Definition d2 : Disk :=
  {| Disk_Name := Some "d2"; Disk_Tags := tagged "c2" |}.
Definition pip2 : PublicIPAddress :=
  {| PublicIPAddress_ID := Some "/pip/pip2";
     PublicIPAddress_Name := Some "pip2";
     PublicIPAddress_Tags := tagged "c2" |}.
Definition lb2 : LoadBalancer :=
  {| LoadBalancer_Name := Some "lb2";
     LoadBalancer_Tags := tagged "c2";
     LoadBalancer_FrontendIPConfigurations := None |}.

Definition vnet4 : VirtualNetwork :=
  {| VirtualNetwork_Name := Some "vnet4";
     VirtualNetwork_Tags := tagged "c1";
     VirtualNetwork_Subnets :=
       Some [ {| Subnet_Name := Some "sn4";
                 Subnet_NetworkSecurityGroup := Some nsg2 |} ] |}.

Definition rg3 : Group :=
  {| Group_Name := Some "rg3";
     Group_Tags := {[ "KubernetesCluster" := None ]} |}.

Definition azure_mixed : AzureCloud := {|
  ResourceGroup_List _ := Ok [rg1; rg2];
  VirtualNetwork_List := VirtualNetwork_List azure;
  Subnet_List := Subnet_List azure;
  NetworkSecurityGroup_List := NetworkSecurityGroup_List azure;
  RouteTable_List _ := Ok [rt2; rt1];
  VMScaleSet_List := VMScaleSet_List azure;
  VMScaleSetVM_List := VMScaleSetVM_List azure;
  Disk_List _ := Ok [d1; d2];
  RoleAssignment_List := RoleAssignment_List azure;
  LoadBalancer_List _ := Ok [lb1; lb2];
  PublicIPAddress_List _ := Ok [pip2; pip1];
|}.

Definition g_mixed : resourceGetter :=
  {| cloud := azure_mixed; clusterInfo := c1 |}.

Definition azure_nil_tag : AzureCloud := {|
  ResourceGroup_List _ := Ok [rg1; rg3];
  VirtualNetwork_List := VirtualNetwork_List azure;
  Subnet_List := Subnet_List azure;
  NetworkSecurityGroup_List := NetworkSecurityGroup_List azure;
  RouteTable_List := RouteTable_List azure;
  VMScaleSet_List := VMScaleSet_List azure;
  VMScaleSetVM_List := VMScaleSetVM_List azure;
  Disk_List := Disk_List azure;
  RoleAssignment_List := RoleAssignment_List azure;
  LoadBalancer_List := LoadBalancer_List azure;
  PublicIPAddress_List := PublicIPAddress_List azure;
|}.

Definition g_nil_tag : resourceGetter :=
  {| cloud := azure_nil_tag; clusterInfo := c1 |}.

(** A cloud that lists nothing, and a cluster without any scale set. *)
Definition azure_empty : AzureCloud := {|
  ResourceGroup_List _ := Ok [];
  VirtualNetwork_List _ := Ok [];
  Subnet_List _ _ := Err "not called";
  NetworkSecurityGroup_List _ := Ok [];
  RouteTable_List _ := Ok [];
  VMScaleSet_List _ := Ok [];
  VMScaleSetVM_List _ _ := Err "not called";
  Disk_List _ := Ok [];
  RoleAssignment_List _ := Ok [];
  LoadBalancer_List _ := Ok [];
  PublicIPAddress_List _ := Ok [];
|}.

Definition c3 : ClusterInfo := {|
  ClusterName := "c3";
  AzureResourceGroupName := "rg1";
  AzureResourceGroupShared := false;
  AzureNetworkShared := false;
  AzureRouteTableShared := false;
|}.

Definition g_c3 : resourceGetter := {| cloud := azure; clusterInfo := c3 |}.

(** The descriptors of the virtual network [vnet1], of the load balancer
    [lb1] and of the scale set [nodes]. *)
Definition virtual_network_vnet1 : Resource := {|
  Obj := ObjVirtualNetwork vnet1;
  Type_ := "VirtualNetwork";
  ID := "vnet1";
  Name := "vnet1";
  Deleter := deleteVirtualNetwork;
  Blocks := ["ResourceGroup:rg1"; "NetworkSecurityGroup:nsg1"];
  Shared := false;
  Done := false |}.

Definition load_balancer_lb1 : Resource := {|
  Obj := ObjLoadBalancer lb1;
  Type_ := "LoadBalancer";
  ID := "lb1";
  Name := "lb1";
  Deleter := deleteLoadBalancer;
  Blocks := ["ResourceGroup:rg1"; "PublicIPAddress:pip1"];
  Shared := false;
  Done := false |}.

Definition scale_set_nodes : Resource := {|
  Obj := ObjVMScaleSet nodes;
  Type_ := "VMScaleSet";
  ID := "nodes";
  Name := "nodes";
  Deleter := deleteVMScaleSet;
  Blocks := ["ResourceGroup:rg1"; "VirtualNetwork:vnet1"; "Subnet:sn1";
             "LoadBalancer:lb1"; "Disk:d1"];
  Shared := false;
  Done := false |}.

(** A disk descriptor that is done at discovery time. *)
Definition disk_d1_done : Resource := {|
  Obj := ObjDisk d1;
  Type_ := "Disk";
  ID := "d1";
  Name := "d1";
  Deleter := deleteDisk;
  Blocks := ["ResourceGroup:rg1"];
  Shared := false;
  Done := true |}.

(** A second resource group of the subscription that carries the tag of
    cluster [c1], whose own resource group is [rg1]. *)
Definition rg4 : Group :=
  {| Group_Name := Some "rg4"; Group_Tags := tagged "c1" |}.

Definition resource_group_rg4 : Resource := {|
  Obj := ObjGroup rg4;
  Type_ := "ResourceGroup";
  ID := "rg4";
  Name := "rg4";
  Deleter := deleteResourceGroup;
  Blocks := [];
  Shared := false;
  Done := false |}.

Definition azure_two_groups : AzureCloud := {|
  ResourceGroup_List _ := Ok [rg1; rg4];
  VirtualNetwork_List := VirtualNetwork_List azure;
  Subnet_List := Subnet_List azure;
  NetworkSecurityGroup_List := NetworkSecurityGroup_List azure;
  RouteTable_List := RouteTable_List azure;
  VMScaleSet_List := VMScaleSet_List azure;
  VMScaleSetVM_List := VMScaleSetVM_List azure;
  Disk_List := Disk_List azure;
  RoleAssignment_List := RoleAssignment_List azure;
  LoadBalancer_List := LoadBalancer_List azure;
  PublicIPAddress_List := PublicIPAddress_List azure;
|}.

Definition g_two_groups : resourceGetter :=
  {| cloud := azure_two_groups; clusterInfo := c1 |}.

End Example.

(** ** Reasoning about outcomes and loops *)

Lemma bind_Ok {A B} (m : result A) (f : A → result B) (b : B) :
  m ≫= f = Ok b → ∃ a, m = Ok a ∧ f a = Ok b.
Proof. destruct m as [a| |]; simpl; intros Hb; [eauto | done | done]. Qed.

Lemma is_Ok_value_of {A} (zero : A) (r : result A) :
  is_Ok r = true → r = Ok (value_of zero r).
Proof. by destruct r. Qed.

Lemma deref_Ok {A} (p : option A) (a : A) : deref p = Ok a → p = Some a.
Proof. destruct p; simpl; congruence. Qed.

Lemma wrap_err_Ok {A} (prefix : string) (r : result A) (a : A) :
  wrap_err prefix r = Ok a → r = Ok a.
Proof. by destruct r. Qed.

(** Splits a hypothesis [H : (x ← m; k) = Ok b] into the outcome of [m] and
    of the continuation, as long as there is a bind to split. *)
Ltac inv_bind H :=
  repeat match type of H with
  | _ ≫= _ = Ok _ =>
      let a := fresh "a" in
      let Ha := fresh "Ha" in
      apply bind_Ok in H as (a & Ha & H);
      try (apply deref_Ok in Ha);
      try (apply wrap_err_Ok in Ha)
  | (if negb ?b then _ else _) = Ok _ => destruct b eqn:?; simpl in H
  | Ok _ = Ok _ => injection H as H
  end.

(** Membership in a list that is written out. *)
Ltac elem_of_here :=
  solve [repeat first [apply list_elem_of_here | apply list_elem_of_further]].

(** All the cases of a hypothesis [H : x ∈ [y1; ...; yn]]. *)
Ltac elem_of_cases H :=
  repeat (apply elem_of_cons in H as [H|H]); [..|by apply elem_of_nil in H].

Lemma for_range_app {A S} (body : S → A → result S) (xs ys : list A) (s : S) :
  for_range body (xs ++ ys) s = for_range body xs s ≫= for_range body ys.
Proof.
  revert s. induction xs as [|x xs IH]; intros s; simpl; [done|].
  destruct (body s x) as [s'| |]; simpl; [apply IH | done | done].
Qed.

(** The rule of a [range] loop: an invariant over the part of the slice
    that has been visited and the state reached. *)
Lemma for_range_prefix_inv {A S} (P : list A → S → Prop)
    (body : S → A → result S) (xs : list A) (s r : S) :
  P [] s →
  (∀ pre x post s1 s2, xs = pre ++ x :: post →
     P pre s1 → body s1 x = Ok s2 → P (pre ++ [x]) s2) →
  for_range body xs s = Ok r →
  P xs r.
Proof.
  intros H0 Hstep.
  assert (∀ post pre s1, xs = pre ++ post → P pre s1 →
            for_range body post s1 = Ok r → P xs r) as Hgen.
  { induction post as [|x post IH]; intros pre s1 Hxs HP Hrun; simpl in Hrun.
    - rewrite app_nil_r in Hxs. by simplify_eq.
    - apply bind_Ok in Hrun as (s2 & Hx & Hrun).
      apply (IH (pre ++ [x]) s2); [by rewrite <- app_assoc | | done].
      by eapply Hstep. }
  intros Hrun. by apply (Hgen xs [] s).
Qed.

Lemma for_range_inv {A S} (P : S → Prop) (body : S → A → result S)
    (xs : list A) (s r : S) :
  P s →
  (∀ x s1 s2, x ∈ xs → P s1 → body s1 x = Ok s2 → P s2) →
  for_range body xs s = Ok r →
  P r.
Proof.
  intros H0 Hstep.
  apply (for_range_prefix_inv (λ _, P)); [done|].
  intros pre x post s1 s2 -> HP Hx. eapply Hstep; [|done..]. set_solver.
Qed.

(** A loop whose body appends one descriptor per visited element. *)
Lemma for_range_append_Forall {A} (P : Resource → Prop)
    (f : A → result Resource) (xs : list A) (rs0 rs : list Resource) :
  (∀ x r, x ∈ xs → f x = Ok r → P r) →
  Forall P rs0 →
  for_range (λ rs x, r ← f x; Ok (rs ++ [r])) xs rs0 = Ok rs →
  Forall P rs.
Proof.
  intros Hf H0. apply (for_range_inv (Forall P)); [done|].
  intros x s1 s2 Hx HP Hb. inv_bind Hb. subst s2.
  apply Forall_app; split; [done|]. apply Forall_singleton. by eapply Hf.
Qed.

(** A loop whose body skips the elements the cluster does not own and
    appends one descriptor for each of the others. *)
Lemma for_range_owned_Forall {A} (P : Resource → Prop)
    (owned : A → result bool) (f : A → result Resource)
    (xs : list A) (rs0 rs : list Resource) :
  (∀ x r, x ∈ xs → owned x = Ok true → f x = Ok r → P r) →
  Forall P rs0 →
  for_range (λ rs x,
    o ← owned x;
    if negb o then Ok rs else r ← f x; Ok (rs ++ [r])) xs rs0 = Ok rs →
  Forall P rs.
Proof.
  intros Hf H0. apply (for_range_inv (Forall P)); [done|].
  intros x s1 s2 Hx HP Hb. inv_bind Hb; [|by subst].
  inv_bind Hb. subst s2.
  apply Forall_app; split; [done|]. apply Forall_singleton. by eapply Hf.
Qed.

Section Properties.
Context `{AzurePackage}.

(** ** The ownership filter *)

(** On entries with distinct keys, as those of a map are, the loop is
    decided by the entry under [TagClusterName], wherever it stands. *)
Lemma isOwnedByCluster_range_spec (name : string)
    (kvs : list (string * option string)) :
  NoDup kvs.*1 →
  isOwnedByCluster_range name kvs =
    match list_find (λ kv, kv.1 = TagClusterName) kvs with
    | None => Ok false
    | Some (_, (_, None)) => Panic
    | Some (_, (_, Some s)) => Ok (bool_decide (s = name))
    end.
Proof.
  induction kvs as [|[k v] kvs IH]; intros Hnd; [done|].
  rewrite fmap_cons in Hnd. apply NoDup_cons in Hnd as [Hk Hnd].
  cbn [isOwnedByCluster_range list_find]. rewrite IH by done. clear IH.
  case_bool_decide as Hkey; destruct (decide (_ = TagClusterName)); try done.
  - destruct v as [s|]; simpl; [|done].
    case_bool_decide; [done|].
    destruct (list_find _ kvs) as [[i [k' v']]|] eqn:Hfind; [|done].
    apply list_find_Some in Hfind as (Hi & Hk' & _). simpl in *.
    exfalso. apply Hk. subst k k'.
    apply list_elem_of_fmap. exists (TagClusterName, v'). split; [done|].
    by eapply list_elem_of_lookup_2.
  - by destruct (list_find _ kvs) as [[i [k' [s|]]]|].
Qed.

(** The filter as a function of the tag under [TagClusterName] alone. *)
Lemma isOwnedByCluster_lookup (g : resourceGetter)
    (tags : gmap string (option string)) :
  isOwnedByCluster g tags =
    match tags !! TagClusterName with
    | None => Ok false
    | Some None => Panic
    | Some (Some s) => Ok (bool_decide (s = ClusterName (clusterInfo g)))
    end.
Proof.
  unfold isOwnedByCluster.
  rewrite isOwnedByCluster_range_spec by apply NoDup_fst_map_to_list.
  destruct (list_find _ (map_to_list tags)) as [[i [k v]]|] eqn:Hfind.
  - apply list_find_Some in Hfind as (Hi & Hk & _). simpl in Hk. subst k.
    apply list_elem_of_lookup_2, elem_of_map_to_list in Hi. by rewrite Hi.
  - destruct (tags !! TagClusterName) as [v|] eqn:Hlk; [|done].
    apply elem_of_map_to_list in Hlk.
    eapply list_find_None, Forall_forall in Hfind; [|done]. done.
Qed.

(** X1: in whatever order Go visits the entries of the tag map, the outcome is
    the same. *)
Lemma isOwnedByCluster_any_order (g : resourceGetter)
    (tags : gmap string (option string)) (kvs : list (string * option string)) :
  kvs ≡ₚ map_to_list tags →
  isOwnedByCluster_range (ClusterName (clusterInfo g)) kvs
  = isOwnedByCluster g tags.
Proof.
  intros Hperm.
  assert (NoDup kvs.*1) as Hnd.
  { rewrite Hperm. apply NoDup_fst_map_to_list. }
  rewrite isOwnedByCluster_lookup, isOwnedByCluster_range_spec by done.
  destruct (list_find _ kvs) as [[i [k v]]|] eqn:Hfind.
  - apply list_find_Some in Hfind as (Hi & Hk & _). simpl in Hk. subst k.
    apply list_elem_of_lookup_2 in Hi. rewrite Hperm in Hi.
    apply elem_of_map_to_list in Hi. by rewrite Hi.
  - destruct (tags !! TagClusterName) as [v|] eqn:Hlk; [|done].
    apply elem_of_map_to_list in Hlk. rewrite <- Hperm in Hlk.
    eapply list_find_None, Forall_forall in Hfind; [|done]. done.
Qed.

(** C3: the ownership filter returns true if and only if the tag map binds
    the cluster-name tag key to a value that is exactly the name of the
    cluster. The filter is a function of the tag map and of the cluster
    identity only: it reads no other state and writes none. *)
Theorem isOwnedByCluster_true_iff (g : resourceGetter)
    (tags : gmap string (option string)) :
  isOwnedByCluster g tags = Ok true
  ↔ tags !! TagClusterName = Some (Some (ClusterName (clusterInfo g))).
Proof.
  rewrite isOwnedByCluster_lookup.
  destruct (tags !! TagClusterName) as [[s|]|]; [|split; done..].
  case_bool_decide; split; intros; simplify_eq; done.
Qed.

(** The filter fails with no error: it answers or it faults. *)
Lemma isOwnedByCluster_no_error (g : resourceGetter)
    (tags : gmap string (option string)) (e : string) :
  isOwnedByCluster g tags ≠ Err e.
Proof.
  rewrite isOwnedByCluster_lookup.
  by destruct (tags !! TagClusterName) as [[s|]|].
Qed.

(** C10, as amended: the filter returns a boolean without faulting on every
    tag map whose values are all non-nil, and more precisely exactly when
    the tag map does not bind the cluster-name tag key to a nil pointer: it
    dereferences the value of that entry only, so a nil value under any
    other key is harmless. *)
Theorem isOwnedByCluster_total_iff (g : resourceGetter)
    (tags : gmap string (option string)) :
  ((∀ k v, tags !! k = Some v → is_Some v) →
   ∃ b, isOwnedByCluster g tags = Ok b)
  ∧ ((∃ b, isOwnedByCluster g tags = Ok b)
     ↔ tags !! TagClusterName ≠ Some None).
Proof.
  rewrite isOwnedByCluster_lookup. split.
  - intros Hnonnil.
    destruct (tags !! TagClusterName) as [[s|]|] eqn:Hlk; [by eauto| |by eauto].
    by destruct (Hnonnil _ _ Hlk).
  - destruct (tags !! TagClusterName) as [[s|]|]; split;
      try done; try (by eauto); by intros [b ?].
Qed.

(** ** From the slice of descriptors to the keyed map *)

Lemma toResourceMap_snoc (rs : list Resource) (r : Resource) :
  toResourceMap (rs ++ [r]) =
    if Done r then toResourceMap rs
    else <[toKey (Type_ r) (ID r) := r]> (toResourceMap rs).
Proof. unfold toResourceMap. by rewrite foldl_app. Qed.

(** An entry of the map is a descriptor of the slice that is not done,
    stored under its own key. *)
Lemma toResourceMap_lookup (rs : list Resource) (k : string) (r : Resource) :
  toResourceMap rs !! k = Some r →
  r ∈ rs ∧ Done r = false ∧ k = toKey (Type_ r) (ID r).
Proof.
  induction rs as [|r' rs IH] using rev_ind; [done|].
  rewrite toResourceMap_snoc. destruct (Done r') eqn:Hdone.
  - intros Hlk. destruct (IH Hlk) as (? & ? & ?).
    split; [|done]. apply elem_of_app. by left.
  - destruct (decide (toKey (Type_ r') (ID r') = k)) as [<-|Hne].
    + rewrite lookup_insert_eq. intros [= <-].
      split; [|done]. apply elem_of_app. right. by apply list_elem_of_singleton.
    + rewrite lookup_insert_ne by done.
      intros Hlk. destruct (IH Hlk) as (? & ? & ?).
      split; [|done]. apply elem_of_app. by left.
Qed.

(** The last descriptor of the slice that has a given key and is not done
    is the one the map keeps. *)
Lemma toResourceMap_last (rs1 rs2 : list Resource) (r : Resource) :
  Done r = false →
  (∀ r', r' ∈ rs2 → Done r' = false →
     toKey (Type_ r') (ID r') ≠ toKey (Type_ r) (ID r)) →
  toResourceMap (rs1 ++ r :: rs2) !! toKey (Type_ r) (ID r) = Some r.
Proof.
  intros Hdone. induction rs2 as [|r' rs2 IH] using rev_ind; intros Hlast.
  - rewrite toResourceMap_snoc, Hdone. apply lookup_insert_eq.
  - replace (rs1 ++ r :: rs2 ++ [r']) with ((rs1 ++ r :: rs2) ++ [r'])
      by by rewrite <- app_assoc.
    rewrite toResourceMap_snoc.
    assert (toResourceMap (rs1 ++ r :: rs2) !! toKey (Type_ r) (ID r) = Some r)
      as Hrec by (apply IH; intros; apply Hlast; set_solver).
    destruct (Done r') eqn:Hdone'; [done|].
    rewrite lookup_insert_ne; [done|]. apply Hlast; set_solver.
Qed.

(** ** The adapters inside [listAll] *)

(** When [listAll] succeeds, every adapter has succeeded and all it listed
    is in the result. *)
Lemma listAll_adapter (g : resourceGetter) (rs : list Resource)
    (fn : resourceGetter → result (list Resource)) :
  listAll g = Ok rs → fn ∈ fns →
  ∃ rs', fn g = Ok rs' ∧ rs' ⊆ rs.
Proof.
  intros Hall. revert fn.
  refine (for_range_prefix_inv
    (λ pre acc, ∀ f, f ∈ pre → ∃ rs', f g = Ok rs' ∧ rs' ⊆ acc)
    _ fns [] rs _ _ Hall).
  - intros f Hf. by apply elem_of_nil in Hf.
  - intros pre f post s1 s2 _ IH Hb f' Hf'. inv_bind Hb. subst s2.
    apply elem_of_app in Hf' as [Hf'|Hf'].
    + destruct (IH _ Hf') as (rs' & ? & ?). exists rs'. split; [done|].
      by apply list_subseteq_app_l.
    + apply list_elem_of_singleton in Hf' as ->. exists a. split; [done|].
      by apply list_subseteq_app_r.
Qed.

(** Conversely, every descriptor of the result comes from an adapter. *)
Lemma listAll_elem (g : resourceGetter) (rs : list Resource) (r : Resource) :
  listAll g = Ok rs → r ∈ rs →
  ∃ fn rs', fn ∈ fns ∧ fn g = Ok rs' ∧ r ∈ rs'.
Proof.
  intros Hall. revert r.
  refine (for_range_inv
    (λ acc, ∀ r, r ∈ acc → ∃ fn rs', fn ∈ fns ∧ fn g = Ok rs' ∧ r ∈ rs')
    _ fns [] rs _ _ Hall).
  - intros r Hr. by apply elem_of_nil in Hr.
  - intros fn s1 s2 Hfn IH Hb r Hr. inv_bind Hb. subst s2.
    apply elem_of_app in Hr as [Hr|Hr]; [by apply IH|]. by exists fn, a.
Qed.


(** ** Every listed descriptor is made by a constructor function *)

Lemma listResourceGroups_emitted (g : resourceGetter) (rs : list Resource) :
  listResourceGroups g = Ok rs → Forall (emitted g) rs.
Proof.
  unfold listResourceGroups. intros Hl. inv_bind Hl.
  apply (for_range_owned_Forall (emitted g)
    (λ rg, isOwnedByCluster g (Group_Tags rg)) (toResourceGroupResource g))
    in Hl; [done| |done].
  intros rg r _ _ Hr. by eapply emitted_ResourceGroup.
Qed.

Lemma listSubnets_emitted (g : resourceGetter) (vnetName : string)
    (rs : list Resource) :
  listSubnets g vnetName = Ok rs → Forall (emitted g) rs.
Proof.
  unfold listSubnets. intros Hl. inv_bind Hl.
  apply (for_range_append_Forall (emitted g)
    (λ subnet, toSubnetResource g subnet vnetName)) in Hl; [done| |done].
  intros subnet r _ Hr. by eapply emitted_Subnet.
Qed.

Lemma listVirtualNetworksAndSubnets_emitted (g : resourceGetter)
    (rs : list Resource) :
  listVirtualNetworksAndSubnets g = Ok rs → Forall (emitted g) rs.
Proof.
  unfold listVirtualNetworksAndSubnets. intros Hl. inv_bind Hl.
  refine (for_range_inv (Forall (emitted g)) _ _ _ _ _ _ Hl); [done|].
  intros vnet s1 s2 _ IH Hb. inv_bind Hb; [|by subst].
  inv_bind Hb. subst s2.
  repeat (apply Forall_app; split); [done| |by eapply listSubnets_emitted].
  apply Forall_singleton. by eapply emitted_VirtualNetwork.
Qed.

Lemma listNetworkSecurityGroups_emitted (g : resourceGetter)
    (rs : list Resource) :
  listNetworkSecurityGroups g = Ok rs → Forall (emitted g) rs.
Proof.
  unfold listNetworkSecurityGroups. intros Hl. inv_bind Hl.
  apply (for_range_append_Forall (emitted g)
    (toNetworkSecurityGroupResource g)) in Hl; [done| |done].
  intros nsg r _ Hr. by eapply emitted_NetworkSecurityGroup.
Qed.

Lemma listRouteTables_emitted (g : resourceGetter) (rs : list Resource) :
  listRouteTables g = Ok rs → Forall (emitted g) rs.
Proof.
  unfold listRouteTables. intros Hl. inv_bind Hl.
  apply (for_range_owned_Forall (emitted g)
    (λ rt, isOwnedByCluster g (RouteTable_Tags rt)) (toRouteTableResource g))
    in Hl; [done| |done].
  intros rt r _ _ Hr. by eapply emitted_RouteTable.
Qed.

Lemma listRoleAssignments_emitted (g : resourceGetter)
    (principalIDs : gmap string VirtualMachineScaleSet) (rs : list Resource) :
  listRoleAssignments g principalIDs = Ok rs → Forall (emitted g) rs.
Proof.
  unfold listRoleAssignments. intros Hl. inv_bind Hl.
  refine (for_range_inv (Forall (emitted g)) _ _ _ _ _ _ Hl); [done|].
  intros ra s1 s2 _ IH Hb.
  destruct (RoleAssignment_PrincipalID ra) as [pid|]; [|by simplify_eq].
  destruct (principalIDs !! pid) as [vmss|]; [|by simplify_eq].
  inv_bind Hb. subst s2. apply Forall_app; split; [done|].
  apply Forall_singleton. by eapply emitted_RoleAssignment.
Qed.

Lemma listVMScaleSetsAndRoleAssignments_emitted (g : resourceGetter)
    (rs : list Resource) :
  listVMScaleSetsAndRoleAssignments g = Ok rs → Forall (emitted g) rs.
Proof.
  unfold listVMScaleSetsAndRoleAssignments. intros Hl.
  apply bind_Ok in Hl as (vmsses & _ & Hl).
  apply bind_Ok in Hl as ([rs1 pids] & Hloop & Hl). inv_bind Hl. subst rs.
  apply Forall_app; split; [|by eapply listRoleAssignments_emitted].
  refine (for_range_inv (λ st, Forall (emitted g) st.1) _ _ _ _ _ _ Hloop);
    [done|].
  intros vmss [s1 p1] [s2 p2] _ IH Hb. unfold listVMScaleSets_body in Hb.
  inv_bind Hb; [|by simplify_eq]. inv_bind Hb. simplify_eq. simpl in *.
  apply Forall_app; split; [done|].
  apply Forall_singleton. by eapply emitted_VMScaleSet.
Qed.

Lemma listDisks_emitted (g : resourceGetter) (rs : list Resource) :
  listDisks g = Ok rs → Forall (emitted g) rs.
Proof.
  unfold listDisks. intros Hl. inv_bind Hl.
  apply (for_range_owned_Forall (emitted g)
    (λ disk, isOwnedByCluster g (Disk_Tags disk)) (toDiskResource g))
    in Hl; [done| |done].
  intros disk r _ _ Hr. by eapply emitted_Disk.
Qed.

Lemma listLoadBalancers_emitted (g : resourceGetter) (rs : list Resource) :
  listLoadBalancers g = Ok rs → Forall (emitted g) rs.
Proof.
  unfold listLoadBalancers. intros Hl. inv_bind Hl.
  apply (for_range_owned_Forall (emitted g)
    (λ lb, isOwnedByCluster g (LoadBalancer_Tags lb))
    (toLoadBalancerResource g)) in Hl; [done| |done].
  intros lb r _ _ Hr. by eapply emitted_LoadBalancer.
Qed.

Lemma listPublicIPAddresses_emitted (g : resourceGetter) (rs : list Resource) :
  listPublicIPAddresses g = Ok rs → Forall (emitted g) rs.
Proof.
  unfold listPublicIPAddresses. intros Hl. inv_bind Hl.
  apply (for_range_owned_Forall (emitted g)
    (λ p, isOwnedByCluster g (PublicIPAddress_Tags p))
    (toPublicIPAddressResource g)) in Hl; [done| |done].
  intros p r _ _ Hr. by eapply emitted_PublicIPAddress.
Qed.

Lemma listAll_emitted (g : resourceGetter) (rs : list Resource) (r : Resource) :
  listAll g = Ok rs → r ∈ rs → emitted g r.
Proof.
  intros Hall Hr.
  destruct (listAll_elem g rs r Hall Hr) as (fn & rs' & Hfn & Hrs' & Hr').
  revert Hr'. apply Forall_forall. unfold fns in Hfn.
  repeat (apply elem_of_cons in Hfn as [->|Hfn]);
    [ by apply listResourceGroups_emitted
    | by apply listVirtualNetworksAndSubnets_emitted
    | by apply listNetworkSecurityGroups_emitted
    | by apply listRouteTables_emitted
    | by apply listVMScaleSetsAndRoleAssignments_emitted
    | by apply listDisks_emitted
    | by apply listLoadBalancers_emitted
    | by apply listPublicIPAddresses_emitted
    | by apply elem_of_nil in Hfn ].
Qed.


(** ** What each kind of descriptor is given *)

Lemma vmssDiskBlocks_incl (vms : list VirtualMachineScaleSetVM)
    (blocks0 blocks : list string) :
  vmssDiskBlocks vms blocks0 = Ok blocks → blocks0 ⊆ blocks.
Proof.
  unfold vmssDiskBlocks. intros Hl.
  refine (for_range_inv (λ b, blocks0 ⊆ b) _ _ _ _ _ _ Hl); [done|].
  intros vm b1 b2 _ IH Hb. inv_bind Hb.
  destruct (DataDisks a) as [disks|]; [|by simplify_eq].
  refine (for_range_inv (λ b, blocks0 ⊆ b) _ _ _ _ _ _ Hb); [done|].
  intros d c1 c2 _ IH' Hd. inv_bind Hd. subst c2.
  by apply list_subseteq_app_l.
Qed.

(** The type, the first blocked key and the [Shared] field of a descriptor,
    kind by kind; no descriptor is made with [Done] set. *)
Lemma emitted_inv (g : resourceGetter) (r : Resource) :
  emitted g r →
  let rgKey := toKey typeResourceGroup (resourceGroupName g) in
  Done r = false ∧
  ( (Type_ r = typeResourceGroup ∧ Blocks r = []
     ∧ Shared r = AzureResourceGroupShared (clusterInfo g))
  ∨ (Type_ r ∈ [typeVirtualNetwork; typeSubnet; typeNetworkSecurityGroup]
     ∧ rgKey ∈ Blocks r ∧ Shared r = AzureNetworkShared (clusterInfo g))
  ∨ (Type_ r = typeRouteTable
     ∧ rgKey ∈ Blocks r ∧ Shared r = AzureRouteTableShared (clusterInfo g))
  ∨ (Type_ r ∈ [typeVMScaleSet; typeDisk; typeRoleAssignment;
                typeLoadBalancer; typePublicIPAddress]
     ∧ rgKey ∈ Blocks r ∧ Shared r = false) ).
Proof.
  intros Hem rgKey. destruct Hem as
    [rg r Hr|vnet r Hr|subnet vnetName r Hr|nsg r Hr|rt r Hr
    |vmss vms r Hr|ra vmss r Hr|disk r Hr|lb r Hr|pip r Hr].
  - unfold toResourceGroupResource in Hr. inv_bind Hr. subst r.
    split; [done|]. by left.
  - unfold toVirtualNetworkResource in Hr. inv_bind Hr. subst r.
    split; [done|]. right; left. simpl. split_and!; [elem_of_here..|done].
  - unfold toSubnetResource in Hr. inv_bind Hr. subst r.
    split; [done|]. right; left. simpl. split_and!; [elem_of_here..|done].
  - unfold toNetworkSecurityGroupResource in Hr. inv_bind Hr. subst r.
    split; [done|]. right; left. simpl. split_and!; [elem_of_here..|done].
  - unfold toRouteTableResource in Hr. inv_bind Hr. subst r.
    split; [done|]. right; right; left. simpl.
    split_and!; [done|elem_of_here|done].
  - unfold toVMScaleSetResource in Hr. inv_bind Hr.
    destruct a2 as [[vnets subnets] lbs]. inv_bind Hr. subst r.
    split; [done|]. right; right; right. simpl.
    split_and!; [elem_of_here| |done].
    apply (vmssDiskBlocks_incl _ _ _ Ha3). elem_of_here.
  - unfold toRoleAssignmentResource in Hr. inv_bind Hr. subst r.
    split; [done|]. right; right; right. simpl.
    split_and!; [elem_of_here..|done].
  - unfold toDiskResource in Hr. inv_bind Hr. subst r.
    split; [done|]. right; right; right. simpl.
    split_and!; [elem_of_here..|done].
  - unfold toLoadBalancerResource in Hr. inv_bind Hr. subst r.
    split; [done|]. right; right; right. simpl.
    split_and!; [elem_of_here..|done].
  - unfold toPublicIPAddressResource in Hr. inv_bind Hr. subst r.
    split; [done|]. right; right; right. simpl.
    split_and!; [elem_of_here..|done].
Qed.


(** ** The keyed map returned by the listing *)

(** [listResourcesAzure] fails only when [listAll] does. *)
Lemma listResourcesAzure_Ok (g : resourceGetter) (m : gmap string Resource) :
  listResourcesAzure g = Ok m ↔ ∃ rs, listAll g = Ok rs ∧ m = toResourceMap rs.
Proof.
  unfold listResourcesAzure. split.
  - intros Hl. inv_bind Hl. eauto.
  - intros (rs & -> & ->). done.
Qed.

(** C5: every descriptor of the map returned by the listing is stored under
    the key made of its type, a colon and its ID. *)
Theorem listResourcesAzure_key (g : resourceGetter) (m : gmap string Resource)
    (k : string) (r : Resource) :
  listResourcesAzure g = Ok m →
  m !! k = Some r →
  k = Type_ r +:+ ":" +:+ ID r.
Proof.
  intros (rs & _ & ->)%listResourcesAzure_Ok Hlk.
  by apply toResourceMap_lookup in Hlk as (_ & _ & ->).
Qed.

(** The conversion loop drops a descriptor that is done, whatever slice it
    is given. *)
Lemma toResourceMap_drops_Done (rs : list Resource) (k : string) (r : Resource) :
  Done r = true → toResourceMap rs !! k ≠ Some r.
Proof.
  intros Hdone Hlk. apply toResourceMap_lookup in Hlk as (_ & ? & _).
  congruence.
Qed.

(** C6: whatever slice of descriptors the conversion loop of
    [listResourcesAzure] is given, with descriptors that are done at
    discovery time or without, no entry of the map it builds has [Done]
    set: every entry is a descriptor of the slice that is not done. The map
    that [listResourcesAzure] returns is the one this loop builds from the
    slice of [listAll] ([listResourcesAzure_Ok]). *)
Theorem toResourceMap_not_Done (rs : list Resource) (k : string)
    (r : Resource) :
  toResourceMap rs !! k = Some r →
  Done r = false ∧ r ∈ rs.
Proof.
  intros Hlk. by apply toResourceMap_lookup in Hlk as (? & ? & _).
Qed.

(** In particular, no entry of the map returned by the listing has [Done]
    set. *)
Lemma listResourcesAzure_not_Done (g : resourceGetter)
    (m : gmap string Resource) (k : string) (r : Resource) :
  listResourcesAzure g = Ok m →
  m !! k = Some r →
  Done r = false.
Proof.
  intros (rs & _ & ->)%listResourcesAzure_Ok Hlk.
  by apply toResourceMap_lookup in Hlk as (_ & ? & _).
Qed.

(** C7: when two listed descriptors have the same key, the listing still
    succeeds and the map binds the key to the one that comes later in the
    slice, the last of those that have this key. *)
Theorem listResourcesAzure_last_writer_wins (g : resourceGetter)
    (rs l1 l2 l3 : list Resource) (r1 r2 : Resource) :
  listAll g = Ok rs →
  rs = l1 ++ r1 :: l2 ++ r2 :: l3 →
  toKey (Type_ r1) (ID r1) = toKey (Type_ r2) (ID r2) →
  (∀ r', r' ∈ l3 → toKey (Type_ r') (ID r') ≠ toKey (Type_ r2) (ID r2)) →
  ∃ m, listResourcesAzure g = Ok m
       ∧ m !! toKey (Type_ r1) (ID r1) = Some r2.
Proof.
  intros Hall Hrs Hkey Hlast. exists (toResourceMap rs).
  split; [apply listResourcesAzure_Ok; by eauto|].
  assert (Done r2 = false) as Hdone.
  { eapply emitted_inv, listAll_emitted; [done|].
    subst rs. rewrite !elem_of_app, !elem_of_cons, !elem_of_app, !elem_of_cons.
    naive_solver. }
  rewrite Hkey, Hrs.
  replace (l1 ++ r1 :: l2 ++ r2 :: l3) with ((l1 ++ r1 :: l2) ++ r2 :: l3)
    by by rewrite <- app_assoc.
  apply toResourceMap_last; [done|]. intros r' Hr' _. by apply Hlast.
Qed.

(** ** Blocking edges towards the resource group *)

(** A listed descriptor of type [ResourceGroup] blocks nothing, and every
    other listed descriptor blocks the key made of the name of the resource
    group of the cluster. *)
Lemma listAll_blocks_resource_group (g : resourceGetter)
    (rs : list Resource) (r : Resource) :
  listAll g = Ok rs →
  r ∈ rs →
  (Type_ r = typeResourceGroup → Blocks r = [])
  ∧ (Type_ r ≠ typeResourceGroup →
     toKey typeResourceGroup (resourceGroupName g) ∈ Blocks r).
Proof.
  intros Hall Hr.
  destruct (emitted_inv g r (listAll_emitted g rs r Hall Hr))
    as (_ & [(Hty & Hb & _)|[(Hty & Hb & _)|[(Hty & Hb & _)|(Hty & Hb & _)]]]).
  - done.
  - split; [|done]. intros Heq. rewrite Heq in Hty. by elem_of_cases Hty.
  - split; [|done]. intros Heq. by rewrite Heq in Hty.
  - split; [|done]. intros Heq. rewrite Heq in Hty. by elem_of_cases Hty.
Qed.

(** ** The [Shared] field *)

(** No listing sets [Shared] on a VM scale set, a disk, a role assignment,
    a load balancer or a public IP address: whatever the cloud and the
    cluster, the field has its zero value. *)
Lemma listAll_Shared_unset (g : resourceGetter) (rs : list Resource)
    (r : Resource) :
  listAll g = Ok rs →
  r ∈ rs →
  Type_ r ∈ [typeVMScaleSet; typeDisk; typeRoleAssignment;
             typeLoadBalancer; typePublicIPAddress] →
  Shared r = false.
Proof.
  intros Hall Hr Hkind.
  destruct (emitted_inv g r (listAll_emitted g rs r Hall Hr))
    as (_ & [(Hty & _)|[(Hty & _)|[(Hty & _)|(_ & _ & Hs)]]]); [..|done].
  - rewrite Hty in Hkind. by elem_of_cases Hkind.
  - elem_of_cases Hty; rewrite Hty in Hkind; by elem_of_cases Hkind.
  - rewrite Hty in Hkind. by elem_of_cases Hkind.
Qed.


(** ** Listing errors *)

Lemma for_range_adapters_Ok (g : resourceGetter)
    (pre : list (resourceGetter → result (list Resource)))
    (acc : list Resource) :
  Forall (λ f, ∃ rs, f g = Ok rs) pre →
  ∃ acc', for_range (λ resources fn,
            rs ← fn g; Ok (resources ++ rs)) pre acc = Ok acc'.
Proof.
  intros Hpre. revert acc.
  induction Hpre as [|f pre [rs Hf] _ IH]; intros acc; simpl; [by eauto|].
  rewrite Hf. simpl. apply IH.
Qed.

(** C2, as amended: when the adapter of one resource kind returns an error
    and the adapters called before it have succeeded, [listAll] returns
    that error and no descriptor, and so does [listResourcesAzure]: what the
    earlier adapters listed is discarded and the later adapters are not
    called. *)
Theorem listAll_first_error (g : resourceGetter)
    (pre post : list (resourceGetter → result (list Resource)))
    (fn : resourceGetter → result (list Resource)) (e : string) :
  fns = pre ++ fn :: post →
  Forall (λ f, ∃ rs, f g = Ok rs) pre →
  fn g = Err e →
  listAll g = Err e
  ∧ listResourcesAzure g = Err e
  ∧ value_of ∅ (listResourcesAzure g) = ∅.
Proof.
  intros Hfns Hpre Hfn.
  assert (listAll g = Err e) as Hall.
  { unfold listAll. rewrite Hfns, for_range_app.
    destruct (for_range_adapters_Ok g pre [] Hpre) as [acc ->].
    simpl. by rewrite Hfn. }
  unfold listResourcesAzure. by rewrite Hall.
Qed.

(** ** Subnets *)

Lemma listSubnets_complete (g : resourceGetter) (vnetName : string)
    (rs : list Resource) :
  listSubnets g vnetName = Ok rs →
  ∃ subnets,
    Subnet_List (cloud g) (resourceGroupName g) vnetName = Ok subnets
    ∧ ∀ subnet, subnet ∈ subnets →
        ∃ r, r ∈ rs ∧ toSubnetResource g subnet vnetName = Ok r.
Proof.
  unfold listSubnets. intros Hl.
  apply bind_Ok in Hl as (subnets & Hlist & Hl).
  exists subnets. split; [done|].
  refine (for_range_prefix_inv
    (λ pre acc, ∀ subnet, subnet ∈ pre →
       ∃ r, r ∈ acc ∧ toSubnetResource g subnet vnetName = Ok r)
    _ _ _ _ _ _ Hl).
  - intros subnet Hin. by apply elem_of_nil in Hin.
  - intros pre subnet post s1 s2 _ IH Hb subnet' Hin. inv_bind Hb. subst s2.
    apply elem_of_app in Hin as [Hin|Hin].
    + destruct (IH _ Hin) as (r & ? & ?). exists r.
      split; [|done]. apply elem_of_app. by left.
    + apply list_elem_of_singleton in Hin as ->. exists a.
      split; [|done]. apply elem_of_app. right. elem_of_here.
Qed.

Lemma toSubnetResource_Ok (g : resourceGetter) (subnet : Subnet)
    (vnetName : string) (r : Resource) :
  toSubnetResource g subnet vnetName = Ok r →
  Obj r = ObjSubnet subnet ∧ Type_ r = typeSubnet
  ∧ Subnet_Name subnet = Some (ID r)
  ∧ Blocks r = [toKey typeVirtualNetwork vnetName;
                toKey typeResourceGroup (resourceGroupName g)].
Proof. unfold toSubnetResource. intros Hr. inv_bind Hr. by subst r. Qed.

(** C4: for every virtual network that passes the ownership filter, every
    subnet that the cloud lists for it is among the listed descriptors; no
    tag of the subnet is looked at, and the descriptor blocks exactly the
    key of the network and the key of the resource group. *)
Theorem listAll_subnets_of_owned_network (g : resourceGetter)
    (rs : list Resource) (vnets : list VirtualNetwork) (vnet : VirtualNetwork) :
  listAll g = Ok rs →
  VirtualNetwork_List (cloud g) (resourceGroupName g) = Ok vnets →
  vnet ∈ vnets →
  isOwnedByCluster g (VirtualNetwork_Tags vnet) = Ok true →
  ∃ vnetName subnets,
    VirtualNetwork_Name vnet = Some vnetName
    ∧ Subnet_List (cloud g) (resourceGroupName g) vnetName = Ok subnets
    ∧ ∀ subnet, subnet ∈ subnets →
        ∃ r, r ∈ rs
             ∧ Obj r = ObjSubnet subnet
             ∧ Type_ r = typeSubnet
             ∧ Subnet_Name subnet = Some (ID r)
             ∧ Blocks r = [toKey typeVirtualNetwork vnetName;
                           toKey typeResourceGroup (resourceGroupName g)].
Proof.
  intros Hall Hlist Hvnet Howned.
  destruct (listAll_adapter g rs listVirtualNetworksAndSubnets Hall)
    as (rs' & Hl & Hincl); [unfold fns; elem_of_here|].
  unfold listVirtualNetworksAndSubnets in Hl. rewrite Hlist in Hl. simpl in Hl.
  assert (∀ vnet, vnet ∈ vnets →
    isOwnedByCluster g (VirtualNetwork_Tags vnet) = Ok true →
    ∃ vnetName subnets,
      VirtualNetwork_Name vnet = Some vnetName
      ∧ Subnet_List (cloud g) (resourceGroupName g) vnetName = Ok subnets
      ∧ ∀ subnet, subnet ∈ subnets →
          ∃ r, r ∈ rs' ∧ toSubnetResource g subnet vnetName = Ok r) as Hinv.
  { refine (for_range_prefix_inv
      (λ pre acc, ∀ vnet, vnet ∈ pre →
         isOwnedByCluster g (VirtualNetwork_Tags vnet) = Ok true →
         ∃ vnetName subnets,
           VirtualNetwork_Name vnet = Some vnetName
           ∧ Subnet_List (cloud g) (resourceGroupName g) vnetName = Ok subnets
           ∧ ∀ subnet, subnet ∈ subnets →
               ∃ r, r ∈ acc ∧ toSubnetResource g subnet vnetName = Ok r)
      _ _ _ _ _ _ Hl).
    - intros v Hin. by apply elem_of_nil in Hin.
    - intros pre v post s1 s2 _ IH Hb v' Hin Hown.
      assert (s1 ⊆ s2) as Hgrow.
      { clear Hin Hown. inv_bind Hb; [|by subst]. inv_bind Hb. subst s2.
        rewrite <- app_assoc. by apply list_subseteq_app_l. }
      apply elem_of_app in Hin as [Hin|Hin].
      + destruct (IH _ Hin Hown) as (vnetName & subnets & ? & ? & Hsub).
        exists vnetName, subnets. split_and!; [done..|].
        intros subnet Hs. destruct (Hsub _ Hs) as (r & ? & ?).
        exists r. split; [by apply Hgrow|done].
      + apply list_elem_of_singleton in Hin as ->.
        rewrite Hown in Hb. simpl in Hb. inv_bind Hb. subst s2.
        destruct (listSubnets_complete g _ _ Ha1) as (subnets & ? & Hsub).
        exists a0, subnets. split_and!; [done..|].
        intros subnet Hs. destruct (Hsub _ Hs) as (r & ? & ?).
        exists r. split; [|done]. apply elem_of_app. by right. }
  destruct (Hinv _ Hvnet Howned) as (vnetName & subnets & ? & ? & Hsub).
  exists vnetName, subnets. split_and!; [done..|].
  intros subnet Hs. destruct (Hsub _ Hs) as (r & Hr & Hmk).
  exists r. split; [by apply Hincl|]. by eapply toSubnetResource_Ok.
Qed.


(** ** Role assignments *)

Lemma toVMScaleSetResource_Type (g : resourceGetter)
    (vmss : VirtualMachineScaleSet) (vms : list VirtualMachineScaleSetVM)
    (r : Resource) :
  toVMScaleSetResource g vmss vms = Ok r →
  Type_ r = typeVMScaleSet ∧ Obj r = ObjVMScaleSet vmss.
Proof.
  unfold toVMScaleSetResource. intros Hr. inv_bind Hr.
  destruct a2 as [[vnets subnets] lbs]. inv_bind Hr. by subst r.
Qed.

Lemma toRoleAssignmentResource_Ok (g : resourceGetter) (ra : RoleAssignment)
    (vmss : VirtualMachineScaleSet) (r : Resource) :
  toRoleAssignmentResource g ra vmss = Ok r →
  Obj r = ObjRoleAssignment ra ∧ Type_ r = typeRoleAssignment
  ∧ ∃ vmssName, VMSS_Name vmss = Some vmssName
      ∧ Blocks r = [toKey typeResourceGroup (resourceGroupName g);
                    toKey typeVMScaleSet vmssName].
Proof.
  unfold toRoleAssignmentResource. intros Hr. inv_bind Hr. subst r.
  split_and!; [done..|]. by exists a0.
Qed.

(** The loop over the scale sets: the map of principal IDs holds the owned
    scale sets, each under its principal ID, and the descriptors made so far
    are all of scale sets. *)
Lemma listVMScaleSets_principalIDs (g : resourceGetter)
    (vmsses : list VirtualMachineScaleSet) (rs : list Resource)
    (principalIDs : gmap string VirtualMachineScaleSet) :
  for_range (listVMScaleSets_body g) vmsses ([], ∅) = Ok (rs, principalIDs) →
  (∀ pid vmss, principalIDs !! pid = Some vmss →
     vmss ∈ vmsses
     ∧ isOwnedByCluster g (VMSS_Tags vmss) = Ok true
     ∧ principalID vmss = Some pid)
  ∧ (∀ vmss pid, vmss ∈ vmsses →
       isOwnedByCluster g (VMSS_Tags vmss) = Ok true →
       principalID vmss = Some pid →
       is_Some (principalIDs !! pid))
  ∧ Forall (λ r, Type_ r = typeVMScaleSet) rs.
Proof.
  intros Hl.
  refine (for_range_prefix_inv
    (λ pre st,
       (∀ pid vmss, st.2 !! pid = Some vmss →
          vmss ∈ pre
          ∧ isOwnedByCluster g (VMSS_Tags vmss) = Ok true
          ∧ principalID vmss = Some pid)
       ∧ (∀ vmss pid, vmss ∈ pre →
            isOwnedByCluster g (VMSS_Tags vmss) = Ok true →
            principalID vmss = Some pid →
            is_Some (st.2 !! pid))
       ∧ Forall (λ r, Type_ r = typeVMScaleSet) st.1)
    _ vmsses ([], ∅) (rs, principalIDs) _ _ Hl).
  - split_and!; [|intros vmss pid Hin; by apply elem_of_nil in Hin|done].
    intros pid vmss Hlk. simpl in Hlk. by rewrite lookup_empty in Hlk.
  - intros pre vmss post [rs1 p1] [rs2 p2] _ (IH1 & IH2 & IH3) Hb.
    unfold listVMScaleSets_body in Hb. simpl in *.
    destruct (isOwnedByCluster g (VMSS_Tags vmss)) as [owned| |] eqn:Hown;
      [|done..].
    simpl in Hb. destruct owned; simpl in Hb.
    + inv_bind Hb. simplify_eq.
      assert (principalID vmss = Some a3) as Hpid.
      { unfold principalID. by rewrite Ha2. }
      split_and!.
      * intros pid vmss' Hlk.
        destruct (decide (a3 = pid)) as [<-|Hne].
        -- rewrite lookup_insert_eq in Hlk. simplify_eq.
           split_and!; [|done..]. apply elem_of_app. right. elem_of_here.
        -- rewrite lookup_insert_ne in Hlk by done.
           destruct (IH1 _ _ Hlk) as (? & ? & ?).
           split_and!; [|done..]. apply elem_of_app. by left.
      * intros vmss' pid Hin Hown' Hpid'.
        destruct (decide (a3 = pid)) as [<-|Hne].
        -- rewrite lookup_insert_eq. by eauto.
        -- rewrite lookup_insert_ne by done.
           apply elem_of_app in Hin as [Hin|Hin]; [by eapply IH2|].
           apply list_elem_of_singleton in Hin as ->. congruence.
      * apply Forall_app; split; [done|]. apply Forall_singleton.
        by eapply toVMScaleSetResource_Type.
    + simplify_eq. split_and!; [| |done].
      * intros pid vmss' Hlk. destruct (IH1 _ _ Hlk) as (? & ? & ?).
        split_and!; [|done..]. apply elem_of_app. by left.
      * intros vmss' pid Hin Hown' Hpid'.
        apply elem_of_app in Hin as [Hin|Hin]; [by eapply IH2|].
        apply list_elem_of_singleton in Hin as ->. congruence.
Qed.

(** The loop over the role assignments: one descriptor for each role
    assignment whose principal ID is a key of the map, and no other. *)
Lemma listRoleAssignments_spec (g : resourceGetter)
    (principalIDs : gmap string VirtualMachineScaleSet)
    (ras : list RoleAssignment) (rs : list Resource) :
  RoleAssignment_List (cloud g) (resourceGroupName g) = Ok ras →
  listRoleAssignments g principalIDs = Ok rs →
  (∀ r, r ∈ rs → ∃ ra pid vmss,
     ra ∈ ras ∧ RoleAssignment_PrincipalID ra = Some pid
     ∧ principalIDs !! pid = Some vmss
     ∧ toRoleAssignmentResource g ra vmss = Ok r)
  ∧ (∀ ra pid vmss, ra ∈ ras →
       RoleAssignment_PrincipalID ra = Some pid →
       principalIDs !! pid = Some vmss →
       ∃ r, r ∈ rs ∧ toRoleAssignmentResource g ra vmss = Ok r).
Proof.
  intros Hlist Hl. unfold listRoleAssignments in Hl.
  rewrite Hlist in Hl. simpl in Hl.
  refine (for_range_prefix_inv
    (λ pre acc,
       (∀ r, r ∈ acc → ∃ ra pid vmss,
          ra ∈ pre ∧ RoleAssignment_PrincipalID ra = Some pid
          ∧ principalIDs !! pid = Some vmss
          ∧ toRoleAssignmentResource g ra vmss = Ok r)
       ∧ (∀ ra pid vmss, ra ∈ pre →
            RoleAssignment_PrincipalID ra = Some pid →
            principalIDs !! pid = Some vmss →
            ∃ r, r ∈ acc ∧ toRoleAssignmentResource g ra vmss = Ok r))
    _ _ _ _ _ _ Hl).
  - split; [intros r Hin|intros ra pid vmss Hin]; by apply elem_of_nil in Hin.
  - intros pre ra post s1 s2 _ [IH1 IH2] Hb.
    assert (∀ r, r ∈ s1 → ∃ ra' pid vmss,
      ra' ∈ pre ++ [ra] ∧ RoleAssignment_PrincipalID ra' = Some pid
      ∧ principalIDs !! pid = Some vmss
      ∧ toRoleAssignmentResource g ra' vmss = Ok r) as IH1'.
    { intros r Hr. destruct (IH1 _ Hr) as (ra' & pid & vmss & ? & ? & ? & ?).
      exists ra', pid, vmss. split_and!; [|done..]. apply elem_of_app. by left. }
    destruct (RoleAssignment_PrincipalID ra) as [pid|] eqn:Hpid;
      [destruct (principalIDs !! pid) as [vmss|] eqn:Hlk|].
    + inv_bind Hb. subst s2. split.
      * intros r [Hr|Hr]%elem_of_app; [by apply IH1'|].
        apply list_elem_of_singleton in Hr as ->.
        exists ra, pid, vmss. split_and!; [|done..].
        apply elem_of_app. right. elem_of_here.
      * intros ra' pid' vmss' [Hin|Hin]%elem_of_app Hpid' Hlk'.
        -- destruct (IH2 _ _ _ Hin Hpid' Hlk') as (r & ? & ?).
           exists r. split; [|done]. apply elem_of_app. by left.
        -- apply list_elem_of_singleton in Hin as ->. simplify_eq.
           exists a. split; [|done]. apply elem_of_app. right. elem_of_here.
    + simplify_eq. split; [done|].
      intros ra' pid' vmss' [Hin|Hin]%elem_of_app Hpid' Hlk'; [by eapply IH2|].
      apply list_elem_of_singleton in Hin as ->. congruence.
    + simplify_eq. split; [done|].
      intros ra' pid' vmss' [Hin|Hin]%elem_of_app Hpid' Hlk'; [by eapply IH2|].
      apply list_elem_of_singleton in Hin as ->. congruence.
Qed.


(** C8: a role assignment that the cloud lists gets a descriptor if and
    only if its principal ID is not nil and is the principal ID of a scale
    set that passes the ownership filter; and a descriptor of a role
    assignment blocks exactly the key of the resource group and the key of
    such a scale set. *)
Theorem listRoleAssignments_of_owned_scale_sets (g : resourceGetter)
    (vmsses : list VirtualMachineScaleSet) (ras : list RoleAssignment)
    (rs : list Resource) :
  VMScaleSet_List (cloud g) (resourceGroupName g) = Ok vmsses →
  RoleAssignment_List (cloud g) (resourceGroupName g) = Ok ras →
  listVMScaleSetsAndRoleAssignments g = Ok rs →
  (∀ ra, ra ∈ ras →
     (∃ r, r ∈ rs ∧ Obj r = ObjRoleAssignment ra)
     ↔ (∃ pid vmss,
          RoleAssignment_PrincipalID ra = Some pid
          ∧ vmss ∈ vmsses
          ∧ isOwnedByCluster g (VMSS_Tags vmss) = Ok true
          ∧ principalID vmss = Some pid))
  ∧ (∀ r, r ∈ rs → Type_ r = typeRoleAssignment →
       ∃ ra pid vmss vmssName,
         ra ∈ ras
         ∧ Obj r = ObjRoleAssignment ra
         ∧ RoleAssignment_PrincipalID ra = Some pid
         ∧ vmss ∈ vmsses
         ∧ isOwnedByCluster g (VMSS_Tags vmss) = Ok true
         ∧ principalID vmss = Some pid
         ∧ VMSS_Name vmss = Some vmssName
         ∧ Blocks r = [toKey typeResourceGroup (resourceGroupName g);
                       toKey typeVMScaleSet vmssName]).
Proof.
  intros Hvmsses Hras Hl. unfold listVMScaleSetsAndRoleAssignments in Hl.
  rewrite Hvmsses in Hl. simpl in Hl.
  apply bind_Ok in Hl as ([rs1 pids] & Hloop & Hl). inv_bind Hl. subst rs.
  destruct (listVMScaleSets_principalIDs g _ _ _ Hloop) as (Hp1 & Hp2 & Hty).
  destruct (listRoleAssignments_spec g _ _ _ Hras Ha) as (Hr1 & Hr2).
  assert (∀ r, r ∈ rs1 → Type_ r = typeVMScaleSet) as Hty'
    by by apply Forall_forall.
  split.
  - intros ra Hra. split.
    + intros (r & [Hr|Hr]%elem_of_app & Hobj).
      * exfalso. clear Hp1 Hp2 Hr1 Hr2 Hty Hty' Ha.
        revert r Hr Hobj.
        refine (for_range_inv
          (λ st, ∀ r, r ∈ st.1 → Obj r ≠ ObjRoleAssignment ra)
          _ _ _ _ _ _ Hloop).
        -- intros r Hin. by apply elem_of_nil in Hin.
        -- intros vmss [s1 p1] [s2 p2] _ IH Hb.
           unfold listVMScaleSets_body in Hb.
           inv_bind Hb; [|by simplify_eq]. inv_bind Hb. simplify_eq. simpl.
           intros r [Hin|Hin]%elem_of_app; [by apply IH|].
           apply list_elem_of_singleton in Hin as ->.
           apply toVMScaleSetResource_Type in Ha2 as [_ ->]. done.
      * destruct (Hr1 _ Hr) as (ra' & pid & vmss & _ & Hpid & Hlk & Hmk).
        apply toRoleAssignmentResource_Ok in Hmk as (Hobj' & _).
        rewrite Hobj in Hobj'. injection Hobj' as <-.
        destruct (Hp1 _ _ Hlk) as (? & ? & ?).
        exists pid, vmss. by split_and!.
    + intros (pid & vmss & Hpid & Hin & Hown & Hprincipal).
      destruct (Hp2 _ _ Hin Hown Hprincipal) as [vmss' Hlk].
      destruct (Hr2 _ _ _ Hra Hpid Hlk) as (r & Hr & Hmk).
      exists r. split; [apply elem_of_app; by right|].
      by apply toRoleAssignmentResource_Ok in Hmk as (? & _).
  - intros r [Hr|Hr]%elem_of_app Htype.
    + apply Hty' in Hr. rewrite Hr in Htype. done.
    + destruct (Hr1 _ Hr) as (ra & pid & vmss & ? & ? & Hlk & Hmk).
      apply toRoleAssignmentResource_Ok in Hmk as (? & _ & vmssName & ? & ?).
      destruct (Hp1 _ _ Hlk) as (? & ? & ?).
      exists ra, pid, vmss, vmssName. by split_and!.
Qed.

End Properties.

Section Coverage.
Context `{AzurePackage}.

(** ** Where the listed descriptors come from *)

Lemma listResourceGroups_listed (g : resourceGetter) (rs : list Resource) :
  listResourceGroups g = Ok rs → Forall (listed g) rs.
Proof.
  unfold listResourceGroups. intros Hl.
  apply bind_Ok in Hl as (rgs & Hlist & Hl).
  apply (for_range_owned_Forall (listed g)
    (λ rg, isOwnedByCluster g (Group_Tags rg)) (toResourceGroupResource g))
    in Hl; [done| |done].
  intros rg r Hin Hown Hr. by eapply listed_ResourceGroup.
Qed.

Lemma listVirtualNetworksAndSubnets_listed (g : resourceGetter)
    (rs : list Resource) :
  listVirtualNetworksAndSubnets g = Ok rs → Forall (listed g) rs.
Proof.
  unfold listVirtualNetworksAndSubnets. intros Hl.
  apply bind_Ok in Hl as (vnets & Hlist & Hl).
  refine (for_range_inv (Forall (listed g)) _ _ _ _ _ _ Hl); [done|].
  intros vnet s1 s2 Hin IH Hb.
  apply bind_Ok in Hb as (owned & Hown & Hb).
  destruct owned; simpl in Hb; [|by simplify_eq].
  apply bind_Ok in Hb as (r & Hr & Hb).
  apply bind_Ok in Hb as (vnetName & Hname%deref_Ok & Hb).
  apply bind_Ok in Hb as (subs & Hsubs & Hb). simplify_eq.
  repeat (apply Forall_app; split); [done| |].
  - apply Forall_singleton. by eapply listed_VirtualNetwork.
  - unfold listSubnets in Hsubs.
    apply bind_Ok in Hsubs as (subnets & Hsl & Hsubs).
    apply (for_range_append_Forall (listed g)
      (λ subnet, toSubnetResource g subnet vnetName)) in Hsubs; [done| |done].
    intros subnet r' Hsn Hr'. by eapply listed_Subnet.
Qed.

Lemma listNetworkSecurityGroups_listed (g : resourceGetter)
    (rs : list Resource) :
  listNetworkSecurityGroups g = Ok rs → Forall (listed g) rs.
Proof.
  unfold listNetworkSecurityGroups. intros Hl.
  apply bind_Ok in Hl as (nsgs & Hlist & Hl).
  apply (for_range_append_Forall (listed g)
    (toNetworkSecurityGroupResource g)) in Hl; [done| |done].
  intros nsg r Hin Hr. by eapply listed_NetworkSecurityGroup.
Qed.

Lemma listRouteTables_listed (g : resourceGetter) (rs : list Resource) :
  listRouteTables g = Ok rs → Forall (listed g) rs.
Proof.
  unfold listRouteTables. intros Hl.
  apply bind_Ok in Hl as (rts & Hlist & Hl).
  apply (for_range_owned_Forall (listed g)
    (λ rt, isOwnedByCluster g (RouteTable_Tags rt)) (toRouteTableResource g))
    in Hl; [done| |done].
  intros rt r Hin Hown Hr. by eapply listed_RouteTable.
Qed.

Lemma listVMScaleSetsAndRoleAssignments_listed (g : resourceGetter)
    (rs : list Resource) :
  listVMScaleSetsAndRoleAssignments g = Ok rs → Forall (listed g) rs.
Proof.
  unfold listVMScaleSetsAndRoleAssignments. intros Hl.
  apply bind_Ok in Hl as (vmsses & Hlist & Hl).
  apply bind_Ok in Hl as ([rs1 pids] & Hloop & Hl).
  apply bind_Ok in Hl as (ras & Hras & Hl). simplify_eq.
  apply Forall_app; split.
  - refine (for_range_inv (λ st, Forall (listed g) st.1) _ _ _ _ _ _ Hloop);
      [done|].
    intros vmss [s1 p1] [s2 p2] Hin IH Hb. unfold listVMScaleSets_body in Hb.
    apply bind_Ok in Hb as (owned & Hown & Hb).
    destruct owned; simpl in Hb; [|by simplify_eq].
    apply bind_Ok in Hb as (vmssName & Hname%deref_Ok & Hb).
    apply bind_Ok in Hb as (vms & Hvms & Hb).
    apply bind_Ok in Hb as (r & Hr & Hb).
    apply bind_Ok in Hb as (identity & _ & Hb).
    apply bind_Ok in Hb as (principal & _ & Hb). simplify_eq. simpl in *.
    apply Forall_app; split; [done|].
    apply Forall_singleton. by eapply listed_VMScaleSet.
  - destruct (listVMScaleSets_principalIDs g _ _ _ Hloop) as (Hp & _ & _).
    assert (∃ ral, RoleAssignment_List (cloud g) (resourceGroupName g) = Ok ral)
      as [ral Hral].
    { unfold listRoleAssignments in Hras.
      apply bind_Ok in Hras as (ral & ? & _). by exists ral. }
    destruct (listRoleAssignments_spec g _ _ _ Hral Hras) as [Hsound _].
    apply Forall_forall. intros r Hr.
    destruct (Hsound _ Hr) as (ra & pid & vmss & ? & ? & Hlk & ?).
    destruct (Hp _ _ Hlk) as (? & ? & ?).
    by eapply listed_RoleAssignment.
Qed.

Lemma listDisks_listed (g : resourceGetter) (rs : list Resource) :
  listDisks g = Ok rs → Forall (listed g) rs.
Proof.
  unfold listDisks. intros Hl.
  apply bind_Ok in Hl as (disks & Hlist & Hl).
  apply (for_range_owned_Forall (listed g)
    (λ disk, isOwnedByCluster g (Disk_Tags disk)) (toDiskResource g))
    in Hl; [done| |done].
  intros disk r Hin Hown Hr. by eapply listed_Disk.
Qed.

Lemma listLoadBalancers_listed (g : resourceGetter) (rs : list Resource) :
  listLoadBalancers g = Ok rs → Forall (listed g) rs.
Proof.
  unfold listLoadBalancers. intros Hl.
  apply bind_Ok in Hl as (lbs & Hlist & Hl).
  apply (for_range_owned_Forall (listed g)
    (λ lb, isOwnedByCluster g (LoadBalancer_Tags lb))
    (toLoadBalancerResource g)) in Hl; [done| |done].
  intros lb r Hin Hown Hr. by eapply listed_LoadBalancer.
Qed.

Lemma listPublicIPAddresses_listed (g : resourceGetter) (rs : list Resource) :
  listPublicIPAddresses g = Ok rs → Forall (listed g) rs.
Proof.
  unfold listPublicIPAddresses. intros Hl.
  apply bind_Ok in Hl as (pips & Hlist & Hl).
  apply (for_range_owned_Forall (listed g)
    (λ p, isOwnedByCluster g (PublicIPAddress_Tags p))
    (toPublicIPAddressResource g)) in Hl; [done| |done].
  intros p r Hin Hown Hr. by eapply listed_PublicIPAddress.
Qed.

(** Every descriptor that [listAll] returns has been made from an object
    that the cloud listed and that passed the test of its listing
    function. *)
Lemma listAll_listed (g : resourceGetter) (rs : list Resource) (r : Resource) :
  listAll g = Ok rs → r ∈ rs → listed g r.
Proof.
  intros Hall Hr.
  destruct (listAll_elem g rs r Hall Hr) as (fn & rs' & Hfn & Hrs' & Hr').
  revert Hr'. apply Forall_forall. unfold fns in Hfn.
  repeat (apply elem_of_cons in Hfn as [->|Hfn]);
    [ by apply listResourceGroups_listed
    | by apply listVirtualNetworksAndSubnets_listed
    | by apply listNetworkSecurityGroups_listed
    | by apply listRouteTables_listed
    | by apply listVMScaleSetsAndRoleAssignments_listed
    | by apply listDisks_listed
    | by apply listLoadBalancers_listed
    | by apply listPublicIPAddresses_listed
    | by apply elem_of_nil in Hfn ].
Qed.

(** ** Keys *)

(** A key splits at its first colon: as long as the types hold no colon,
    the key determines the type and the ID. *)
Lemma toKey_nil (id : string) : toKey "" id = String colon id.
Proof. reflexivity. Qed.

Lemma toKey_cons (c : Ascii.ascii) (t id : string) :
  toKey (String c t) id = String c (toKey t id).
Proof. reflexivity. Qed.

Lemma toKey_inj (t1 t2 id1 id2 : string) :
  hasColon t1 = false → hasColon t2 = false →
  toKey t1 id1 = toKey t2 id2 →
  t1 = t2 ∧ id1 = id2.
Proof.
  revert t2.
  induction t1 as [|c1 t1 IH]; intros [|c2 t2] Hc1 Hc2 Heq;
    rewrite ?toKey_nil, ?toKey_cons in Heq; simpl in Hc1, Hc2.
  - by injection Heq as ->.
  - injection Heq as <- _. apply orb_false_elim in Hc2 as [Hc2 _].
    by apply bool_decide_eq_false in Hc2.
  - injection Heq as -> _. apply orb_false_elim in Hc1 as [Hc1 _].
    by apply bool_decide_eq_false in Hc1.
  - injection Heq as -> Heq.
    apply orb_false_elim in Hc1 as [_ Hc1].
    apply orb_false_elim in Hc2 as [_ Hc2].
    by destruct (IH t2 Hc1 Hc2 Heq) as [-> ->].
Qed.

Lemma objType_no_colon (o : Object) : hasColon (objType o) = false.
Proof. by destruct o. Qed.

(** The fields of a descriptor that name it agree with the object it
    holds. *)
Lemma emitted_names (g : resourceGetter) (r : Resource) :
  emitted g r →
  Type_ r = objType (Obj r) ∧ objName (Obj r) = Some (ID r) ∧ Name r = ID r.
Proof.
  intros [rg r' Hr|vnet r' Hr|subnet vnetName r' Hr|nsg r' Hr|rt r' Hr
         |vmss vms r' Hr|ra vmss r' Hr|disk r' Hr|lb r' Hr|pip r' Hr].
  - unfold toResourceGroupResource in Hr. inv_bind Hr. by subst r'.
  - unfold toVirtualNetworkResource in Hr. inv_bind Hr. by subst r'.
  - unfold toSubnetResource in Hr. inv_bind Hr. by subst r'.
  - unfold toNetworkSecurityGroupResource in Hr. inv_bind Hr. by subst r'.
  - unfold toRouteTableResource in Hr. inv_bind Hr. by subst r'.
  - unfold toVMScaleSetResource in Hr. inv_bind Hr.
    destruct a2 as [[vnets subnets] lbs]. inv_bind Hr. by subst r'.
  - unfold toRoleAssignmentResource in Hr. inv_bind Hr. by subst r'.
  - unfold toDiskResource in Hr. inv_bind Hr. by subst r'.
  - unfold toLoadBalancerResource in Hr. inv_bind Hr. by subst r'.
  - unfold toPublicIPAddressResource in Hr. inv_bind Hr. by subst r'.
Qed.

(** X2: every listed descriptor is named after the object it holds: its ID
    and its Name are both the name of that object, which is not nil, and its
    type is the type of the kind of that object. *)
Theorem listAll_descriptor_names (g : resourceGetter) (rs : list Resource)
    (r : Resource) :
  listAll g = Ok rs →
  r ∈ rs →
  Type_ r = objType (Obj r) ∧ objName (Obj r) = Some (ID r) ∧ Name r = ID r.
Proof. intros Hall Hr. by eapply emitted_names, listAll_emitted. Qed.

(** X3: two listed descriptors have the same key only if they have the same
    type and the same ID: keys never collide across kinds. *)
Theorem listAll_same_key (g : resourceGetter) (rs : list Resource)
    (r1 r2 : Resource) :
  listAll g = Ok rs →
  r1 ∈ rs → r2 ∈ rs →
  keyOf r1 = keyOf r2 →
  Type_ r1 = Type_ r2 ∧ ID r1 = ID r2.
Proof.
  intros Hall Hr1 Hr2 Hkey.
  destruct (emitted_names g r1 (listAll_emitted g rs r1 Hall Hr1)) as [Ht1 _].
  destruct (emitted_names g r2 (listAll_emitted g rs r2 Hall Hr2)) as [Ht2 _].
  apply toKey_inj; [| |exact Hkey].
  - rewrite Ht1. apply objType_no_colon.
  - rewrite Ht2. apply objType_no_colon.
Qed.

(** ** The conversion loop on any slice *)

(** X4: the conversion loop of [listResourcesAzure] binds a key to the last
    descriptor of the slice that has this key and is not done, and leaves
    the key out when the slice has none. *)
Theorem toResourceMap_lookup_last (rs : list Resource) (k : string) :
  toResourceMap rs !! k
  = last (filter (λ r, Done r = false ∧ keyOf r = k) rs).
Proof.
  induction rs as [|r rs IH] using rev_ind; [done|].
  rewrite toResourceMap_snoc, filter_app, filter_cons, filter_nil.
  destruct (Done r) eqn:Hdone.
  - rewrite decide_False by (by intros [? _]). by rewrite app_nil_r.
  - destruct (decide (keyOf r = k)) as [Hk|Hk].
    + rewrite decide_True by done. rewrite last_snoc.
      unfold keyOf in Hk. by rewrite Hk, lookup_insert_eq.
    + rewrite decide_False by (by intros [_ ?]). rewrite app_nil_r.
      by rewrite lookup_insert_ne.
Qed.

(** A slice without done descriptors loses no key. *)
Lemma toResourceMap_dom (rs : list Resource) :
  Forall (λ r, Done r = false) rs →
  dom (toResourceMap rs) = list_to_set (keyOf <$> rs).
Proof.
  induction rs as [|r rs IH] using rev_ind; intros Hdone.
  - unfold toResourceMap. simpl. by rewrite dom_empty_L.
  - apply Forall_app in Hdone as [Hrs Hr%Forall_inv]. simpl in Hr.
    rewrite toResourceMap_snoc, Hr, dom_insert_L, IH by done.
    rewrite fmap_app, list_to_set_app_L. simpl.
    rewrite (right_id_L ∅ (∪)). apply (comm_L (∪)).
Qed.

(** X5: the keys of the map returned by the listing are exactly the keys of
    the listed descriptors: a descriptor leaves the map only when a later
    one has its key. *)
Theorem listResourcesAzure_dom (g : resourceGetter) (rs : list Resource)
    (m : gmap string Resource) :
  listAll g = Ok rs →
  listResourcesAzure g = Ok m →
  dom m = list_to_set (keyOf <$> rs).
Proof.
  intros Hall (rs' & Hall' & ->)%listResourcesAzure_Ok.
  rewrite Hall in Hall'. injection Hall' as <-.
  apply toResourceMap_dom, Forall_forall. intros r Hr.
  by eapply emitted_inv, listAll_emitted.
Qed.

(** ** Shared, ownership and order *)

(** X6: the [Shared] field of a listed descriptor is decided by its type
    and the cluster alone: the flag of the resource group for a resource
    group, the flag of the network for a virtual network, a subnet and a
    network security group, the flag of the route table for a route table,
    and false for every other type. *)
Theorem listAll_Shared_by_type (g : resourceGetter) (rs : list Resource)
    (r : Resource) :
  listAll g = Ok rs →
  r ∈ rs →
  Shared r =
    if decide (Type_ r = typeResourceGroup)
    then AzureResourceGroupShared (clusterInfo g)
    else if decide (Type_ r ∈ [typeVirtualNetwork; typeSubnet;
                                typeNetworkSecurityGroup])
    then AzureNetworkShared (clusterInfo g)
    else if decide (Type_ r = typeRouteTable)
    then AzureRouteTableShared (clusterInfo g)
    else false.
Proof.
  intros Hall Hr.
  destruct (emitted_inv g r (listAll_emitted g rs r Hall Hr))
    as (_ & [(Hty & _ & ->)|[(Hty & _ & ->)|[(Hty & _ & ->)|(Hty & _ & ->)]]]).
  - by rewrite Hty.
  - elem_of_cases Hty; by rewrite Hty.
  - by rewrite Hty.
  - elem_of_cases Hty; by rewrite Hty.
Qed.

Lemma isOwnedByCluster_true_lookup (g : resourceGetter)
    (tags : gmap string (option string)) :
  isOwnedByCluster g tags = Ok true →
  tags !! TagClusterName = Some (Some (ClusterName (clusterInfo g))).
Proof.
  rewrite isOwnedByCluster_lookup.
  destruct (tags !! TagClusterName) as [[s|]|]; [|done..].
  case_bool_decide; [by subst|done].
Qed.

(** X7: except for network security groups, which are listed without the
    ownership test, every listed descriptor that holds a tagged object holds
    one whose cluster-name tag is the name of the cluster. *)
Theorem listAll_owned (g : resourceGetter) (rs : list Resource) (r : Resource)
    (tags : gmap string (option string)) :
  listAll g = Ok rs →
  r ∈ rs →
  Type_ r ≠ typeNetworkSecurityGroup →
  objTags (Obj r) = Some tags →
  tags !! TagClusterName = Some (Some (ClusterName (clusterInfo g))).
Proof.
  intros Hall Hr Htype Htags. apply isOwnedByCluster_true_lookup.
  destruct (listAll_listed g rs r Hall Hr)
    as [? rg r' _ _ Hown Hmk|? vnet r' _ _ Hown Hmk
       |? ? ? ? subnet r' _ _ _ _ _ _ Hmk|? nsg r' _ _ Hmk
       |? rt r' _ _ Hown Hmk|? vmss ? vms r' _ _ Hown _ _ Hmk
       |? ? ? ra ? r' _ _ _ _ _ _ _ Hmk|? disk r' _ _ Hown Hmk
       |? lb r' _ _ Hown Hmk|? pip r' _ _ Hown Hmk].
  - unfold toResourceGroupResource in Hmk. inv_bind Hmk. subst r'.
    by simplify_eq/=.
  - unfold toVirtualNetworkResource in Hmk. inv_bind Hmk. subst r'.
    by simplify_eq/=.
  - unfold toSubnetResource in Hmk. inv_bind Hmk. by subst r'.
  - unfold toNetworkSecurityGroupResource in Hmk. inv_bind Hmk. by subst r'.
  - unfold toRouteTableResource in Hmk. inv_bind Hmk. subst r'.
    by simplify_eq/=.
  - apply toVMScaleSetResource_Type in Hmk as [_ Hobj]. rewrite Hobj in Htags.
    by simplify_eq/=.
  - unfold toRoleAssignmentResource in Hmk. inv_bind Hmk. by subst r'.
  - unfold toDiskResource in Hmk. inv_bind Hmk. subst r'. by simplify_eq/=.
  - unfold toLoadBalancerResource in Hmk. inv_bind Hmk. subst r'.
    by simplify_eq/=.
  - unfold toPublicIPAddressResource in Hmk. inv_bind Hmk. subst r'.
    by simplify_eq/=.
Qed.

(** X8: [listAll] succeeds exactly when its eight listing functions do, and
    then returns what they list in its fixed order, resource groups first and
    public IP addresses last. *)
Theorem listAll_concat (g : resourceGetter) (rs : list Resource) :
  listAll g = Ok rs ↔
  ∃ rgs vnets nsgs rts vmsses disks lbs pips,
    listResourceGroups g = Ok rgs
    ∧ listVirtualNetworksAndSubnets g = Ok vnets
    ∧ listNetworkSecurityGroups g = Ok nsgs
    ∧ listRouteTables g = Ok rts
    ∧ listVMScaleSetsAndRoleAssignments g = Ok vmsses
    ∧ listDisks g = Ok disks
    ∧ listLoadBalancers g = Ok lbs
    ∧ listPublicIPAddresses g = Ok pips
    ∧ rs = rgs ++ vnets ++ nsgs ++ rts ++ vmsses ++ disks ++ lbs ++ pips.
Proof.
  unfold listAll, fns. cbn [for_range]. split.
  - intros Hl.
    apply bind_Ok in Hl as (s1 & (rgs & ? & ?)%bind_Ok & Hl).
    apply bind_Ok in Hl as (s2 & (vnets & ? & ?)%bind_Ok & Hl).
    apply bind_Ok in Hl as (s3 & (nsgs & ? & ?)%bind_Ok & Hl).
    apply bind_Ok in Hl as (s4 & (rts & ? & ?)%bind_Ok & Hl).
    apply bind_Ok in Hl as (s5 & (vmsses & ? & ?)%bind_Ok & Hl).
    apply bind_Ok in Hl as (s6 & (disks & ? & ?)%bind_Ok & Hl).
    apply bind_Ok in Hl as (s7 & (lbs & ? & ?)%bind_Ok & Hl).
    apply bind_Ok in Hl as (s8 & (pips & ? & ?)%bind_Ok & Hl).
    simplify_eq. do 8 eexists.
    split_and!; [eassumption..|]. by rewrite <- !app_assoc.
  - intros (rgs & vnets & nsgs & rts & vmsses & disks & lbs & pips
            & -> & -> & -> & -> & -> & -> & -> & -> & ->).
    simpl. by rewrite <- !app_assoc.
Qed.

(** ** Deleting what was listed *)

(** The call of the deleter of a descriptor made by a constructor
    function. *)
Lemma emitted_deleterCall (g : resourceGetter) (r : Resource) :
  emitted g r →
  match deleterCall g (Deleter r) r with
  | Ok call =>
      callType call = Type_ r
      ∧ callName call = ID r
      ∧ ∀ rg, callResourceGroup call = Some rg → rg = resourceGroupName g
  | Err _ => False
  | Panic => ∃ ra, Obj r = ObjRoleAssignment ra ∧ RoleAssignment_Scope ra = None
  end.
Proof.
  intros Hem.
  destruct Hem
    as [rg r' Hmk|vnet r' Hmk|subnet vnetName r' Hmk|nsg r' Hmk|rt r' Hmk
       |vmss vms r' Hmk|ra vmss r' Hmk|disk r' Hmk|lb r' Hmk|pip r' Hmk].
  - unfold toResourceGroupResource in Hmk. inv_bind Hmk. subst r'. simpl.
    by split_and!.
  - unfold toVirtualNetworkResource in Hmk. inv_bind Hmk. subst r'. simpl.
    split_and!; [done..|]. by intros rg [= <-].
  - unfold toSubnetResource in Hmk. inv_bind Hmk. subst r'. simpl.
    split_and!; [done..|]. by intros rg [= <-].
  - unfold toNetworkSecurityGroupResource in Hmk. inv_bind Hmk. subst r'.
    simpl. split_and!; [done..|]. by intros rg [= <-].
  - unfold toRouteTableResource in Hmk. inv_bind Hmk. subst r'. simpl.
    split_and!; [done..|]. by intros rg [= <-].
  - unfold toVMScaleSetResource in Hmk. inv_bind Hmk.
    destruct a2 as [[vnets subnets] lbs]. inv_bind Hmk. subst r'. simpl.
    split_and!; [done..|]. by intros rg [= <-].
  - unfold toRoleAssignmentResource in Hmk. inv_bind Hmk. subst r'. simpl.
    rewrite Ha. destruct (RoleAssignment_Scope ra) as [scope|] eqn:Hscope; simpl.
    + by split_and!.
    + by exists ra.
  - unfold toDiskResource in Hmk. inv_bind Hmk. subst r'. simpl.
    split_and!; [done..|]. by intros rg [= <-].
  - unfold toLoadBalancerResource in Hmk. inv_bind Hmk. subst r'. simpl.
    split_and!; [done..|]. by intros rg [= <-].
  - unfold toPublicIPAddressResource in Hmk. inv_bind Hmk. subst r'. simpl.
    split_and!; [done..|]. by intros rg [= <-].
Qed.

(** X9: the deleter of a listed descriptor never fails on its own: it makes
    a [Delete] call on the client of the type of the descriptor, for the
    object named by the ID of the descriptor and, where the call names a
    resource group, in the resource group of the cluster. It faults only
    for a role assignment whose scope is nil. *)
Theorem listAll_deleterCall (g : resourceGetter) (rs : list Resource)
    (r : Resource) :
  listAll g = Ok rs →
  r ∈ rs →
  match deleterCall g (Deleter r) r with
  | Ok call =>
      callType call = Type_ r
      ∧ callName call = ID r
      ∧ ∀ rg, callResourceGroup call = Some rg → rg = resourceGroupName g
  | Err _ => False
  | Panic => ∃ ra, Obj r = ObjRoleAssignment ra ∧ RoleAssignment_Scope ra = None
  end.
Proof. intros Hall Hr. by eapply emitted_deleterCall, listAll_emitted. Qed.

(** X10: an error that the deleter of a listed descriptor returns is the
    answer of the cloud to the [Delete] call for the object of the
    descriptor; in particular the type assertion of [deleteRoleAssignment]
    never fails on a listed descriptor. *)
Theorem listAll_invokeDeleter_Err (g : resourceGetter) (rs : list Resource)
    (r : Resource) (azureDelete : DeleteCall → option string) (e : string) :
  listAll g = Ok rs →
  r ∈ rs →
  invokeDeleter azureDelete g r = Err e →
  ∃ call,
    deleterCall g (Deleter r) r = Ok call
    ∧ azureDelete call = Some e
    ∧ callType call = Type_ r
    ∧ callName call = ID r.
Proof.
  intros Hall Hr Hinv.
  pose proof (emitted_deleterCall g r (listAll_emitted g rs r Hall Hr)) as Hc.
  unfold invokeDeleter in Hinv.
  destruct (deleterCall g (Deleter r) r) as [call|e'|]; simpl in Hinv;
    [|done..].
  destruct Hc as (? & ? & _). exists call.
  destruct (azureDelete call) as [e''|]; [|done].
  injection Hinv as ->. by split_and!.
Qed.

(** X11: the deleter of a listed subnet deletes the subnet from the virtual
    network under which it was listed: a network that passes the ownership
    test and whose key the descriptor blocks. *)
Theorem listAll_subnet_deleterCall (g : resourceGetter) (rs : list Resource)
    (r : Resource) :
  listAll g = Ok rs →
  r ∈ rs →
  Type_ r = typeSubnet →
  ∃ vnets vnet vnetName subnets subnet,
    VirtualNetwork_List (cloud g) (resourceGroupName g) = Ok vnets
    ∧ vnet ∈ vnets
    ∧ isOwnedByCluster g (VirtualNetwork_Tags vnet) = Ok true
    ∧ VirtualNetwork_Name vnet = Some vnetName
    ∧ Subnet_List (cloud g) (resourceGroupName g) vnetName = Ok subnets
    ∧ subnet ∈ subnets
    ∧ Obj r = ObjSubnet subnet
    ∧ toKey typeVirtualNetwork vnetName ∈ Blocks r
    ∧ deleterCall g (Deleter r) r
      = Ok (Subnet_Delete (resourceGroupName g) vnetName (ID r)).
Proof.
  intros Hall Hr Htype.
  destruct (listAll_listed g rs r Hall Hr)
    as [? rg r' _ _ _ Hmk|? vnet r' _ _ _ Hmk
       |vnets vnet vnetName subnets subnet r' ? ? ? ? ? ? Hmk|? nsg r' _ _ Hmk
       |? rt r' _ _ _ Hmk|? vmss ? vms r' _ _ _ _ _ Hmk
       |? ? ? ra ? r' _ _ _ _ _ _ _ Hmk|? disk r' _ _ _ Hmk
       |? lb r' _ _ _ Hmk|? pip r' _ _ _ Hmk].
  - unfold toResourceGroupResource in Hmk. inv_bind Hmk. by subst r'.
  - unfold toVirtualNetworkResource in Hmk. inv_bind Hmk. by subst r'.
  - exists vnets, vnet, vnetName, subnets, subnet.
    unfold toSubnetResource in Hmk. inv_bind Hmk. subst r'. simpl.
    split_and!; [done..|elem_of_here|done].
  - unfold toNetworkSecurityGroupResource in Hmk. inv_bind Hmk. by subst r'.
  - unfold toRouteTableResource in Hmk. inv_bind Hmk. by subst r'.
  - apply toVMScaleSetResource_Type in Hmk as [Hty _].
    by rewrite Hty in Htype.
  - unfold toRoleAssignmentResource in Hmk. inv_bind Hmk. by subst r'.
  - unfold toDiskResource in Hmk. inv_bind Hmk. by subst r'.
  - unfold toLoadBalancerResource in Hmk. inv_bind Hmk. by subst r'.
  - unfold toPublicIPAddressResource in Hmk. inv_bind Hmk. by subst r'.
Qed.

(** ** What a virtual network and a load balancer block *)

(** A loop that adds names to a set of its state: the set at the end holds
    the names it held at the start and those the visited elements gave. *)
Lemma for_range_collect {A S} (π : S → gset string) (rel : A → string → Prop)
    (body : S → A → result S) (xs : list A) (s0 s : S) :
  (∀ s1 x s2, x ∈ xs → body s1 x = Ok s2 →
     ∀ n, n ∈ π s2 ↔ n ∈ π s1 ∨ rel x n) →
  for_range body xs s0 = Ok s →
  ∀ n, n ∈ π s ↔ n ∈ π s0 ∨ ∃ x, x ∈ xs ∧ rel x n.
Proof.
  intros Hstep Hl.
  refine (for_range_prefix_inv
    (λ pre s1, ∀ n, n ∈ π s1 ↔ n ∈ π s0 ∨ ∃ x, x ∈ pre ∧ rel x n)
    _ _ _ _ _ _ Hl).
  - intros n. split; [by left|]. intros [?|(x & Hx & _)]; [done|].
    by apply elem_of_nil in Hx.
  - intros pre x post s1 s2 Hxs IH Hb n.
    assert (x ∈ xs) as Hx
      by (rewrite Hxs; apply elem_of_app; right; apply list_elem_of_here).
    rewrite (Hstep s1 x s2 Hx Hb), IH.
    split.
    + intros [[?|(y & ? & ?)]|?]; [by left| |].
      * right. exists y. split; [|done]. apply elem_of_app. by left.
      * right. exists x. split; [|done]. apply elem_of_app. right.
        elem_of_here.
    + intros [?|(y & [Hy|Hy]%elem_of_app & ?)]; [by left; left| |].
      * left. right. by exists y.
      * apply list_elem_of_singleton in Hy as ->. by right.
Qed.

(** A loop fails with the error of its body on one of the elements. *)
Lemma for_range_Err {A S} (body : S → A → result S) (xs : list A) (s0 : S)
    (e : string) :
  for_range body xs s0 = Err e →
  ∃ x s1, x ∈ xs ∧ body s1 x = Err e.
Proof.
  revert s0. induction xs as [|x xs IH]; intros s0 Hl; simpl in Hl; [done|].
  destruct (body s0 x) as [s1| |] eqn:Hb; simpl in Hl; [| |done].
  - destruct (IH _ Hl) as (y & s2 & ? & ?). exists y, s2.
    split; [by apply list_elem_of_further|done].
  - injection Hl as <-. exists x, s0. split; [apply list_elem_of_here|done].
Qed.

Lemma toKey_inj_id (t : string) : Inj (=) (=) (toKey t).
Proof.
  intros id1 id2.
  induction t as [|c t IH]; intros Heq.
  - rewrite !toKey_nil in Heq. by injection Heq.
  - rewrite !toKey_cons in Heq. injection Heq as Heq. by apply IH.
Qed.

(** The keys that follow the key of the resource group in the [Blocks] of a
    virtual network or of a load balancer. *)
Lemma blocks_of_names_NoDup (rgName t : string) (names : gset string) :
  t ≠ typeResourceGroup → hasColon t = false →
  NoDup ([toKey typeResourceGroup rgName] ++ (toKey t <$> elements names)).
Proof.
  intros Ht Hcolon. simpl. apply NoDup_cons. split.
  - intros (n & Heq & _)%list_elem_of_fmap.
    apply toKey_inj in Heq as [? _]; [by subst|done|done].
  - apply (NoDup_fmap_2 _). apply NoDup_elements.
Qed.

(** X12: the descriptor of a virtual network blocks the resource group
    and, once each, the network security groups that the subnets recorded in
    the network refer to; it blocks nothing else. *)
Theorem toVirtualNetworkResource_Blocks (g : resourceGetter)
    (vnet : VirtualNetwork) (r : Resource) :
  toVirtualNetworkResource g vnet = Ok r →
  NoDup (Blocks r)
  ∧ ∀ k, k ∈ Blocks r ↔
      k = toKey typeResourceGroup (resourceGroupName g)
      ∨ ∃ subnet name,
          subnet ∈ default [] (VirtualNetwork_Subnets vnet)
          ∧ subnetNetworkSecurityGroup subnet name
          ∧ k = toKey typeNetworkSecurityGroup name.
Proof.
  unfold toVirtualNetworkResource. intros Hr.
  apply bind_Ok in Hr as (nsgs & Hnsgs & Hr). inv_bind Hr. subst r. simpl.
  split; [by apply (blocks_of_names_NoDup _ typeNetworkSecurityGroup)|].
  assert (∀ n, n ∈ nsgs ↔
    ∃ subnet, subnet ∈ default [] (VirtualNetwork_Subnets vnet)
              ∧ subnetNetworkSecurityGroup subnet n) as Hin.
  { destruct (VirtualNetwork_Subnets vnet) as [sns|]; simpl.
    - opose proof (for_range_collect id subnetNetworkSecurityGroup
                     _ _ _ _ _ Hnsgs) as Hc.
      + intros s1 sn s2 _ Hb n. unfold subnetNetworkSecurityGroup. simpl.
        destruct (Subnet_NetworkSecurityGroup sn) as [nsg|].
        * apply bind_Ok in Hb as (id & Hid%deref_Ok & Hb).
          apply bind_Ok in Hb as (nsgID & Hparse%wrap_err_Ok & Hb).
          injection Hb as <-. rewrite elem_of_union, elem_of_singleton.
          split.
          -- intros [->|?]; [right|by left]. by exists nsg, id, nsgID.
          -- intros [?|(? & id' & ? & [= <-] & Hid' & Hparse' & ->)];
               [by right|left].
             rewrite Hid in Hid'. injection Hid' as <-.
             rewrite Hparse in Hparse'. by injection Hparse' as <-.
        * simplify_eq. split; [by left|].
          by intros [?|(? & ? & ? & ? & _)].
      + intros n. rewrite (Hc n). simpl. split; [|by right].
        intros [Hn|?]; [|done]. by apply elem_of_empty in Hn.
    - injection Hnsgs as <-. intros n. split.
      + intros Hn. by apply elem_of_empty in Hn.
      + intros (? & Hnil & _). by apply elem_of_nil in Hnil. }
  intros k. rewrite elem_of_cons, list_elem_of_fmap.
  split; (intros [?|Hk]; [by left|right]).
  - destruct Hk as (n & -> & Hn%elem_of_elements).
    apply Hin in Hn as (subnet & ? & ?). by exists subnet, n.
  - destruct Hk as (subnet & n & ? & ? & ->). exists n.
    split; [done|]. apply elem_of_elements, Hin. by exists subnet.
Qed.

(** X13: the only error of [toVirtualNetworkResource] is the error of
    parsing the ID of a network security group of one of the subnets,
    behind the prefix the function puts before it. *)
Theorem toVirtualNetworkResource_Err (g : resourceGetter)
    (vnet : VirtualNetwork) (e : string) :
  toVirtualNetworkResource g vnet = Err e →
  ∃ subnets subnet nsg id e',
    VirtualNetwork_Subnets vnet = Some subnets
    ∧ subnet ∈ subnets
    ∧ Subnet_NetworkSecurityGroup subnet = Some nsg
    ∧ SecurityGroup_ID nsg = Some id
    ∧ ParseNetworkSecurityGroupID id = Err e'
    ∧ e = "parsing network security group ID: " +:+ e'.
Proof.
  unfold toVirtualNetworkResource. intros Hr.
  destruct (VirtualNetwork_Subnets vnet) as [subnets|]; simpl in Hr.
  - destruct (for_range _ subnets ∅) as [nsgs|e0|] eqn:Hloop; simpl in Hr.
    + by destruct (VirtualNetwork_Name vnet).
    + injection Hr as ->.
      apply for_range_Err in Hloop as (subnet & s1 & Hin & Hb).
      destruct (Subnet_NetworkSecurityGroup subnet) as [nsg|] eqn:Hnsg; [|done].
      destruct (SecurityGroup_ID nsg) as [id|] eqn:Hid; simpl in Hb; [|done].
      destruct (ParseNetworkSecurityGroupID id) as [?|e'|] eqn:Hparse;
        simpl in Hb; [done| |done].
      injection Hb as <-. by exists subnets, subnet, nsg, id, e'.
    + done.
  - by destruct (VirtualNetwork_Name vnet).
Qed.

(** X14: the descriptor of a load balancer blocks the resource group and,
    once each, the public IP addresses of its frontend IP configurations;
    it blocks nothing else. *)
Theorem toLoadBalancerResource_Blocks (g : resourceGetter)
    (lb : LoadBalancer) (r : Resource) :
  toLoadBalancerResource g lb = Ok r →
  NoDup (Blocks r)
  ∧ ∀ k, k ∈ Blocks r ↔
      k = toKey typeResourceGroup (resourceGroupName g)
      ∨ ∃ fip name,
          fip ∈ default [] (LoadBalancer_FrontendIPConfigurations lb)
          ∧ frontendPublicIPAddress fip name
          ∧ k = toKey typePublicIPAddress name.
Proof.
  unfold toLoadBalancerResource. intros Hr.
  apply bind_Ok in Hr as (pips & Hpips & Hr). inv_bind Hr. subst r. simpl.
  split; [by apply (blocks_of_names_NoDup _ typePublicIPAddress)|].
  assert (∀ n, n ∈ pips ↔
    ∃ fip, fip ∈ default [] (LoadBalancer_FrontendIPConfigurations lb)
           ∧ frontendPublicIPAddress fip n) as Hin.
  { destruct (LoadBalancer_FrontendIPConfigurations lb) as [fips|]; simpl.
    - opose proof (for_range_collect id frontendPublicIPAddress
                     _ _ _ _ _ Hpips) as Hc.
      + intros s1 fip s2 _ Hb n. unfold frontendPublicIPAddress. simpl.
        destruct (Frontend_PublicIPAddress fip) as [pip|].
        * apply bind_Ok in Hb as (id & Hid%deref_Ok & Hb).
          apply bind_Ok in Hb as (pipID & Hparse%wrap_err_Ok & Hb).
          injection Hb as <-. rewrite elem_of_union, elem_of_singleton.
          split.
          -- intros [->|?]; [right|by left]. by exists pip, id, pipID.
          -- intros [?|(? & id' & ? & [= <-] & Hid' & Hparse' & ->)];
               [by right|left].
             rewrite Hid in Hid'. injection Hid' as <-.
             rewrite Hparse in Hparse'. by injection Hparse' as <-.
        * simplify_eq. split; [by left|].
          by intros [?|(? & ? & ? & ? & _)].
      + intros n. rewrite (Hc n). simpl. split; [|by right].
        intros [Hn|?]; [|done]. by apply elem_of_empty in Hn.
    - injection Hpips as <-. intros n. split.
      + intros Hn. by apply elem_of_empty in Hn.
      + intros (? & Hnil & _). by apply elem_of_nil in Hnil. }
  intros k. rewrite elem_of_cons, list_elem_of_fmap.
  split; (intros [?|Hk]; [by left|right]).
  - destruct Hk as (n & -> & Hn%elem_of_elements).
    apply Hin in Hn as (fip & ? & ?). by exists fip, n.
  - destruct Hk as (fip & n & ? & ? & ->). exists n.
    split; [done|]. apply elem_of_elements, Hin. by exists fip.
Qed.

(** ** What a VM scale set blocks *)

Lemma elem_of_concat {A} (x : A) (ls : list (list A)) :
  x ∈ concat ls ↔ ∃ l, x ∈ l ∧ l ∈ ls.
Proof.
  induction ls as [|l ls IH]; simpl.
  - split; [by intros ?%elem_of_nil|]. by intros (? & _ & ?%elem_of_nil).
  - rewrite elem_of_app, IH. split.
    + intros [?|(l' & ? & ?)].
      * exists l. split; [done|]. apply list_elem_of_here.
      * exists l'. split; [done|]. by apply list_elem_of_further.
    + intros (l' & ? & [->|?]%elem_of_cons); [by left|].
      right. by exists l'.
Qed.

Lemma vmssNetworkNames_ip_spec
    (st st' : gset string * gset string * gset string) (ip : IPConfiguration) :
  vmssNetworkNames_ip st ip = Ok st' →
  ∀ n,
    (n ∈ st'.1.1 ↔
       n ∈ st.1.1 ∨ ∃ sid, ipSubnetID ip sid ∧ n = VirtualNetworkName sid)
    ∧ (n ∈ st'.1.2 ↔
         n ∈ st.1.2 ∨ ∃ sid, ipSubnetID ip sid ∧ n = SubnetName sid)
    ∧ (n ∈ st'.2 ↔ n ∈ st.2 ∨ ipLoadBalancer ip n).
Proof.
  destruct st as [[vnets subnets] lbs]. unfold vmssNetworkNames_ip.
  intros Hb n.
  apply bind_Ok in Hb as (subnet & Hsubnet%deref_Ok & Hb).
  apply bind_Ok in Hb as (id & Hid%deref_Ok & Hb).
  apply bind_Ok in Hb as (sid & Hparse%wrap_err_Ok & Hb).
  apply bind_Ok in Hb as (lbs' & Hlbs & Hb). injection Hb as <-. simpl.
  assert (∀ sid', ipSubnetID ip sid' ↔ sid' = sid) as Hsid.
  { intros sid'. unfold ipSubnetID. split.
    - intros (subnet' & id' & Hsubnet' & Hid' & Hparse').
      rewrite Hsubnet in Hsubnet'. injection Hsubnet' as <-.
      rewrite Hid in Hid'. injection Hid' as <-.
      rewrite Hparse in Hparse'. by injection Hparse'.
    - intros ->. by exists subnet, id. }
  split_and!.
  - rewrite elem_of_union, elem_of_singleton. split.
    + intros [->|?]; [right|by left]. exists sid. by rewrite Hsid.
    + intros [?|(sid' & Hs & ->)]; [by right|].
      apply Hsid in Hs as ->. by left.
  - rewrite elem_of_union, elem_of_singleton. split.
    + intros [->|?]; [right|by left]. exists sid. by rewrite Hsid.
    + intros [?|(sid' & Hs & ->)]; [by right|].
      apply Hsid in Hs as ->. by left.
  - unfold ipLoadBalancer.
    destruct (IPConfiguration_LoadBalancerBackendAddressPools ip)
      as [pools|]; [|simplify_eq].
    + opose proof (for_range_collect (λ s : gset string, s)
        (λ (lb : SubResource) n, ∃ id lbID,
           SubResource_ID lb = Some id
           ∧ ParseLoadBalancerID id = Ok lbID
           ∧ n = LoadBalancerName lbID) _ _ _ _ _ Hlbs) as Hc.
      * intros s1 lb s2 _ Hlb n'. simpl.
        apply bind_Ok in Hlb as (lid & Hlid%deref_Ok & Hlb).
        apply bind_Ok in Hlb as (lbID & Hlparse%wrap_err_Ok & Hlb).
        injection Hlb as <-. rewrite elem_of_union, elem_of_singleton. split.
        -- intros [->|?]; [right|by left]. by exists lid, lbID.
        -- intros [?|(lid' & ? & Hlid' & Hlparse' & ->)]; [by right|left].
           rewrite Hlid in Hlid'. injection Hlid' as <-.
           rewrite Hlparse in Hlparse'. by injection Hlparse' as <-.
      * rewrite (Hc n). simpl. split.
        -- intros [?|(lb & ? & lid & lbID & ? & ? & ?)]; [by left|right].
           by exists pools, lb, lid, lbID.
        -- intros [?|(? & lb & lid & lbID & [= <-] & ? & ? & ? & ?)];
             [by left|right].
           exists lb. split; [done|]. by exists lid, lbID.
    + split; [by left|]. by intros [?|(? & ? & ? & ? & ? & _)].
Qed.

(** The names that the first loop of [toVMScaleSetResource] gathers. *)
Lemma vmssNetworkNames_spec (ifaces : list NetworkInterfaceConfiguration)
    (vnets subnets lbs : gset string) :
  vmssNetworkNames ifaces = Ok (vnets, subnets, lbs) →
  let ips := concat ((λ iface, default [] (IPConfigurations iface))
                       <$> ifaces) in
  ∀ n,
    (n ∈ vnets ↔
       ∃ ip sid, ip ∈ ips ∧ ipSubnetID ip sid ∧ n = VirtualNetworkName sid)
    ∧ (n ∈ subnets ↔
         ∃ ip sid, ip ∈ ips ∧ ipSubnetID ip sid ∧ n = SubnetName sid)
    ∧ (n ∈ lbs ↔ ∃ ip, ip ∈ ips ∧ ipLoadBalancer ip n).
Proof.
  intros Hl ips n. unfold vmssNetworkNames in Hl.
  assert (∀ (π : gset string * gset string * gset string → gset string)
            (rel : IPConfiguration → string → Prop),
    (∀ st ip st', vmssNetworkNames_ip st ip = Ok st' →
       ∀ n, n ∈ π st' ↔ n ∈ π st ∨ rel ip n) →
    π (∅, ∅, ∅) = ∅ →
    n ∈ π (vnets, subnets, lbs) ↔ ∃ ip, ip ∈ ips ∧ rel ip n) as Hgen.
  { intros π rel Hstep Hempty.
    opose proof (for_range_collect π
      (λ (iface : NetworkInterfaceConfiguration) n,
         ∃ ip, ip ∈ default [] (IPConfigurations iface) ∧ rel ip n)
      _ _ _ _ _ Hl) as Hc.
    - intros s1 iface s2 _ Hb n'. simpl in Hb.
      apply bind_Ok in Hb as (ipl & Hipl%deref_Ok & Hb). rewrite Hipl. simpl.
      apply (for_range_collect π rel _ _ _ _
               (λ st ip st' _, Hstep st ip st') Hb).
    - rewrite (Hc n), Hempty. unfold ips. split.
      + intros [Hn|(iface & ? & ip & ? & ?)]; [by apply elem_of_empty in Hn|].
        exists ip. split; [|done]. apply elem_of_concat.
        exists (default [] (IPConfigurations iface)).
        split; [done|]. apply list_elem_of_fmap. by exists iface.
      + intros (ip & (l & ? & (iface & -> & ?)%list_elem_of_fmap)
                       %elem_of_concat & ?).
        right. exists iface. split; [done|]. by exists ip. }
  split_and!.
  - rewrite (Hgen (λ st, st.1.1)
      (λ ip n, ∃ sid, ipSubnetID ip sid ∧ n = VirtualNetworkName sid));
      [|intros st ip st' Hb n'; by apply (vmssNetworkNames_ip_spec _ _ _ Hb)
       |done].
    split; [intros (ip & ? & sid & ? & ?)|intros (ip & sid & ? & ? & ?)].
    + by exists ip, sid.
    + exists ip. split; [done|]. by exists sid.
  - rewrite (Hgen (λ st, st.1.2)
      (λ ip n, ∃ sid, ipSubnetID ip sid ∧ n = SubnetName sid));
      [|intros st ip st' Hb n'; by apply (vmssNetworkNames_ip_spec _ _ _ Hb)
       |done].
    split; [intros (ip & ? & sid & ? & ?)|intros (ip & sid & ? & ? & ?)].
    + by exists ip, sid.
    + exists ip. split; [done|]. by exists sid.
  - apply (Hgen (λ st, st.2) ipLoadBalancer); [|done].
    intros st ip st' Hb n'. by apply (vmssNetworkNames_ip_spec _ _ _ Hb).
Qed.

(** The keys that the last loop of [toVMScaleSetResource] appends: one for
    each data disk of each VM, in order. *)
Lemma vmssDiskBlocks_spec (vms : list VirtualMachineScaleSetVM)
    (blocks0 blocks : list string) :
  vmssDiskBlocks vms blocks0 = Ok blocks →
  ∃ names,
    blocks = blocks0 ++ (toKey typeDisk <$> names)
    ∧ Forall2 (λ d name, DataDisk_Name d = Some name) (vmDataDisks vms) names.
Proof.
  unfold vmssDiskBlocks, vmDataDisks. revert blocks0.
  induction vms as [|vm vms IH]; intros blocks0 Hl; simpl in Hl.
  - injection Hl as <-. exists []. by rewrite app_nil_r.
  - apply bind_Ok in Hl as (blocks1 & Hvm & Hl).
    apply bind_Ok in Hvm as (sp & Hsp%deref_Ok & Hvm).
    destruct (IH _ Hl) as (names2 & -> & Hnames2).
    assert (∃ names1,
      blocks1 = blocks0 ++ (toKey typeDisk <$> names1)
      ∧ Forall2 (λ d name, DataDisk_Name d = Some name)
          (default [] (DataDisks sp)) names1) as (names1 & -> & Hnames1).
    { destruct (DataDisks sp) as [disks|]; simpl.
      - clear Hl IH Hnames2. revert blocks0 Hvm.
        induction disks as [|d disks IHd]; intros blocks0 Hd; simpl in Hd.
        + injection Hd as <-. exists []. by rewrite app_nil_r.
        + apply bind_Ok in Hd as (b & Hb & Hd).
          apply bind_Ok in Hb as (name & Hname%deref_Ok & Hb).
          injection Hb as <-.
          destruct (IHd _ Hd) as (names & -> & Hnames).
          exists (name :: names). split; [by rewrite <- app_assoc|].
          by constructor.
      - injection Hvm as <-. exists []. by rewrite app_nil_r. }
    exists (names1 ++ names2). split.
    + by rewrite fmap_app, app_assoc.
    + rewrite fmap_cons. simpl. rewrite Hsp. by apply Forall2_app.
Qed.

(** X15: the descriptor of a VM scale set blocks the resource group; the
    virtual network and the subnet of every IP configuration of its network
    interfaces; the load balancer of every backend address pool of these
    configurations; and every data disk of the VMs it is given. It blocks
    nothing else. *)
Theorem toVMScaleSetResource_Blocks (g : resourceGetter)
    (vmss : VirtualMachineScaleSet) (vms : list VirtualMachineScaleSetVM)
    (r : Resource) :
  toVMScaleSetResource g vmss vms = Ok r →
  ∀ k, k ∈ Blocks r ↔
    k = toKey typeResourceGroup (resourceGroupName g)
    ∨ (∃ ip sid, ip ∈ vmssIPConfigurations vmss ∧ ipSubnetID ip sid
         ∧ (k = toKey typeVirtualNetwork (VirtualNetworkName sid)
            ∨ k = toKey typeSubnet (SubnetName sid)))
    ∨ (∃ ip name, ip ∈ vmssIPConfigurations vmss ∧ ipLoadBalancer ip name
         ∧ k = toKey typeLoadBalancer name)
    ∨ (∃ d name, d ∈ vmDataDisks vms ∧ DataDisk_Name d = Some name
         ∧ k = toKey typeDisk name).
Proof.
  unfold toVMScaleSetResource. intros Hr k.
  apply bind_Ok in Hr as (profile & Hprofile%deref_Ok & Hr).
  apply bind_Ok in Hr as (np & Hnp%deref_Ok & Hr).
  apply bind_Ok in Hr as (ifaces & Hifaces%deref_Ok & Hr).
  apply bind_Ok in Hr as ([[vnets subnets] lbs] & Hnames & Hr).
  apply bind_Ok in Hr as (blocks & Hblocks & Hr).
  apply bind_Ok in Hr as (name & _ & Hr). injection Hr as <-. simpl.
  assert (vmssIPConfigurations vmss
          = concat ((λ iface, default [] (IPConfigurations iface)) <$> ifaces))
    as ->.
  { unfold vmssIPConfigurations, vmssInterfaces.
    by rewrite Hprofile, Hnp, Hifaces. }
  pose proof (vmssNetworkNames_spec _ _ _ _ Hnames) as Hspec. simpl in Hspec.
  destruct (vmssDiskBlocks_spec _ _ _ Hblocks) as (names & -> & Hdisks).
  rewrite !elem_of_app, elem_of_cons, !list_elem_of_fmap.
  split.
  - intros [[[[[->|Hnil]|Hv]|Hs]|Hl]|Hd].
    + by left.
    + by apply elem_of_nil in Hnil.
    + destruct Hv as (n & -> & Hn%elem_of_elements).
      apply Hspec in Hn as (ip & sid & ? & ? & ->).
      right; left. exists ip, sid. split_and!; [done..|by left].
    + destruct Hs as (n & -> & Hn%elem_of_elements).
      apply Hspec in Hn as (ip & sid & ? & ? & ->).
      right; left. exists ip, sid. split_and!; [done..|by right].
    + destruct Hl as (n & -> & Hn%elem_of_elements).
      apply Hspec in Hn as (ip & ? & ?).
      right; right; left. by exists ip, n.
    + destruct Hd as (n & -> & Hn).
      apply list_elem_of_lookup in Hn as [i Hi].
      destruct (Forall2_lookup_r _ _ _ _ _ Hdisks Hi) as (d & Hd & ?).
      right; right; right. exists d, n.
      split; [by eapply list_elem_of_lookup_2|done].
  - intros [->|[Hv|[Hl|Hd]]].
    + do 4 left. by left.
    + destruct Hv as (ip & sid & ? & ? & [->| ->]).
      * do 3 left. right. exists (VirtualNetworkName sid). split; [done|].
        apply elem_of_elements, Hspec. by exists ip, sid.
      * do 2 left. right. exists (SubnetName sid). split; [done|].
        apply elem_of_elements, Hspec. by exists ip, sid.
    + destruct Hl as (ip & n & ? & ? & ->).
      left. right. exists n. split; [done|].
      apply elem_of_elements, Hspec. by exists ip.
    + destruct Hd as (d & n & Hd & ? & ->).
      right. exists n. split; [done|].
      apply list_elem_of_lookup in Hd as [i Hi].
      destruct (Forall2_lookup_l _ _ _ _ _ Hdisks Hi) as (n' & Hn' & Hname).
      apply list_elem_of_lookup. exists i. congruence.
Qed.

(** ** The listing functions, object by object *)

#[local] Instance taggedForCluster_dec (g : resourceGetter)
    (tags : gmap string (option string)) : Decision (taggedForCluster g tags).
Proof. unfold taggedForCluster. apply _. Defined.

Lemma isOwnedByCluster_tagged (g : resourceGetter)
    (tags : gmap string (option string)) (b : bool) :
  isOwnedByCluster g tags = Ok b →
  (b = true ↔ taggedForCluster g tags).
Proof.
  unfold taggedForCluster. rewrite isOwnedByCluster_lookup.
  destruct (tags !! TagClusterName) as [[s|]|]; [|done|].
  - intros [= <-]. case_bool_decide; split; intros; simplify_eq; done.
  - intros [= <-]. by split.
Qed.

(** A loop that tests the tags of each element and appends a descriptor
    for those that pass: the descriptors appended are those of the elements
    tagged for the cluster, in the order of the slice. *)
Lemma for_range_owned_exact {A} (g : resourceGetter)
    (tags : A → gmap string (option string)) (f : A → result Resource)
    (xs : list A) (rs0 rs : list Resource) :
  for_range (λ rs x,
    o ← isOwnedByCluster g (tags x);
    if negb o then Ok rs else r ← f x; Ok (rs ++ [r])) xs rs0 = Ok rs →
  ∃ new,
    rs = rs0 ++ new
    ∧ Forall2 (λ x r, f x = Ok r)
        (filter (λ x, taggedForCluster g (tags x)) xs) new.
Proof.
  revert rs0. induction xs as [|x xs IH]; intros rs0 Hl; simpl in Hl.
  - injection Hl as <-. exists []. by rewrite app_nil_r.
  - apply bind_Ok in Hl as (rs1 & Hb & Hl).
    apply bind_Ok in Hb as (o & Ho & Hb).
    apply isOwnedByCluster_tagged in Ho.
    destruct (IH _ Hl) as (new & -> & Hnew).
    rewrite filter_cons. destruct o; simpl in Hb.
    + apply bind_Ok in Hb as (r & Hr & Hb). injection Hb as <-.
      rewrite decide_True by by apply Ho.
      exists (r :: new). split; [by rewrite <- app_assoc|by constructor].
    + injection Hb as <-.
      rewrite decide_False by (by intros ?%Ho). by exists new.
Qed.

(** A loop that appends a descriptor for every element. *)
Lemma for_range_append_exact {A} (f : A → result Resource)
    (xs : list A) (rs0 rs : list Resource) :
  for_range (λ rs x, r ← f x; Ok (rs ++ [r])) xs rs0 = Ok rs →
  ∃ new, rs = rs0 ++ new ∧ Forall2 (λ x r, f x = Ok r) xs new.
Proof.
  revert rs0. induction xs as [|x xs IH]; intros rs0 Hl; simpl in Hl.
  - injection Hl as <-. exists []. by rewrite app_nil_r.
  - apply bind_Ok in Hl as (rs1 & Hb & Hl).
    apply bind_Ok in Hb as (r & Hr & Hb). injection Hb as <-.
    destruct (IH _ Hl) as (new & -> & Hnew).
    exists (r :: new). split; [by rewrite <- app_assoc|by constructor].
Qed.

(** X16: when it succeeds, [listResourceGroups] returns one descriptor
    for each resource group of the subscription that is tagged for the
    cluster, whatever its name, in the order of the cloud, and nothing
    else. *)
Theorem listResourceGroups_exact (g : resourceGetter) (rgs : list Group)
    (rs : list Resource) :
  ResourceGroup_List (cloud g) "" = Ok rgs →
  listResourceGroups g = Ok rs →
  Forall2 (λ rg r, toResourceGroupResource g rg = Ok r)
    (filter (λ rg, taggedForCluster g (Group_Tags rg)) rgs) rs.
Proof.
  unfold listResourceGroups. intros -> Hl. simpl in Hl.
  by apply (for_range_owned_exact g Group_Tags) in Hl as (new & -> & ?).
Qed.

(** X17: when it succeeds, [listNetworkSecurityGroups] returns one
    descriptor for every network security group of the resource group, in
    the order of the cloud, whatever the tags of the group. *)
Theorem listNetworkSecurityGroups_exact (g : resourceGetter)
    (nsgs : list SecurityGroup) (rs : list Resource) :
  NetworkSecurityGroup_List (cloud g) (resourceGroupName g) = Ok nsgs →
  listNetworkSecurityGroups g = Ok rs →
  Forall2 (λ nsg r, toNetworkSecurityGroupResource g nsg = Ok r) nsgs rs.
Proof.
  unfold listNetworkSecurityGroups. intros -> Hl. simpl in Hl.
  by apply for_range_append_exact in Hl as (new & -> & ?).
Qed.

(** X18: when it succeeds, [listRouteTables] returns one descriptor for
    each route table of the resource group that is tagged for the cluster,
    in the order of the cloud, and nothing else. *)
Theorem listRouteTables_exact (g : resourceGetter) (rts : list RouteTable)
    (rs : list Resource) :
  RouteTable_List (cloud g) (resourceGroupName g) = Ok rts →
  listRouteTables g = Ok rs →
  Forall2 (λ rt r, toRouteTableResource g rt = Ok r)
    (filter (λ rt, taggedForCluster g (RouteTable_Tags rt)) rts) rs.
Proof.
  unfold listRouteTables. intros -> Hl. simpl in Hl.
  by apply (for_range_owned_exact g RouteTable_Tags) in Hl as (new & -> & ?).
Qed.

(** X19: when it succeeds, [listDisks] returns one descriptor for each
    disk of the resource group that is tagged for the cluster, in the order
    of the cloud, and nothing else. *)
Theorem listDisks_exact (g : resourceGetter) (disks : list Disk)
    (rs : list Resource) :
  Disk_List (cloud g) (resourceGroupName g) = Ok disks →
  listDisks g = Ok rs →
  Forall2 (λ disk r, toDiskResource g disk = Ok r)
    (filter (λ disk, taggedForCluster g (Disk_Tags disk)) disks) rs.
Proof.
  unfold listDisks. intros -> Hl. simpl in Hl.
  by apply (for_range_owned_exact g Disk_Tags) in Hl as (new & -> & ?).
Qed.

(** X20: when it succeeds, [listLoadBalancers] returns one descriptor for
    each load balancer of the resource group that is tagged for the
    cluster, in the order of the cloud, and nothing else. *)
Theorem listLoadBalancers_exact (g : resourceGetter) (lbs : list LoadBalancer)
    (rs : list Resource) :
  LoadBalancer_List (cloud g) (resourceGroupName g) = Ok lbs →
  listLoadBalancers g = Ok rs →
  Forall2 (λ lb r, toLoadBalancerResource g lb = Ok r)
    (filter (λ lb, taggedForCluster g (LoadBalancer_Tags lb)) lbs) rs.
Proof.
  unfold listLoadBalancers. intros -> Hl. simpl in Hl.
  by apply (for_range_owned_exact g LoadBalancer_Tags) in Hl as (new & -> & ?).
Qed.

(** X21: when it succeeds, [listPublicIPAddresses] returns one descriptor
    for each public IP address of the resource group that is tagged for the
    cluster, in the order of the cloud, and nothing else. *)
Theorem listPublicIPAddresses_exact (g : resourceGetter)
    (pips : list PublicIPAddress) (rs : list Resource) :
  PublicIPAddress_List (cloud g) (resourceGroupName g) = Ok pips →
  listPublicIPAddresses g = Ok rs →
  Forall2 (λ pip r, toPublicIPAddressResource g pip = Ok r)
    (filter (λ pip, taggedForCluster g (PublicIPAddress_Tags pip)) pips) rs.
Proof.
  unfold listPublicIPAddresses. intros -> Hl. simpl in Hl.
  by apply (for_range_owned_exact g PublicIPAddress_Tags)
    in Hl as (new & -> & ?).
Qed.

(** X22: when it succeeds, [listVirtualNetworksAndSubnets] returns, for
    each virtual network of the resource group that is tagged for the
    cluster and in the order of the cloud, the descriptor of the network
    followed by the descriptors of all the subnets the cloud lists for it;
    it returns nothing else. *)
Theorem listVirtualNetworksAndSubnets_exact (g : resourceGetter)
    (vnets : list VirtualNetwork) (rs : list Resource) :
  VirtualNetwork_List (cloud g) (resourceGroupName g) = Ok vnets →
  listVirtualNetworksAndSubnets g = Ok rs →
  ∃ groups,
    rs = concat groups
    ∧ Forall2 (λ vnet group,
        ∃ r vnetName subnets subnetrs,
          toVirtualNetworkResource g vnet = Ok r
          ∧ VirtualNetwork_Name vnet = Some vnetName
          ∧ Subnet_List (cloud g) (resourceGroupName g) vnetName = Ok subnets
          ∧ Forall2 (λ subnet sr, toSubnetResource g subnet vnetName = Ok sr)
              subnets subnetrs
          ∧ group = r :: subnetrs)
        (filter (λ vnet, taggedForCluster g (VirtualNetwork_Tags vnet)) vnets)
        groups.
Proof.
  unfold listVirtualNetworksAndSubnets. intros -> Hl. simpl in Hl.
  match goal with |- ∃ groups, _ ∧ Forall2 ?R _ _ => set (rel := R) end.
  match type of Hl with for_range ?b _ _ = _ => set (body := b) in Hl end.
  remember [] as rs0 eqn:Hrs0 in Hl.
  cut (∃ groups, rs = rs0 ++ concat groups ∧ Forall2 rel
    (filter (λ vnet, taggedForCluster g (VirtualNetwork_Tags vnet)) vnets)
    groups); [by subst rs0|].
  clear Hrs0. revert rs0 Hl.
  induction vnets as [|vnet vnets IH]; intros rs0 Hl; simpl in Hl;
    unfold body in Hl.
  - injection Hl as <-. exists []. by rewrite app_nil_r.
  - apply bind_Ok in Hl as (rs1 & Hb & Hl).
    apply bind_Ok in Hb as (o & Ho & Hb).
    apply isOwnedByCluster_tagged in Ho.
    destruct (IH _ Hl) as (groups & -> & Hgroups).
    rewrite filter_cons. destruct o; simpl in Hb.
    + apply bind_Ok in Hb as (r & Hr & Hb).
      apply bind_Ok in Hb as (vnetName & Hname%deref_Ok & Hb).
      apply bind_Ok in Hb as (subnetrs & Hsubs & Hb). injection Hb as <-.
      unfold listSubnets in Hsubs.
      apply bind_Ok in Hsubs as (subnets & Hlist & Hsubs).
      apply for_range_append_exact in Hsubs as (new & -> & Hnew).
      rewrite decide_True by by apply Ho.
      exists ((r :: new) :: groups). split.
      * simpl. by rewrite <- !app_assoc.
      * constructor; [|done]. by exists r, vnetName, subnets, new.
    + injection Hb as <-.
      rewrite decide_False by (by intros ?%Ho). by exists groups.
Qed.

(** ** Edge cases of the listing *)

Lemma for_range_Panic {A S} (body : S → A → result S) (xs : list A) (x : A)
    (s0 : S) :
  (∀ s y e, y ∈ xs → body s y ≠ Err e) →
  x ∈ xs →
  (∀ s, body s x = Panic) →
  for_range body xs s0 = Panic.
Proof.
  intros Hnoerr Hx Hpanic. revert s0.
  induction xs as [|y xs IH]; intros s0; [by apply elem_of_nil in Hx|].
  simpl. destruct (body s0 y) as [s1|e|] eqn:Hb; simpl; [| |done].
  - apply elem_of_cons in Hx as [->|Hx]; [by rewrite Hpanic in Hb|].
    apply IH; [|done]. intros s z e Hz. apply Hnoerr. by right.
  - exfalso. apply (Hnoerr s0 y e); [apply list_elem_of_here|done].
Qed.

(** X23: a resource group of the subscription whose cluster-name tag has a
    nil value makes the whole listing fault, whatever the rest of the
    cloud. *)
Theorem listResourcesAzure_nil_tag_faults (g : resourceGetter)
    (rgs : list Group) (rg : Group) :
  ResourceGroup_List (cloud g) "" = Ok rgs →
  rg ∈ rgs →
  Group_Tags rg !! TagClusterName = Some None →
  listResourcesAzure g = Panic.
Proof.
  intros Hlist Hin Htag.
  assert (listResourceGroups g = Panic) as Hrg.
  { unfold listResourceGroups. rewrite Hlist. simpl.
    apply (for_range_Panic _ _ rg); [|done|].
    - intros s y e _ Hb.
      destruct (isOwnedByCluster g (Group_Tags y)) as [o| |] eqn:Ho;
        simpl in Hb; [|by apply isOwnedByCluster_no_error in Ho|done].
      destruct o; simpl in Hb; [|done].
      unfold toResourceGroupResource in Hb. by destruct (Group_Name y).
    - intros s. by rewrite isOwnedByCluster_lookup, Htag. }
  unfold listResourcesAzure, listAll, fns. simpl. by rewrite Hrg.
Qed.

Lemma for_range_skip {A S} (body : S → A → result S) (xs : list A) (s : S) :
  (∀ x, x ∈ xs → body s x = Ok s) →
  for_range body xs s = Ok s.
Proof.
  induction xs as [|x xs IH]; intros Hskip; simpl; [done|].
  rewrite Hskip by apply list_elem_of_here. simpl.
  apply IH. intros y Hy. apply Hskip. by right.
Qed.

(** X24: when no scale set of the resource group passes the ownership
    test, [listVMScaleSetsAndRoleAssignments] still asks the cloud for the
    role assignments: it returns no descriptor when that call succeeds, and
    the error of that call when it fails. *)
Theorem listVMScaleSetsAndRoleAssignments_none_owned (g : resourceGetter)
    (vmsses : list VirtualMachineScaleSet) :
  VMScaleSet_List (cloud g) (resourceGroupName g) = Ok vmsses →
  (∀ vmss, vmss ∈ vmsses →
     isOwnedByCluster g (VMSS_Tags vmss) = Ok false) →
  listVMScaleSetsAndRoleAssignments g
  = RoleAssignment_List (cloud g) (resourceGroupName g) ≫= λ _, Ok [].
Proof.
  intros Hlist Hnone. unfold listVMScaleSetsAndRoleAssignments.
  rewrite Hlist. simpl.
  rewrite for_range_skip; simpl.
  - unfold listRoleAssignments.
    destruct (RoleAssignment_List _ _) as [ras| |]; simpl; [|done..].
    rewrite for_range_skip; [done|].
    intros ra _. destruct (RoleAssignment_PrincipalID ra); [|done].
    by rewrite lookup_empty.
  - intros vmss Hin. unfold listVMScaleSets_body.
    by rewrite (Hnone _ Hin).
Qed.

(** X25: on a cloud that lists nothing for the cluster, the listing
    succeeds with an empty map; the subnets and the VMs are not asked
    for. *)
Theorem ListResourcesAzure_empty (azure : AzureCloud) (info : ClusterInfo) :
  ResourceGroup_List azure "" = Ok [] →
  VirtualNetwork_List azure (AzureResourceGroupName info) = Ok [] →
  NetworkSecurityGroup_List azure (AzureResourceGroupName info) = Ok [] →
  RouteTable_List azure (AzureResourceGroupName info) = Ok [] →
  VMScaleSet_List azure (AzureResourceGroupName info) = Ok [] →
  RoleAssignment_List azure (AzureResourceGroupName info) = Ok [] →
  Disk_List azure (AzureResourceGroupName info) = Ok [] →
  LoadBalancer_List azure (AzureResourceGroupName info) = Ok [] →
  PublicIPAddress_List azure (AzureResourceGroupName info) = Ok [] →
  ListResourcesAzure azure info = Ok ∅.
Proof.
  intros Hrg Hvn Hnsg Hrt Hvmss Hra Hdisk Hlb Hpip.
  unfold ListResourcesAzure, listResourcesAzure, listAll, fns,
    listResourceGroups, listVirtualNetworksAndSubnets,
    listNetworkSecurityGroups, listRouteTables,
    listVMScaleSetsAndRoleAssignments, listRoleAssignments, listDisks,
    listLoadBalancers, listPublicIPAddresses, resourceGroupName.
  simpl. rewrite Hrg. simpl. rewrite Hvn. simpl. rewrite Hnsg. simpl.
  rewrite Hrt. simpl. rewrite Hvmss. simpl. rewrite Hra. simpl.
  rewrite Hdisk. simpl. rewrite Hlb. simpl. by rewrite Hpip.
Qed.

(** ** Scale sets first, role assignments after *)

Lemma isOwnedByCluster_true_tagged (g : resourceGetter)
    (tags : gmap string (option string)) :
  isOwnedByCluster g tags = Ok true ↔ taggedForCluster g tags.
Proof.
  split.
  - intros Hown. by apply (isOwnedByCluster_tagged g tags true Hown).
  - unfold taggedForCluster. rewrite isOwnedByCluster_lookup. intros ->.
    by rewrite bool_decide_eq_true_2.
Qed.

Lemma listVMScaleSets_exact (g : resourceGetter)
    (vmsses : list VirtualMachineScaleSet)
    (st0 st : list Resource * gmap string VirtualMachineScaleSet) :
  for_range (listVMScaleSets_body g) vmsses st0 = Ok st →
  ∃ new,
    st.1 = st0.1 ++ new
    ∧ Forall2 (λ vmss r, ∃ vmssName vms,
        VMSS_Name vmss = Some vmssName
        ∧ VMScaleSetVM_List (cloud g) (resourceGroupName g) vmssName = Ok vms
        ∧ toVMScaleSetResource g vmss vms = Ok r)
        (filter (λ vmss, taggedForCluster g (VMSS_Tags vmss)) vmsses) new.
Proof.
  revert st0. induction vmsses as [|vmss vmsses IH]; intros st0 Hl;
    simpl in Hl.
  - injection Hl as <-. exists []. by rewrite app_nil_r.
  - apply bind_Ok in Hl as (st1 & Hb & Hl).
    destruct (IH _ Hl) as (new & -> & Hnew).
    destruct st0 as [rs0 p0]. unfold listVMScaleSets_body in Hb.
    apply bind_Ok in Hb as (o & Ho & Hb).
    apply isOwnedByCluster_tagged in Ho.
    rewrite filter_cons. destruct o; simpl in Hb.
    + apply bind_Ok in Hb as (vmssName & Hname%deref_Ok & Hb).
      apply bind_Ok in Hb as (vms & Hvms & Hb).
      apply bind_Ok in Hb as (r & Hr & Hb).
      apply bind_Ok in Hb as (identity & _ & Hb).
      apply bind_Ok in Hb as (principal & _ & Hb). injection Hb as <-.
      rewrite decide_True by by apply Ho. simpl.
      exists (r :: new). split; [by rewrite <- app_assoc|].
      constructor; [|done]. by exists vmssName, vms.
    + injection Hb as <-.
      rewrite decide_False by (by intros ?%Ho). by exists new.
Qed.

Lemma listRoleAssignments_exact (g : resourceGetter)
    (principalIDs : gmap string VirtualMachineScaleSet)
    (ras : list RoleAssignment) (rs0 rs : list Resource) :
  for_range (λ rs ra,
    match RoleAssignment_PrincipalID ra with
    | None => Ok rs
    | Some principal =>
        match principalIDs !! principal with
        | None => Ok rs
        | Some vmss => r ← toRoleAssignmentResource g ra vmss; Ok (rs ++ [r])
        end
    end) ras rs0 = Ok rs →
  ∃ new,
    rs = rs0 ++ new
    ∧ Forall2 (λ ra r, ∃ principal vmss,
        RoleAssignment_PrincipalID ra = Some principal
        ∧ principalIDs !! principal = Some vmss
        ∧ toRoleAssignmentResource g ra vmss = Ok r)
        (filter (λ ra, is_Some (RoleAssignment_PrincipalID ra
                                  ≫= (principalIDs !!.))) ras) new.
Proof.
  revert rs0. induction ras as [|ra ras IH]; intros rs0 Hl; simpl in Hl.
  - injection Hl as <-. exists []. by rewrite app_nil_r.
  - apply bind_Ok in Hl as (rs1 & Hb & Hl).
    destruct (IH _ Hl) as (new & -> & Hnew). rewrite filter_cons.
    destruct (RoleAssignment_PrincipalID ra) as [principal|] eqn:Hp.
    + destruct (principalIDs !! principal) as [vmss|] eqn:Hlk.
      * apply bind_Ok in Hb as (r & Hr & Hb). injection Hb as <-.
        rewrite decide_True by (simpl; by rewrite Hlk).
        exists (r :: new). split; [by rewrite <- app_assoc|].
        constructor; [|done]. by exists principal, vmss.
      * injection Hb as <-.
        rewrite decide_False by (simpl; rewrite Hlk; by intros [? ?]).
        by exists new.
    + injection Hb as <-.
      rewrite decide_False by (by intros [? ?]). by exists new.
Qed.

(** X26: when it succeeds, [listVMScaleSetsAndRoleAssignments] returns
    first one descriptor for each scale set of the resource group that is
    tagged for the cluster, made with the VMs the cloud lists for it, in the
    order of the cloud; then one descriptor for each role assignment whose
    principal is that of one of these scale sets, in the order of the
    cloud; and nothing else. *)
Theorem listVMScaleSetsAndRoleAssignments_exact (g : resourceGetter)
    (vmsses : list VirtualMachineScaleSet) (ras : list RoleAssignment)
    (rs : list Resource) :
  VMScaleSet_List (cloud g) (resourceGroupName g) = Ok vmsses →
  RoleAssignment_List (cloud g) (resourceGroupName g) = Ok ras →
  listVMScaleSetsAndRoleAssignments g = Ok rs →
  ∃ vmssrs rars,
    rs = vmssrs ++ rars
    ∧ Forall2 (λ vmss r, ∃ vmssName vms,
        VMSS_Name vmss = Some vmssName
        ∧ VMScaleSetVM_List (cloud g) (resourceGroupName g) vmssName = Ok vms
        ∧ toVMScaleSetResource g vmss vms = Ok r)
        (filter (λ vmss, taggedForCluster g (VMSS_Tags vmss)) vmsses) vmssrs
    ∧ Forall2 (λ ra r, ∃ vmss,
        vmss ∈ vmsses
        ∧ taggedForCluster g (VMSS_Tags vmss)
        ∧ principalID vmss = RoleAssignment_PrincipalID ra
        ∧ toRoleAssignmentResource g ra vmss = Ok r)
        (filter (λ ra,
           Exists (λ vmss, taggedForCluster g (VMSS_Tags vmss)
                           ∧ is_Some (principalID vmss)
                           ∧ principalID vmss = RoleAssignment_PrincipalID ra)
                  vmsses) ras) rars.
Proof.
  intros Hvmsses Hras Hl. unfold listVMScaleSetsAndRoleAssignments in Hl.
  rewrite Hvmsses in Hl. simpl in Hl.
  apply bind_Ok in Hl as ([vmssrs pids] & Hloop & Hl).
  apply bind_Ok in Hl as (rars & Hral & Hl). injection Hl as <-.
  exists vmssrs, rars. split; [done|].
  destruct (listVMScaleSets_exact g _ _ _ Hloop) as (new & Hnew & Hvmss).
  simpl in Hnew. subst new. split; [done|].
  destruct (listVMScaleSets_principalIDs g _ _ _ Hloop) as (Hp1 & Hp2 & _).
  unfold listRoleAssignments in Hral. rewrite Hras in Hral. simpl in Hral.
  apply listRoleAssignments_exact in Hral as (new & Hnew & Hra).
  simpl in Hnew. subst new.
  erewrite list_filter_iff.
  - eapply Forall2_impl; [exact Hra|]. simpl.
    intros ra r (principal & vmss & Hpid & Hlk & Hmk).
    destruct (Hp1 _ _ Hlk) as (? & ?%isOwnedByCluster_true_tagged & ?).
    exists vmss. split_and!; [done..|congruence|done].
  - intros ra. simpl. rewrite Exists_exists. split.
    + intros (vmss & Hin & Htag%isOwnedByCluster_true_tagged
                   & [principal Hsome] & Heq).
      rewrite <- Heq, Hsome. simpl. by eapply Hp2.
    + intros [vmss Hsome].
      destruct (RoleAssignment_PrincipalID ra) as [principal|]; [|done].
      simpl in Hsome.
      destruct (Hp1 _ _ Hsome) as (? & ?%isOwnedByCluster_true_tagged & Hpid).
      exists vmss. split_and!; [done..| |done]. by rewrite Hpid.
Qed.

(** ** Where the errors of the listing come from *)

Lemma bind_Err {A B} (m : result A) (f : A → result B) (e : string) :
  m ≫= f = Err e → m = Err e ∨ ∃ a, m = Ok a ∧ f a = Err e.
Proof.
  destruct m as [a| |]; intros Hb.
  - right. by exists a.
  - left. by injection Hb as ->.
  - discriminate Hb.
Qed.

Lemma deref_not_Err {A} (p : option A) (e : string) : deref p ≠ Err e.
Proof. by destruct p. Qed.

Lemma wrap_err_Err {A} (prefix : string) (r : result A) (e : string) :
  wrap_err prefix r = Err e → ∃ e', r = Err e' ∧ e = prefix +:+ e'.
Proof. destruct r as [?|e'|]; simpl; intros [= <-]. by exists e'. Qed.

(** A loop that tests the tags and appends the descriptor made by a
    function without errors has no error. *)
Lemma for_range_owned_not_Err {A} (g : resourceGetter)
    (tags : A → gmap string (option string)) (f : A → result Resource)
    (xs : list A) (rs0 : list Resource) (e : string) :
  (∀ x, f x ≠ Err e) →
  for_range (λ rs x,
    o ← isOwnedByCluster g (tags x);
    if negb o then Ok rs else r ← f x; Ok (rs ++ [r])) xs rs0 ≠ Err e.
Proof.
  intros Hf Hl. apply for_range_Err in Hl as (x & s1 & _ & Hb).
  apply bind_Err in Hb as [Hb|(o & _ & Hb)];
    [by apply isOwnedByCluster_no_error in Hb|].
  destruct o; simpl in Hb; [|done].
  apply bind_Err in Hb as [Hb|(r & _ & Hb)]; [by apply Hf in Hb|done].
Qed.

Lemma toVirtualNetworkResource_Err_parse (g : resourceGetter)
    (vnet : VirtualNetwork) (e : string) :
  toVirtualNetworkResource g vnet = Err e →
  ∃ id e', ParseNetworkSecurityGroupID id = Err e'
           ∧ e = "parsing network security group ID: " +:+ e'.
Proof.
  unfold toVirtualNetworkResource. intros Hr.
  apply bind_Err in Hr as [Hr|(nsgs & _ & Hr)].
  - destruct (VirtualNetwork_Subnets vnet) as [subnets|]; [|done].
    apply for_range_Err in Hr as (subnet & s1 & _ & Hb).
    destruct (Subnet_NetworkSecurityGroup subnet) as [nsg|]; [|done].
    apply bind_Err in Hb as [Hb|(id & _ & Hb)];
      [by apply deref_not_Err in Hb|].
    apply bind_Err in Hb as [Hb|(? & _ & Hb)]; [|done].
    apply wrap_err_Err in Hb as (e' & ? & ?). by exists id, e'.
  - apply bind_Err in Hr as [Hr|(? & _ & Hr)]; [|done].
    by apply deref_not_Err in Hr.
Qed.

Lemma toLoadBalancerResource_Err_parse (g : resourceGetter)
    (lb : LoadBalancer) (e : string) :
  toLoadBalancerResource g lb = Err e →
  ∃ id e', ParsePublicIPAddressID id = Err e'
           ∧ e = "parsing public IP address ID: " +:+ e'.
Proof.
  unfold toLoadBalancerResource. intros Hr.
  apply bind_Err in Hr as [Hr|(pips & _ & Hr)].
  - destruct (LoadBalancer_FrontendIPConfigurations lb) as [fips|]; [|done].
    apply for_range_Err in Hr as (fip & s1 & _ & Hb).
    destruct (Frontend_PublicIPAddress fip) as [pip|]; [|done].
    apply bind_Err in Hb as [Hb|(id & _ & Hb)];
      [by apply deref_not_Err in Hb|].
    apply bind_Err in Hb as [Hb|(? & _ & Hb)]; [|done].
    apply wrap_err_Err in Hb as (e' & ? & ?). by exists id, e'.
  - apply bind_Err in Hr as [Hr|(? & _ & Hr)]; [|done].
    by apply deref_not_Err in Hr.
Qed.

Lemma toVMScaleSetResource_Err_parse (g : resourceGetter)
    (vmss : VirtualMachineScaleSet) (vms : list VirtualMachineScaleSetVM)
    (e : string) :
  toVMScaleSetResource g vmss vms = Err e →
  ∃ id e',
    (ParseSubnetID id = Err e' ∧ e = "error on parsing subnet ID: " +:+ e')
    ∨ (ParseLoadBalancerID id = Err e'
       ∧ e = "parsing load balancer ID: " +:+ e').
Proof.
  unfold toVMScaleSetResource. intros Hr.
  apply bind_Err in Hr as [Hr|(? & _ & Hr)]; [by apply deref_not_Err in Hr|].
  apply bind_Err in Hr as [Hr|(? & _ & Hr)]; [by apply deref_not_Err in Hr|].
  apply bind_Err in Hr as [Hr|(ifaces & _ & Hr)];
    [by apply deref_not_Err in Hr|].
  apply bind_Err in Hr as [Hr|([[vnets subnets] lbs] & _ & Hr)].
  - unfold vmssNetworkNames in Hr.
    apply for_range_Err in Hr as (iface & s1 & _ & Hb).
    apply bind_Err in Hb as [Hb|(ips & _ & Hb)];
      [by apply deref_not_Err in Hb|].
    apply for_range_Err in Hb as (ip & [[v s] l] & _ & Hb).
    unfold vmssNetworkNames_ip in Hb.
    apply bind_Err in Hb as [Hb|(? & _ & Hb)];
      [by apply deref_not_Err in Hb|].
    apply bind_Err in Hb as [Hb|(id & _ & Hb)];
      [by apply deref_not_Err in Hb|].
    apply bind_Err in Hb as [Hb|(sid & _ & Hb)].
    { apply wrap_err_Err in Hb as (e' & ? & ?). exists id, e'. by left. }
    apply bind_Err in Hb as [Hb|(? & _ & Hb)]; [|done].
    destruct (IPConfiguration_LoadBalancerBackendAddressPools ip)
      as [pools|]; [|done].
    apply for_range_Err in Hb as (lb & s2 & _ & Hb).
    apply bind_Err in Hb as [Hb|(lid & _ & Hb)];
      [by apply deref_not_Err in Hb|].
    apply bind_Err in Hb as [Hb|(? & _ & Hb)]; [|done].
    apply wrap_err_Err in Hb as (e' & ? & ?). exists lid, e'. by right.
  - apply bind_Err in Hr as [Hr|(blocks & _ & Hr)].
    + unfold vmssDiskBlocks in Hr.
      apply for_range_Err in Hr as (vm & s1 & _ & Hb).
      apply bind_Err in Hb as [Hb|(sp & _ & Hb)];
        [by apply deref_not_Err in Hb|].
      destruct (DataDisks sp) as [disks|]; [|done].
      apply for_range_Err in Hb as (d & s2 & _ & Hb).
      apply bind_Err in Hb as [Hb|(? & _ & Hb)]; [|done].
      by apply deref_not_Err in Hb.
    + apply bind_Err in Hr as [Hr|(? & _ & Hr)]; [|done].
      by apply deref_not_Err in Hr.
Qed.

Lemma simple_constructors_not_Err (g : resourceGetter) (e : string) :
  (∀ rg, toResourceGroupResource g rg ≠ Err e)
  ∧ (∀ subnet vnetName, toSubnetResource g subnet vnetName ≠ Err e)
  ∧ (∀ nsg, toNetworkSecurityGroupResource g nsg ≠ Err e)
  ∧ (∀ rt, toRouteTableResource g rt ≠ Err e)
  ∧ (∀ ra vmss, toRoleAssignmentResource g ra vmss ≠ Err e)
  ∧ (∀ disk, toDiskResource g disk ≠ Err e)
  ∧ (∀ pip, toPublicIPAddressResource g pip ≠ Err e).
Proof.
  split_and!.
  - intros rg. unfold toResourceGroupResource. by destruct (Group_Name rg).
  - intros subnet v. unfold toSubnetResource. by destruct (Subnet_Name subnet).
  - intros nsg. unfold toNetworkSecurityGroupResource.
    by destruct (SecurityGroup_Name nsg).
  - intros rt. unfold toRouteTableResource. by destruct (RouteTable_Name rt).
  - intros ra vmss. unfold toRoleAssignmentResource.
    by destruct (RoleAssignment_Name ra), (VMSS_Name vmss).
  - intros disk. unfold toDiskResource. by destruct (Disk_Name disk).
  - intros pip. unfold toPublicIPAddressResource.
    by destruct (PublicIPAddress_Name pip).
Qed.

Lemma listRoleAssignments_Err (g : resourceGetter)
    (principalIDs : gmap string VirtualMachineScaleSet) (e : string) :
  listRoleAssignments g principalIDs = Err e →
  RoleAssignment_List (cloud g) (resourceGroupName g) = Err e.
Proof.
  unfold listRoleAssignments. intros Hl.
  apply bind_Err in Hl as [Hl|(ras & _ & Hl)]; [done|].
  apply for_range_Err in Hl as (ra & s1 & _ & Hb).
  destruct (RoleAssignment_PrincipalID ra) as [principal|]; [|done].
  destruct (principalIDs !! principal) as [vmss|]; [|done].
  apply bind_Err in Hb as [Hb|(? & _ & Hb)]; [|done].
  by apply simple_constructors_not_Err in Hb.
Qed.

(** X27: the listing makes up no error: an error that it returns is the
    error of one of the [List] calls on the cloud, unchanged, or the error
    of a parser of IDs behind the prefix of the function that called it. *)
Theorem listResourcesAzure_Err (g : resourceGetter) (e : string) :
  listResourcesAzure g = Err e →
  cloudError g e ∨ parseError e.
Proof.
  unfold listResourcesAzure. intros Hl.
  apply bind_Err in Hl as [Hl|(? & _ & Hl)]; [|done].
  unfold listAll in Hl. apply for_range_Err in Hl as (fn & s1 & Hfn & Hb).
  apply bind_Err in Hb as [Hb|(? & _ & Hb)]; [|done].
  destruct (simple_constructors_not_Err g e)
    as (Hrg & Hsn & Hnsg & Hrt & Hra & Hdisk & Hpip).
  unfold fns in Hfn. elem_of_cases Hfn; subst fn.
  - unfold listResourceGroups in Hb.
    apply bind_Err in Hb as [Hb|(rgs & _ & Hb)];
      [left; unfold cloudError; by eauto 20|].
    by apply (for_range_owned_not_Err g Group_Tags) in Hb.
  - unfold listVirtualNetworksAndSubnets in Hb.
    apply bind_Err in Hb as [Hb|(vnets & _ & Hb)];
      [left; unfold cloudError; by eauto 20|].
    apply for_range_Err in Hb as (vnet & s2 & _ & Hb).
    apply bind_Err in Hb as [Hb|(o & _ & Hb)];
      [by apply isOwnedByCluster_no_error in Hb|].
    destruct o; simpl in Hb; [|done].
    apply bind_Err in Hb as [Hb|(r & _ & Hb)].
    { right. apply toVirtualNetworkResource_Err_parse in Hb as (id & e' & ?).
      exists id, e'. by left. }
    apply bind_Err in Hb as [Hb|(vnetName & _ & Hb)];
      [by apply deref_not_Err in Hb|].
    apply bind_Err in Hb as [Hb|(? & _ & Hb)]; [|done].
    unfold listSubnets in Hb.
    apply bind_Err in Hb as [Hb|(subnets & _ & Hb)];
      [left; unfold cloudError; by eauto 20|].
    apply for_range_Err in Hb as (subnet & s3 & _ & Hb).
    apply bind_Err in Hb as [Hb|(? & _ & Hb)]; [by apply Hsn in Hb|done].
  - unfold listNetworkSecurityGroups in Hb.
    apply bind_Err in Hb as [Hb|(nsgs & _ & Hb)];
      [left; unfold cloudError; by eauto 20|].
    apply for_range_Err in Hb as (nsg & s2 & _ & Hb).
    apply bind_Err in Hb as [Hb|(? & _ & Hb)]; [by apply Hnsg in Hb|done].
  - unfold listRouteTables in Hb.
    apply bind_Err in Hb as [Hb|(rts & _ & Hb)];
      [left; unfold cloudError; by eauto 20|].
    by apply (for_range_owned_not_Err g RouteTable_Tags) in Hb.
  - unfold listVMScaleSetsAndRoleAssignments in Hb.
    apply bind_Err in Hb as [Hb|(vmsses & _ & Hb)];
      [left; unfold cloudError; by eauto 20|].
    apply bind_Err in Hb as [Hb|([rs1 pids] & _ & Hb)].
    + apply for_range_Err in Hb as (vmss & [s2 p2] & _ & Hb).
      unfold listVMScaleSets_body in Hb.
      apply bind_Err in Hb as [Hb|(o & _ & Hb)];
        [by apply isOwnedByCluster_no_error in Hb|].
      destruct o; simpl in Hb; [|done].
      apply bind_Err in Hb as [Hb|(vmssName & _ & Hb)];
        [by apply deref_not_Err in Hb|].
      apply bind_Err in Hb as [Hb|(vms & _ & Hb)];
        [left; unfold cloudError; by eauto 20|].
      apply bind_Err in Hb as [Hb|(r & _ & Hb)].
      { right.
        apply toVMScaleSetResource_Err_parse in Hb as (id & e' & [?|?]);
          exists id, e'; [right; by left|right; right; by left]. }
      apply bind_Err in Hb as [Hb|(? & _ & Hb)];
        [by apply deref_not_Err in Hb|].
      apply bind_Err in Hb as [Hb|(? & _ & Hb)]; [|done].
      by apply deref_not_Err in Hb.
    + apply bind_Err in Hb as [Hb|(? & _ & Hb)]; [|done].
      apply listRoleAssignments_Err in Hb.
      left; unfold cloudError; by eauto 20.
  - unfold listDisks in Hb.
    apply bind_Err in Hb as [Hb|(disks & _ & Hb)];
      [left; unfold cloudError; by eauto 20|].
    by apply (for_range_owned_not_Err g Disk_Tags) in Hb.
  - unfold listLoadBalancers in Hb.
    apply bind_Err in Hb as [Hb|(lbs & _ & Hb)];
      [left; unfold cloudError; by eauto 20|].
    apply for_range_Err in Hb as (lb & s2 & _ & Hb).
    apply bind_Err in Hb as [Hb|(o & _ & Hb)];
      [by apply isOwnedByCluster_no_error in Hb|].
    destruct o; simpl in Hb; [|done].
    apply bind_Err in Hb as [Hb|(r & _ & Hb)]; [|done].
    right. apply toLoadBalancerResource_Err_parse in Hb as (id & e' & ?).
    exists id, e'. do 3 right. done.
  - unfold listPublicIPAddresses in Hb.
    apply bind_Err in Hb as [Hb|(pips & _ & Hb)];
      [left; unfold cloudError; by eauto 20|].
    by apply (for_range_owned_not_Err g PublicIPAddress_Tags) in Hb.
Qed.

(** ** Which resource group the listed descriptors block *)

(** The keys of [Blocks]: the key made of the name of the resource group
    of the cluster, and keys of types other than [ResourceGroup]. *)
Lemma emitted_Blocks_types (g : resourceGetter) (r : Resource) (k : string) :
  emitted g r →
  k ∈ Blocks r →
  k = toKey typeResourceGroup (resourceGroupName g)
  ∨ ∃ t id, k = toKey t id ∧ hasColon t = false ∧ t ≠ typeResourceGroup.
Proof.
  assert (∀ t (names : list string) k',
    hasColon t = false → t ≠ typeResourceGroup →
    k' ∈ toKey t <$> names →
    ∃ t' id, k' = toKey t' id ∧ hasColon t' = false ∧ t' ≠ typeResourceGroup)
    as Hnames.
  { intros t names k' ? ? (id & -> & _)%list_elem_of_fmap. by exists t, id. }
  intros [rg r' Hmk|vnet r' Hmk|subnet vnetName r' Hmk|nsg r' Hmk|rt r' Hmk
         |vmss vms r' Hmk|ra vmss r' Hmk|disk r' Hmk|lb r' Hmk|pip r' Hmk] Hk.
  - unfold toResourceGroupResource in Hmk. inv_bind Hmk. subst r'.
    by apply elem_of_nil in Hk.
  - unfold toVirtualNetworkResource in Hmk. inv_bind Hmk. subst r'.
    simpl in Hk. apply elem_of_cons in Hk as [->|Hk]; [by left|right].
    by apply (Hnames typeNetworkSecurityGroup) in Hk.
  - unfold toSubnetResource in Hmk. inv_bind Hmk. subst r'. simpl in Hk.
    elem_of_cases Hk; subst k; [right|by left].
    by exists typeVirtualNetwork, vnetName.
  - unfold toNetworkSecurityGroupResource in Hmk. inv_bind Hmk. subst r'.
    simpl in Hk. elem_of_cases Hk. by left.
  - unfold toRouteTableResource in Hmk. inv_bind Hmk. subst r'.
    simpl in Hk. elem_of_cases Hk. by left.
  - unfold toVMScaleSetResource in Hmk.
    apply bind_Ok in Hmk as (? & _ & Hmk).
    apply bind_Ok in Hmk as (? & _ & Hmk).
    apply bind_Ok in Hmk as (? & _ & Hmk).
    apply bind_Ok in Hmk as ([[vnets subnets] lbs] & _ & Hmk).
    apply bind_Ok in Hmk as (blocks & Hblocks & Hmk).
    apply bind_Ok in Hmk as (? & _ & Hmk). injection Hmk as <-. simpl in Hk.
    apply vmssDiskBlocks_spec in Hblocks as (names & -> & _).
    rewrite !elem_of_app, elem_of_cons in Hk.
    destruct Hk as [[[[[->|Hk]|Hk]|Hk]|Hk]|Hk].
    + by left.
    + by apply elem_of_nil in Hk.
    + right. by apply (Hnames typeVirtualNetwork) in Hk.
    + right. by apply (Hnames typeSubnet) in Hk.
    + right. by apply (Hnames typeLoadBalancer) in Hk.
    + right. by apply (Hnames typeDisk) in Hk.
  - unfold toRoleAssignmentResource in Hmk. inv_bind Hmk. subst r'.
    simpl in Hk. elem_of_cases Hk; subst k; [by left|right].
    by eexists typeVMScaleSet, _.
  - unfold toDiskResource in Hmk. inv_bind Hmk. subst r'.
    simpl in Hk. elem_of_cases Hk. by left.
  - unfold toLoadBalancerResource in Hmk. inv_bind Hmk. subst r'.
    simpl in Hk. apply elem_of_cons in Hk as [->|Hk]; [by left|right].
    by apply (Hnames typePublicIPAddress) in Hk.
  - unfold toPublicIPAddressResource in Hmk. inv_bind Hmk. subst r'.
    simpl in Hk. elem_of_cases Hk. by left.
Qed.

(** C9, as amended: a listed descriptor of type [ResourceGroup] blocks
    nothing, and every other listed descriptor blocks the key made of the
    name of the resource group of the cluster. A descriptor of type
    [ResourceGroup] is keyed by the name of its own group, and every group
    of the subscription that is tagged for the cluster gets one: the other
    listed descriptors block its key exactly when its name is the name of
    the resource group of the cluster. Such a group waits for all of them;
    a tagged group of another name waits for none. *)
Theorem listAll_resource_group_blocked (g : resourceGetter)
    (rs : list Resource) (r : Resource) :
  listAll g = Ok rs →
  r ∈ rs →
  (Type_ r = typeResourceGroup → Blocks r = [])
  ∧ (Type_ r ≠ typeResourceGroup →
     toKey typeResourceGroup (resourceGroupName g) ∈ Blocks r
     ∧ ∀ rg, Type_ rg = typeResourceGroup →
         (keyOf rg ∈ Blocks r ↔ ID rg = resourceGroupName g)).
Proof.
  intros Hall Hr.
  destruct (listAll_blocks_resource_group g rs r Hall Hr) as [Hrg Hother].
  split; [done|]. intros Htype. split; [by apply Hother|].
  intros rg Hrgtype. unfold keyOf. rewrite Hrgtype. split.
  - intros Hk.
    destruct (emitted_Blocks_types g r _ (listAll_emitted g rs r Hall Hr) Hk)
      as [Heq|(t & id & Heq & Hcolon & Ht)].
    + by apply (toKey_inj_id typeResourceGroup) in Heq.
    + apply toKey_inj in Heq as [? _]; [by subst t|done|done].
  - intros ->. by apply Hother.
Qed.

End Coverage.

(** ** The theorems on the concrete cloud *)

#[local] Existing Instance Example.package.

(** The filter accepts the tags of cluster [c1]. *)
Lemma isOwnedByCluster_true_iff_witness :
  isOwnedByCluster Example.g (Example.tagged "c1") = Ok true.
Proof. apply isOwnedByCluster_true_iff. reflexivity. Defined.

(** The filter answers on a tag map without nil values, and on the tags of
    the example, which hold a nil value under a key that is not the
    cluster-name key. *)
Lemma isOwnedByCluster_total_iff_witness :
  (∃ b, isOwnedByCluster Example.g {[ "KubernetesCluster" := Some "c2" ]} = Ok b)
  ∧ Example.tagged "c2" !! "k8s.io_role_node" = Some None
  ∧ ∃ b, isOwnedByCluster Example.g (Example.tagged "c2") = Ok b.
Proof.
  split_and!.
  - apply (proj1 (isOwnedByCluster_total_iff Example.g _)).
    intros k v [_ <-]%lookup_singleton_Some. by eexists.
  - reflexivity.
  - apply (proj2 (isOwnedByCluster_total_iff Example.g _)).
    vm_compute. discriminate.
Defined.

(** C10, as stated, fails: the filter does not dereference the value of
    every tag. A tag map with a nil value, under a key other than the
    cluster-name key, makes it return false, not fault. *)
Lemma isOwnedByCluster_not_every_value_dereferenced :
  ¬ (∀ (g : resourceGetter) (tags : gmap string (option string)),
       (∃ k, tags !! k = Some None) → isOwnedByCluster g tags = Panic).
Proof.
  intros Hclaim.
  specialize (Hclaim Example.g {[ "k8s.io_role_node" := None ]}).
  assert (isOwnedByCluster Example.g {[ "k8s.io_role_node" := None ]}
          = Ok false) as Hrun by reflexivity.
  rewrite Hrun in Hclaim. discriminate Hclaim.
  exists "k8s.io_role_node". reflexivity.
Qed.

(** The entry of the scale set [nodes]. *)
Lemma listResourcesAzure_key_witness :
  ∃ m r, listResourcesAzure Example.g = Ok m
         ∧ m !! "VMScaleSet:nodes" = Some r
         ∧ "VMScaleSet:nodes" = Type_ r +:+ ":" +:+ ID r.
Proof.
  pose (m := value_of ∅ (listResourcesAzure Example.g)).
  assert (listResourcesAzure Example.g = Ok m) as Hm
    by (apply is_Ok_value_of; vm_compute; reflexivity).
  assert (is_Some (m !! "VMScaleSet:nodes")) as [r Hr]
    by (apply (bool_decide_unpack _); vm_compute; exact I).
  exists m, r. split_and!; [exact Hm | exact Hr |].
  exact (listResourcesAzure_key Example.g m "VMScaleSet:nodes" r Hm Hr).
Defined.

(** A slice of two descriptors, the first done at discovery time: the map
    has no entry at its key, and the entry of the second is not done. *)
Lemma toResourceMap_not_Done_witness :
  Done Example.disk_d1_done = true
  ∧ toResourceMap [Example.disk_d1_done; Example.subnet_sn1_vnet1]
      !! "Disk:d1" = None
  ∧ toResourceMap [Example.disk_d1_done; Example.subnet_sn1_vnet1]
      !! "Subnet:sn1" = Some Example.subnet_sn1_vnet1
  ∧ Done Example.subnet_sn1_vnet1 = false
  ∧ Example.subnet_sn1_vnet1
      ∈ [Example.disk_d1_done; Example.subnet_sn1_vnet1].
Proof.
  split_and!; [reflexivity | vm_compute; reflexivity
              | vm_compute; reflexivity | |].
  all: apply (toResourceMap_not_Done
                [Example.disk_d1_done; Example.subnet_sn1_vnet1]
                "Subnet:sn1" Example.subnet_sn1_vnet1).
  all: vm_compute; reflexivity.
Defined.

(** The entry of the disk [d1]. *)
Lemma listResourcesAzure_not_Done_witness :
  ∃ m r, listResourcesAzure Example.g = Ok m
         ∧ m !! "Disk:d1" = Some r
         ∧ Done r = false.
Proof.
  pose (m := value_of ∅ (listResourcesAzure Example.g)).
  assert (listResourcesAzure Example.g = Ok m) as Hm
    by (apply is_Ok_value_of; vm_compute; reflexivity).
  assert (is_Some (m !! "Disk:d1")) as [r Hr]
    by (apply (bool_decide_unpack _); vm_compute; exact I).
  exists m, r. split_and!; [exact Hm | exact Hr |].
  exact (listResourcesAzure_not_Done Example.g m "Disk:d1" r Hm Hr).
Defined.

(** The subnets [sn1] of [vnet1] and of [vnet2] have one key; the map keeps
    the descriptor of the second, which is listed later. *)
Lemma listResourcesAzure_last_writer_wins_witness :
  ∃ m, listResourcesAzure Example.g = Ok m
       ∧ m !! "Subnet:sn1" = Some Example.subnet_sn1_vnet2.
Proof.
  pose (rs := value_of [] (listAll Example.g)).
  destruct (listResourcesAzure_last_writer_wins Example.g rs
              (take 2 rs) (take 2 (drop 3 rs)) (drop 6 rs)
              Example.subnet_sn1_vnet1 Example.subnet_sn1_vnet2)
    as (m & Hm & Hlk).
  - apply is_Ok_value_of. vm_compute; reflexivity.
  - vm_compute; reflexivity.
  - reflexivity.
  - apply Forall_forall. vm_compute. repeat constructor; discriminate.
  - exists m. split; [exact Hm | exact Hlk].
Defined.

(** The descriptor of the subnet [sn1] of [vnet1] is not a resource group
    and blocks the resource group. *)
Lemma listAll_blocks_resource_group_witness :
  (Type_ Example.subnet_sn1_vnet1 = typeResourceGroup →
   Blocks Example.subnet_sn1_vnet1 = [])
  ∧ (Type_ Example.subnet_sn1_vnet1 ≠ typeResourceGroup →
     "ResourceGroup:rg1" ∈ Blocks Example.subnet_sn1_vnet1).
Proof.
  pose (rs := value_of [] (listAll Example.g)).
  apply (listAll_blocks_resource_group Example.g rs).
  - apply is_Ok_value_of. vm_compute; reflexivity.
  - apply (list_elem_of_lookup_2 _ 2). vm_compute; reflexivity.
Defined.

(** C9, as stated, fails. The subscription of [g_two_groups] has two
    resource groups with the tag of cluster [c1]: [rg1], the resource group
    of the cluster, and [rg4]. Both are listed, each under the key made of
    its own name, and the subnet [sn1] of [vnet1] blocks [ResourceGroup:rg1]
    only: the descriptor of [rg4] does not wait for it. *)
Lemma listAll_resource_group_not_blocked :
  ¬ (∀ (g : resourceGetter) rs rg r,
       listAll g = Ok rs →
       rg ∈ rs → Type_ rg = typeResourceGroup →
       r ∈ rs → Type_ r ≠ typeResourceGroup →
       keyOf rg ∈ Blocks r).
Proof.
  intros Hclaim.
  pose (rs := value_of [] (listAll Example.g_two_groups)).
  assert (keyOf Example.resource_group_rg4
          ∈ Blocks Example.subnet_sn1_vnet1) as Hk.
  { apply (Hclaim Example.g_two_groups rs).
    - apply is_Ok_value_of. vm_compute; reflexivity.
    - apply (list_elem_of_lookup_2 _ 1). vm_compute; reflexivity.
    - reflexivity.
    - apply (list_elem_of_lookup_2 _ 3). vm_compute; reflexivity.
    - discriminate. }
  simpl in Hk. elem_of_cases Hk; vm_compute in Hk; discriminate Hk.
Qed.

(** No descriptor listed for [g_two_groups] blocks the resource group
    [rg4], which is listed. *)
Lemma listAll_two_groups_rg4 :
  Example.resource_group_rg4 ∈ value_of [] (listAll Example.g_two_groups)
  ∧ Forall (λ r, keyOf Example.resource_group_rg4 ∉ Blocks r)
      (value_of [] (listAll Example.g_two_groups)).
Proof.
  split.
  - apply (list_elem_of_lookup_2 _ 1). vm_compute; reflexivity.
  - apply (bool_decide_unpack _). vm_compute. exact I.
Qed.

(** For [g_two_groups], the subnet [sn1] of [vnet1] blocks the resource
    group [rg1] of the cluster, and among the descriptors of type
    [ResourceGroup] those of ID [rg1] only. *)
Lemma listAll_resource_group_blocked_witness :
  (Type_ Example.subnet_sn1_vnet1 = typeResourceGroup →
   Blocks Example.subnet_sn1_vnet1 = [])
  ∧ (Type_ Example.subnet_sn1_vnet1 ≠ typeResourceGroup →
     "ResourceGroup:rg1" ∈ Blocks Example.subnet_sn1_vnet1
     ∧ ∀ rg, Type_ rg = typeResourceGroup →
         (keyOf rg ∈ Blocks Example.subnet_sn1_vnet1 ↔ ID rg = "rg1")).
Proof.
  pose (rs := value_of [] (listAll Example.g_two_groups)).
  apply (listAll_resource_group_blocked Example.g_two_groups rs).
  - apply is_Ok_value_of. vm_compute; reflexivity.
  - apply (list_elem_of_lookup_2 _ 3). vm_compute; reflexivity.
Defined.

(** The two subnets of the owned network [vnet1]. *)
Lemma listAll_subnets_of_owned_network_witness :
  ∃ rs vnetName subnets,
    listAll Example.g = Ok rs
    ∧ VirtualNetwork_Name Example.vnet1 = Some vnetName
    ∧ Subnet_List Example.azure "rg1" vnetName = Ok subnets
    ∧ ∀ subnet, subnet ∈ subnets →
        ∃ r, r ∈ rs
             ∧ Obj r = ObjSubnet subnet
             ∧ Type_ r = typeSubnet
             ∧ Subnet_Name subnet = Some (ID r)
             ∧ Blocks r = [toKey typeVirtualNetwork vnetName;
                           toKey typeResourceGroup "rg1"].
Proof.
  pose (rs := value_of [] (listAll Example.g)).
  assert (listAll Example.g = Ok rs) as Hrs
    by (apply is_Ok_value_of; vm_compute; reflexivity).
  destruct (listAll_subnets_of_owned_network Example.g rs
              [Example.vnet1; Example.vnet2; Example.vnet3] Example.vnet1)
    as (vnetName & subnets & Hname & Hlist & Hsub).
  - exact Hrs.
  - reflexivity.
  - apply list_elem_of_here.
  - vm_compute; reflexivity.
  - exists rs, vnetName, subnets. split_and!; [exact Hrs|exact Hname| |].
    + exact Hlist.
    + exact Hsub.
Defined.

(** The role assignment [ra1] belongs to the owned scale set [nodes]; [ra2]
    belongs to a scale set of another cluster and [ra3] has no principal. *)
Lemma listRoleAssignments_of_owned_scale_sets_witness :
  ∃ rs,
    listVMScaleSetsAndRoleAssignments Example.g = Ok rs
    ∧ (∃ r, r ∈ rs ∧ Obj r = ObjRoleAssignment Example.ra1)
    ∧ ¬ (∃ r, r ∈ rs ∧ Obj r = ObjRoleAssignment Example.ra2)
    ∧ ¬ (∃ r, r ∈ rs ∧ Obj r = ObjRoleAssignment Example.ra3).
Proof.
  pose (rs := value_of [] (listVMScaleSetsAndRoleAssignments Example.g)).
  assert (listVMScaleSetsAndRoleAssignments Example.g = Ok rs) as Hrs
    by (apply is_Ok_value_of; vm_compute; reflexivity).
  destruct (listRoleAssignments_of_owned_scale_sets Example.g
              [Example.nodes; Example.others]
              [Example.ra1; Example.ra2; Example.ra3] rs)
    as [Hiff _]; [reflexivity|reflexivity|exact Hrs|].
  exists rs. split_and!; [exact Hrs| | |].
  - apply Hiff; [apply list_elem_of_here|].
    exists "p1", Example.nodes.
    split_and!; [reflexivity|apply list_elem_of_here| |reflexivity].
    vm_compute; reflexivity.
  - rewrite Hiff by (apply list_elem_of_further, list_elem_of_here).
    intros (pid & vmss & Hpid & Hin & Hown & Hprincipal).
    injection Hpid as <-. elem_of_cases Hin; subst vmss.
    + vm_compute in Hprincipal. discriminate Hprincipal.
    + vm_compute in Hown. discriminate Hown.
  - rewrite Hiff by (do 2 apply list_elem_of_further; apply list_elem_of_here).
    intros (pid & vmss & Hpid & _). discriminate Hpid.
Defined.

(** Listing the disks fails after five adapters have succeeded. *)
Lemma listAll_first_error_witness :
  listAll Example.g_disks_failing = Err "TooManyRequests"
  ∧ listResourcesAzure Example.g_disks_failing = Err "TooManyRequests"
  ∧ value_of ∅ (listResourcesAzure Example.g_disks_failing) = ∅.
Proof.
  apply (listAll_first_error Example.g_disks_failing
    [ listResourceGroups; listVirtualNetworksAndSubnets;
      listNetworkSecurityGroups; listRouteTables;
      listVMScaleSetsAndRoleAssignments ]
    [ listLoadBalancers; listPublicIPAddresses ]
    listDisks).
  - reflexivity.
  - repeat (apply Forall_cons_2;
      [eexists; apply (is_Ok_value_of []); vm_compute; reflexivity|]).
    apply Forall_nil_2.
  - reflexivity.
Defined.

(** C2, as stated, fails: when listing the disks returns an error, the
    resource group that another adapter has listed is not in what
    [listResourcesAzure] returns with the error. *)
Lemma listResourcesAzure_no_partial_results :
  ¬ (∀ (g : resourceGetter) fn e fn' rs' r,
       fn ∈ fns → fn g = Err e →
       fn' ∈ fns → fn' g = Ok rs' → r ∈ rs' →
       error_of (listResourcesAzure g) = Some e
       ∧ value_of ∅ (listResourcesAzure g) !! toKey (Type_ r) (ID r) = Some r).
Proof.
  intros Hclaim.
  destruct (Hclaim Example.g_disks_failing listDisks "TooManyRequests"
              listResourceGroups [Example.resource_group_rg1]
              Example.resource_group_rg1) as [_ Hlk].
  - unfold fns. elem_of_here.
  - reflexivity.
  - unfold fns. elem_of_here.
  - vm_compute; reflexivity.
  - apply list_elem_of_here.
  - vm_compute in Hlk. discriminate Hlk.
Qed.

(** C1 on the concrete cloud. The security group [nsg2] carries the tag of
    cluster [c2] and fails the ownership filter of [c1]; no filter is applied
    to security groups, and listing for [c1] returns it with [Shared] unset.
    When [c1] runs in a shared resource group, network and route table, the
    descriptors of these are [Shared]; those of the scale set, the disk, the
    role assignment, the load balancer and the public IP address are not. *)
Theorem listResourcesAzure_shared_not_marked :
  isOwnedByCluster Example.g (SecurityGroup_Tags Example.nsg2) = Ok false
  ∧ Shared <$> (value_of ∅ (ListResourcesAzure Example.azure Example.c1)
                  !! "NetworkSecurityGroup:nsg2") = Some false
  ∧ (λ k, Shared <$> (value_of ∅
            (ListResourcesAzure Example.azure Example.c1_shared) !! k))
      <$> [ "ResourceGroup:rg1"; "VirtualNetwork:vnet1"; "RouteTable:rt1" ]
    = [ Some true; Some true; Some true ]
  ∧ (λ k, Shared <$> (value_of ∅
            (ListResourcesAzure Example.azure Example.c1_shared) !! k))
      <$> [ "VMScaleSet:nodes"; "Disk:d1"; "RoleAssignment:ra1";
            "LoadBalancer:lb1"; "PublicIPAddress:pip1" ]
    = [ Some false; Some false; Some false; Some false; Some false ].
Proof. split_and!; vm_compute; reflexivity. Qed.

(** The scale set [nodes] of the cluster that runs in shared surroundings. *)
Lemma listAll_Shared_unset_example :
  ∃ rs r, listAll Example.g_shared = Ok rs
          ∧ rs !! 9 = Some r
          ∧ Type_ r = typeVMScaleSet
          ∧ Shared r = false.
Proof.
  pose (rs := value_of [] (listAll Example.g_shared)).
  assert (listAll Example.g_shared = Ok rs) as Hrs
    by (apply is_Ok_value_of; vm_compute; reflexivity).
  assert (is_Some (rs !! 9)) as [r Hr]
    by (apply (bool_decide_unpack _); vm_compute; exact I).
  assert (Type_ r = typeVMScaleSet) as Hty.
  { assert (Type_ <$> rs !! 9 = Some typeVMScaleSet) as Hty
      by (vm_compute; reflexivity).
    rewrite Hr in Hty. by injection Hty. }
  exists rs, r. split_and!; [exact Hrs|exact Hr|exact Hty|].
  apply (listAll_Shared_unset Example.g_shared rs r Hrs).
  - by eapply list_elem_of_lookup_2.
  - rewrite Hty. elem_of_here.
Defined.

(** ** The further properties on the concrete cloud *)

#[local] Existing Instance taggedForCluster_dec.

(** The listing of the example, by name. *)
Lemma listAll_example :
  listAll Example.g = Ok (value_of [] (listAll Example.g)).
Proof. apply is_Ok_value_of. vm_compute. reflexivity. Defined.

Lemma listAll_example_subnet_sn1_vnet1 :
  Example.subnet_sn1_vnet1 ∈ value_of [] (listAll Example.g).
Proof. apply (list_elem_of_lookup_2 _ 2). vm_compute. reflexivity. Defined.

Lemma listAll_example_subnet_sn1_vnet2 :
  Example.subnet_sn1_vnet2 ∈ value_of [] (listAll Example.g).
Proof. apply (list_elem_of_lookup_2 _ 5). vm_compute. reflexivity. Defined.

Lemma listAll_example_resource_group_rg1 :
  Example.resource_group_rg1 ∈ value_of [] (listAll Example.g).
Proof. apply (list_elem_of_lookup_2 _ 0). vm_compute. reflexivity. Defined.

(** The tag map of the example, visited from its last entry to its first. *)
Lemma isOwnedByCluster_any_order_witness :
  isOwnedByCluster_range "c1" (reverse (map_to_list (Example.tagged "c1")))
  = isOwnedByCluster Example.g (Example.tagged "c1").
Proof.
  apply (isOwnedByCluster_any_order Example.g (Example.tagged "c1")).
  apply reverse_Permutation.
Defined.

Lemma listAll_descriptor_names_witness :
  Type_ Example.subnet_sn1_vnet1 = objType (Obj Example.subnet_sn1_vnet1)
  ∧ objName (Obj Example.subnet_sn1_vnet1) = Some (ID Example.subnet_sn1_vnet1)
  ∧ Name Example.subnet_sn1_vnet1 = ID Example.subnet_sn1_vnet1.
Proof.
  exact (listAll_descriptor_names Example.g _ _
           listAll_example listAll_example_subnet_sn1_vnet1).
Defined.

(** The two subnets named [sn1] have one key, one type and one ID. *)
Lemma listAll_same_key_witness :
  Type_ Example.subnet_sn1_vnet1 = Type_ Example.subnet_sn1_vnet2
  ∧ ID Example.subnet_sn1_vnet1 = ID Example.subnet_sn1_vnet2.
Proof.
  apply (listAll_same_key Example.g _ _ _ listAll_example
           listAll_example_subnet_sn1_vnet1 listAll_example_subnet_sn1_vnet2).
  reflexivity.
Defined.

(** Fourteen descriptors are listed and, the two subnets named [sn1]
    sharing a key, the map has thirteen keys. *)
Lemma listResourcesAzure_dom_witness :
  ∃ rs m,
    listAll Example.g = Ok rs
    ∧ listResourcesAzure Example.g = Ok m
    ∧ dom m = list_to_set (keyOf <$> rs)
    ∧ length rs = 14.
Proof.
  pose (m := value_of ∅ (listResourcesAzure Example.g)).
  assert (listResourcesAzure Example.g = Ok m) as Hm
    by (apply is_Ok_value_of; vm_compute; reflexivity).
  exists (value_of [] (listAll Example.g)), m.
  split_and!; [exact listAll_example|exact Hm| |vm_compute; reflexivity].
  exact (listResourcesAzure_dom Example.g _ m listAll_example Hm).
Defined.

Lemma listAll_Shared_by_type_witness :
  Shared Example.subnet_sn1_vnet1 = AzureNetworkShared Example.c1.
Proof.
  rewrite (listAll_Shared_by_type Example.g _ _
             listAll_example listAll_example_subnet_sn1_vnet1).
  reflexivity.
Defined.

Lemma listAll_owned_witness :
  Example.tagged "c1" !! "KubernetesCluster" = Some (Some "c1").
Proof.
  apply (listAll_owned Example.g _ Example.resource_group_rg1
           (Example.tagged "c1")
           listAll_example listAll_example_resource_group_rg1).
  - discriminate.
  - reflexivity.
Defined.

(** The deleter of the subnet [sn1] of [vnet1]. *)
Lemma listAll_deleterCall_witness :
  deleterCall Example.g (Deleter Example.subnet_sn1_vnet1)
    Example.subnet_sn1_vnet1
  = Ok (Subnet_Delete "rg1" "vnet1" "sn1")
  ∧ callType (Subnet_Delete "rg1" "vnet1" "sn1") = "Subnet"
  ∧ callName (Subnet_Delete "rg1" "vnet1" "sn1") = "sn1"
  ∧ ∀ rg, callResourceGroup (Subnet_Delete "rg1" "vnet1" "sn1") = Some rg →
          rg = "rg1".
Proof.
  split; [reflexivity|].
  exact (listAll_deleterCall Example.g _ _
           listAll_example listAll_example_subnet_sn1_vnet1).
Defined.

Lemma listAll_subnet_deleterCall_witness :
  ∃ vnetName,
    toKey typeVirtualNetwork vnetName ∈ Blocks Example.subnet_sn1_vnet2
    ∧ deleterCall Example.g (Deleter Example.subnet_sn1_vnet2)
        Example.subnet_sn1_vnet2
      = Ok (Subnet_Delete "rg1" vnetName "sn1").
Proof.
  destruct (listAll_subnet_deleterCall Example.g _ _
              listAll_example listAll_example_subnet_sn1_vnet2 eq_refl)
    as (_ & _ & vnetName & _ & _ & _ & _ & _ & _ & _ & _ & _ & Hb & Hcall).
  exists vnetName. split; [exact Hb|exact Hcall].
Defined.

(** The network [vnet1] blocks the resource group and the security group
    [nsg1], to which its subnet [sn1] refers. *)
Lemma toVirtualNetworkResource_Blocks_witness :
  toVirtualNetworkResource Example.g Example.vnet1
  = Ok Example.virtual_network_vnet1
  ∧ NoDup (Blocks Example.virtual_network_vnet1)
  ∧ ∃ subnet name,
      subnet ∈ default [] (VirtualNetwork_Subnets Example.vnet1)
      ∧ subnetNetworkSecurityGroup subnet name
      ∧ "NetworkSecurityGroup:nsg1" = toKey typeNetworkSecurityGroup name.
Proof.
  assert (toVirtualNetworkResource Example.g Example.vnet1
          = Ok Example.virtual_network_vnet1) as Hr
    by (vm_compute; reflexivity).
  destruct (toVirtualNetworkResource_Blocks Example.g Example.vnet1 _ Hr)
    as [Hnodup Hiff].
  split_and!; [exact Hr|exact Hnodup|].
  destruct (proj1 (Hiff "NetworkSecurityGroup:nsg1")) as [Heq|Hex].
  - apply list_elem_of_further, list_elem_of_here.
  - discriminate Heq.
  - exact Hex.
Defined.

(** The subnet of [vnet4] refers to a security group whose ID does not
    parse. *)
Lemma toVirtualNetworkResource_Err_witness :
  toVirtualNetworkResource Example.g Example.vnet4
  = Err "parsing network security group ID: invalid ID"
  ∧ ∃ subnets subnet nsg id e',
      VirtualNetwork_Subnets Example.vnet4 = Some subnets
      ∧ subnet ∈ subnets
      ∧ Subnet_NetworkSecurityGroup subnet = Some nsg
      ∧ SecurityGroup_ID nsg = Some id
      ∧ ParseNetworkSecurityGroupID id = Err e'
      ∧ "parsing network security group ID: invalid ID"
        = "parsing network security group ID: " +:+ e'.
Proof.
  assert (toVirtualNetworkResource Example.g Example.vnet4
          = Err "parsing network security group ID: invalid ID") as Hr
    by reflexivity.
  split; [exact Hr|].
  exact (toVirtualNetworkResource_Err Example.g Example.vnet4 _ Hr).
Defined.

(** The load balancer [lb1] blocks the resource group and the public IP
    address [pip1] of its frontend. *)
Lemma toLoadBalancerResource_Blocks_witness :
  toLoadBalancerResource Example.g Example.lb1 = Ok Example.load_balancer_lb1
  ∧ NoDup (Blocks Example.load_balancer_lb1)
  ∧ ∃ fip name,
      fip ∈ default [] (LoadBalancer_FrontendIPConfigurations Example.lb1)
      ∧ frontendPublicIPAddress fip name
      ∧ "PublicIPAddress:pip1" = toKey typePublicIPAddress name.
Proof.
  assert (toLoadBalancerResource Example.g Example.lb1
          = Ok Example.load_balancer_lb1) as Hr
    by (vm_compute; reflexivity).
  destruct (toLoadBalancerResource_Blocks Example.g Example.lb1 _ Hr)
    as [Hnodup Hiff].
  split_and!; [exact Hr|exact Hnodup|].
  destruct (proj1 (Hiff "PublicIPAddress:pip1")) as [Heq|Hex].
  - apply list_elem_of_further, list_elem_of_here.
  - discriminate Heq.
  - exact Hex.
Defined.

(** The scale set [nodes] blocks the data disk [d1] of its VM. *)
Lemma toVMScaleSetResource_Blocks_witness :
  toVMScaleSetResource Example.g Example.nodes [Example.vm1]
  = Ok Example.scale_set_nodes
  ∧ ("Disk:d1" ∈ Blocks Example.scale_set_nodes ↔
     "Disk:d1" = toKey typeResourceGroup "rg1"
     ∨ (∃ ip sid,
          ip ∈ vmssIPConfigurations Example.nodes ∧ ipSubnetID ip sid
          ∧ ("Disk:d1" = toKey typeVirtualNetwork (VirtualNetworkName sid)
             ∨ "Disk:d1" = toKey typeSubnet (SubnetName sid)))
     ∨ (∃ ip name,
          ip ∈ vmssIPConfigurations Example.nodes ∧ ipLoadBalancer ip name
          ∧ "Disk:d1" = toKey typeLoadBalancer name)
     ∨ (∃ d name,
          d ∈ vmDataDisks [Example.vm1] ∧ DataDisk_Name d = Some name
          ∧ "Disk:d1" = toKey typeDisk name)).
Proof.
  assert (toVMScaleSetResource Example.g Example.nodes [Example.vm1]
          = Ok Example.scale_set_nodes) as Hr
    by (vm_compute; reflexivity).
  split; [exact Hr|].
  exact (toVMScaleSetResource_Blocks Example.g Example.nodes [Example.vm1]
           _ Hr "Disk:d1").
Defined.

(** Of the two resource groups, only [rg1] is tagged for [c1]. *)
Lemma listResourceGroups_exact_witness :
  ∃ rs,
    listResourceGroups Example.g_mixed = Ok rs
    ∧ length rs = 1
    ∧ Forall2 (λ rg r, toResourceGroupResource Example.g_mixed rg = Ok r)
        (filter (λ rg, taggedForCluster Example.g_mixed (Group_Tags rg))
                [Example.rg1; Example.rg2]) rs.
Proof.
  pose (rs := value_of [] (listResourceGroups Example.g_mixed)).
  assert (listResourceGroups Example.g_mixed = Ok rs) as Hrs
    by (apply is_Ok_value_of; vm_compute; reflexivity).
  exists rs. split_and!; [exact Hrs|vm_compute; reflexivity|].
  exact (listResourceGroups_exact Example.g_mixed _ rs eq_refl Hrs).
Defined.

(** Both security groups are listed, [nsg2] of cluster [c2] too. *)
Lemma listNetworkSecurityGroups_exact_witness :
  ∃ rs,
    listNetworkSecurityGroups Example.g = Ok rs
    ∧ length rs = 2
    ∧ Forall2 (λ nsg r, toNetworkSecurityGroupResource Example.g nsg = Ok r)
        [Example.nsg1; Example.nsg2] rs.
Proof.
  pose (rs := value_of [] (listNetworkSecurityGroups Example.g)).
  assert (listNetworkSecurityGroups Example.g = Ok rs) as Hrs
    by (apply is_Ok_value_of; vm_compute; reflexivity).
  exists rs. split_and!; [exact Hrs|vm_compute; reflexivity|].
  exact (listNetworkSecurityGroups_exact Example.g _ rs eq_refl Hrs).
Defined.

Lemma listRouteTables_exact_witness :
  ∃ rs,
    listRouteTables Example.g_mixed = Ok rs
    ∧ length rs = 1
    ∧ Forall2 (λ rt r, toRouteTableResource Example.g_mixed rt = Ok r)
        (filter (λ rt, taggedForCluster Example.g_mixed (RouteTable_Tags rt))
                [Example.rt2; Example.rt1]) rs.
Proof.
  pose (rs := value_of [] (listRouteTables Example.g_mixed)).
  assert (listRouteTables Example.g_mixed = Ok rs) as Hrs
    by (apply is_Ok_value_of; vm_compute; reflexivity).
  exists rs. split_and!; [exact Hrs|vm_compute; reflexivity|].
  exact (listRouteTables_exact Example.g_mixed _ rs eq_refl Hrs).
Defined.

Lemma listDisks_exact_witness :
  ∃ rs,
    listDisks Example.g_mixed = Ok rs
    ∧ length rs = 1
    ∧ Forall2 (λ disk r, toDiskResource Example.g_mixed disk = Ok r)
        (filter (λ disk, taggedForCluster Example.g_mixed (Disk_Tags disk))
                [Example.d1; Example.d2]) rs.
Proof.
  pose (rs := value_of [] (listDisks Example.g_mixed)).
  assert (listDisks Example.g_mixed = Ok rs) as Hrs
    by (apply is_Ok_value_of; vm_compute; reflexivity).
  exists rs. split_and!; [exact Hrs|vm_compute; reflexivity|].
  exact (listDisks_exact Example.g_mixed _ rs eq_refl Hrs).
Defined.

Lemma listLoadBalancers_exact_witness :
  ∃ rs,
    listLoadBalancers Example.g_mixed = Ok rs
    ∧ length rs = 1
    ∧ Forall2 (λ lb r, toLoadBalancerResource Example.g_mixed lb = Ok r)
        (filter (λ lb, taggedForCluster Example.g_mixed (LoadBalancer_Tags lb))
                [Example.lb1; Example.lb2]) rs.
Proof.
  pose (rs := value_of [] (listLoadBalancers Example.g_mixed)).
  assert (listLoadBalancers Example.g_mixed = Ok rs) as Hrs
    by (apply is_Ok_value_of; vm_compute; reflexivity).
  exists rs. split_and!; [exact Hrs|vm_compute; reflexivity|].
  exact (listLoadBalancers_exact Example.g_mixed _ rs eq_refl Hrs).
Defined.

Lemma listPublicIPAddresses_exact_witness :
  ∃ rs,
    listPublicIPAddresses Example.g_mixed = Ok rs
    ∧ length rs = 1
    ∧ Forall2 (λ pip r, toPublicIPAddressResource Example.g_mixed pip = Ok r)
        (filter (λ pip, taggedForCluster Example.g_mixed
                          (PublicIPAddress_Tags pip))
                [Example.pip2; Example.pip1]) rs.
Proof.
  pose (rs := value_of [] (listPublicIPAddresses Example.g_mixed)).
  assert (listPublicIPAddresses Example.g_mixed = Ok rs) as Hrs
    by (apply is_Ok_value_of; vm_compute; reflexivity).
  exists rs. split_and!; [exact Hrs|vm_compute; reflexivity|].
  exact (listPublicIPAddresses_exact Example.g_mixed _ rs eq_refl Hrs).
Defined.

(** The networks [vnet1] and [vnet2] are tagged for [c1], with two subnets
    and one: five descriptors in two groups. *)
Lemma listVirtualNetworksAndSubnets_exact_witness :
  ∃ rs groups,
    listVirtualNetworksAndSubnets Example.g = Ok rs
    ∧ rs = concat groups
    ∧ length <$> groups = [3; 2].
Proof.
  pose (rs := value_of [] (listVirtualNetworksAndSubnets Example.g)).
  assert (listVirtualNetworksAndSubnets Example.g = Ok rs) as Hrs
    by (apply is_Ok_value_of; vm_compute; reflexivity).
  destruct (listVirtualNetworksAndSubnets_exact Example.g
              [Example.vnet1; Example.vnet2; Example.vnet3] rs eq_refl Hrs)
    as (groups & Hconcat & Hgroups).
  exists rs, groups. split_and!; [exact Hrs|exact Hconcat|].
  assert (filter (λ vnet, taggedForCluster Example.g (VirtualNetwork_Tags vnet))
            [Example.vnet1; Example.vnet2; Example.vnet3]
          = [Example.vnet1; Example.vnet2]) as Hfilter
    by (vm_compute; reflexivity).
  rewrite Hfilter in Hgroups.
  apply Forall2_cons_inv_l in Hgroups
    as (g1 & groups1 & (r1 & n1 & s1 & sr1 & _ & Hn1 & Hs1 & Hsr1 & ->)
        & Hgroups & ->).
  apply Forall2_cons_inv_l in Hgroups
    as (g2 & groups2 & (r2 & n2 & s2 & sr2 & _ & Hn2 & Hs2 & Hsr2 & ->)
        & Hgroups & ->).
  apply Forall2_nil_inv_l in Hgroups as ->.
  injection Hn1 as <-. injection Hn2 as <-.
  injection Hs1 as <-. injection Hs2 as <-.
  apply Forall2_length in Hsr1, Hsr2. simpl in *.
  by rewrite <- Hsr1, <- Hsr2.
Defined.

(** The resource group [rg3] has a nil cluster-name tag. *)
Lemma listResourcesAzure_nil_tag_faults_witness :
  listResourcesAzure Example.g_nil_tag = Panic.
Proof.
  apply (listResourcesAzure_nil_tag_faults Example.g_nil_tag
           [Example.rg1; Example.rg3] Example.rg3).
  - reflexivity.
  - apply list_elem_of_further, list_elem_of_here.
  - reflexivity.
Defined.

(** No scale set of the example is tagged for cluster [c3]. *)
Lemma listVMScaleSetsAndRoleAssignments_none_owned_witness :
  listVMScaleSetsAndRoleAssignments Example.g_c3 = Ok [].
Proof.
  rewrite (listVMScaleSetsAndRoleAssignments_none_owned Example.g_c3
             [Example.nodes; Example.others]).
  - reflexivity.
  - reflexivity.
  - intros vmss Hin. elem_of_cases Hin; subst vmss; vm_compute; reflexivity.
Defined.

Lemma ListResourcesAzure_empty_witness :
  ListResourcesAzure Example.azure_empty Example.c1 = Ok ∅.
Proof. by apply ListResourcesAzure_empty. Defined.

(** The scale set [nodes] comes first, its role assignment [ra1] after. *)
Lemma listVMScaleSetsAndRoleAssignments_exact_witness :
  ∃ vmssrs rars,
    listVMScaleSetsAndRoleAssignments Example.g = Ok (vmssrs ++ rars)
    ∧ length vmssrs = 1
    ∧ length rars = 1.
Proof.
  pose (rs := value_of [] (listVMScaleSetsAndRoleAssignments Example.g)).
  assert (listVMScaleSetsAndRoleAssignments Example.g = Ok rs) as Hrs
    by (apply is_Ok_value_of; vm_compute; reflexivity).
  destruct (listVMScaleSetsAndRoleAssignments_exact Example.g
              [Example.nodes; Example.others]
              [Example.ra1; Example.ra2; Example.ra3] rs eq_refl eq_refl Hrs)
    as (vmssrs & rars & Hsplit & Hvmss & Hras).
  exists vmssrs, rars. split_and!.
  - by rewrite <- Hsplit.
  - apply Forall2_length in Hvmss. rewrite <- Hvmss.
    vm_compute. reflexivity.
  - apply Forall2_length in Hras. rewrite <- Hras.
    vm_compute. reflexivity.
Defined.

(** The error of listing the disks is an error of the cloud. *)
Lemma listResourcesAzure_Err_witness :
  listResourcesAzure Example.g_disks_failing = Err "TooManyRequests"
  ∧ (cloudError Example.g_disks_failing "TooManyRequests"
     ∨ parseError "TooManyRequests").
Proof.
  assert (listResourcesAzure Example.g_disks_failing = Err "TooManyRequests")
    as Hl by (vm_compute; reflexivity).
  split; [exact Hl|].
  exact (listResourcesAzure_Err Example.g_disks_failing _ Hl).
Defined.

(** The cloud refuses to delete the subnet [sn1] of [vnet1]. *)
Lemma listAll_invokeDeleter_Err_witness :
  invokeDeleter (λ _, Some "Conflict") Example.g Example.subnet_sn1_vnet1
  = Err "Conflict"
  ∧ ∃ call,
      deleterCall Example.g (Deleter Example.subnet_sn1_vnet1)
        Example.subnet_sn1_vnet1 = Ok call
      ∧ (λ _ : DeleteCall, Some "Conflict") call = Some "Conflict"
      ∧ callType call = Type_ Example.subnet_sn1_vnet1
      ∧ callName call = ID Example.subnet_sn1_vnet1.
Proof.
  split; [reflexivity|].
  exact (listAll_invokeDeleter_Err Example.g _ _ (λ _, Some "Conflict")
           "Conflict" listAll_example listAll_example_subnet_sn1_vnet1
           eq_refl).
Defined.
